(** * Kant-image: the layer / history editing model of the photo editor

    A shallow embedding of the React component [App] (the multi-layer
    editor and its single-image sibling) and of [LayerPanel].  React
    state is a record, every [setX] call is a record update, an event
    handler is a function from the state of the render it closes over
    to the state after its updates have been applied.  An awaited
    promise is an argument of the handler: the value it settles with.
    A promise that an effect starts and does not await settles in an
    event of its own.  Numbers are IEEE 754 doubles.
    Browser primitives (object URLs, [atob], image decoding, the canvas
    codec) are the methods of the class [Browser]. *)

From Stdlib Require Import ZArith QArith List String Ascii Bool Lia.
From Stdlib Require Import DecimalString DecimalZ DecimalPos Permutation.
From Stdlib Require Import SpecFloat.
Import ListNotations.

Open Scope string_scope.
Open Scope list_scope.
Open Scope Z_scope.

(** String concatenation, as in a template literal. *)
Notation "a +++ b" := (String.append a b) (at level 60, right associativity).

(** ** JavaScript values used by the editor *)

(** A value thrown by [throw] or carried by a rejected promise: an
    [Error] instance with its [message], or anything else. *)
Inductive Thrown : Type :=
  | JsError (message : string)
  | JsOther.

(** Outcome of a computation that may throw, and of a settled promise. *)
Inductive Result (A : Type) : Type :=
  | Ok (a : A)
  | Throw (e : Thrown).
Arguments Ok {A} a.
Arguments Throw {A} e.

Definition bind {A B : Type} (r : Result A) (k : A -> Result B) : Result B :=
  match r with
  | Ok a => k a
  | Throw e => Throw e
  end.

Notation "x <- r ;; k" := (bind r (fun x => k))
  (at level 61, r at next level, right associativity).

(** [err instanceof Error ? err.message : 'An unknown error occurred.'] *)
Definition errorMessageOf (err : Thrown) : string :=
  match err with
  | JsError m => m
  | JsOther => "An unknown error occurred."
  end.

(** [arr[i]]: [undefined] (here [None]) outside the array. *)
Definition index {A : Type} (l : list A) (i : Z) : option A :=
  if i <? 0 then None else nth_error l (Z.to_nat i).

(** [arr.slice(0, end)]: a negative [end] counts from the back. *)
Definition slice0 {A : Type} (l : list A) (end_ : Z) : list A :=
  let len := Z.of_nat (List.length l) in
  let k := if end_ <? 0 then Z.max (len + end_) 0 else Z.min end_ len in
  firstn (Z.to_nat k) l.

(** [arr[arr.length - 1]] of a non-empty array. *)
Definition lastOf {A : Type} (l : list A) : option A :=
  index l (Z.of_nat (List.length l) - 1).

(** Template literal [`${n}`] of an integer. *)
Definition showZ (z : Z) : string := NilZero.string_of_int (Z.to_int z).

(** A JavaScript number: an IEEE 754 double (53 bits of precision,
    results rounded to the nearest double, ties to even), with its two
    zeros, two infinities and [NaN]. *)
Definition num : Type := spec_float.

(** The number an integer is: itself below 2^53 in absolute value, the
    nearest double beyond. *)
Definition numOfZ (z : Z) : num := binary_normalize 53 1024 z 0 false.

(** [a / b] of two integers *)
Definition numDiv (a b : Z) : num := SFdiv 53 1024 (numOfZ a) (numOfZ b).

(** [a * b] *)
Definition numMul (a b : num) : num := SFmul 53 1024 a b.

(** [x === 0]: true of both zeros, false of [NaN]. *)
Definition numIsZero (x : num) : bool :=
  match x with
  | S754_zero _ => true
  | _ => false
  end.

(** The integer part of a number, the fraction dropped: there is none
    for [NaN] and the infinities. *)
Definition numTrunc (x : num) : option Z :=
  match x with
  | S754_zero _ => Some 0
  | S754_finite s m e =>
      Some (cond_Zopp s
              (if e <? 0 then Z.pos m / 2 ^ (- e) else Z.pos m * 2 ^ e))
  | _ => None
  end.

(** ** Strings: [trim], [split(',')] and the MIME regular expression *)

Definition byte (c : ascii) : N := N_of_ascii c.

Definition isAsciiSpace (c : ascii) : bool :=
  let n := byte c in
  ((9 <=? n) && (n <=? 13) || (n =? 32))%N.

(** [s.trim() === ''], that is [!s.trim()]: the string holds nothing but
    white space and line terminators (UTF-8 encoded code points
    U+0009..U+000D, U+0020, U+00A0, U+1680, U+2000..U+200A, U+2028,
    U+2029, U+202F, U+205F, U+3000, U+FEFF). *)
Fixpoint trimIsEmpty (s : string) : bool :=
  match s with
  | EmptyString => true
  | String c r =>
      if isAsciiSpace c then trimIsEmpty r
      else
        match r with
        | String c2 r2 =>
            if ((byte c =? 194) && (byte c2 =? 160))%N then trimIsEmpty r2
            else
              match r2 with
              | String c3 r3 =>
                  let b1 := byte c in
                  let b2 := byte c2 in
                  let b3 := byte c3 in
                  if ((b1 =? 225) && (b2 =? 154) && (b3 =? 128)
                      || (b1 =? 226) && (b2 =? 128)
                         && ((128 <=? b3) && (b3 <=? 138) || (b3 =? 168)
                             || (b3 =? 169) || (b3 =? 175))
                      || (b1 =? 226) && (b2 =? 129) && (b3 =? 159)
                      || (b1 =? 227) && (b2 =? 128) && (b3 =? 128)
                      || (b1 =? 239) && (b2 =? 187) && (b3 =? 191))%N
                  then trimIsEmpty r3
                  else false
              | EmptyString => false
              end
        | EmptyString => false
        end
  end.

(** [s.split(',')] *)
Fixpoint splitComma (s : string) : list string :=
  match s with
  | EmptyString => [EmptyString]
  | String c r =>
      if (byte c =? 44)%N then EmptyString :: splitComma r
      else
        match splitComma r with
        | w :: ws => String c w :: ws
        | [] => [String c EmptyString]
        end
  end.

(** The lazy group of [/:(.*?);/] tried right after a colon: the text up
    to the first semicolon, provided no line terminator (LF, CR, U+2028,
    U+2029) comes before it. *)
Fixpoint lazyUntilSemicolon (s : string) : option string :=
  match s with
  | EmptyString => None
  | String c r =>
      if (byte c =? 59)%N then Some EmptyString
      else if ((byte c =? 10) || (byte c =? 13))%N then None
      else
        match r with
        | String c2 (String c3 _) =>
            if ((byte c =? 226) && (byte c2 =? 128)
                && ((byte c3 =? 168) || (byte c3 =? 169)))%N
            then None
            else option_map (String c) (lazyUntilSemicolon r)
        | _ => option_map (String c) (lazyUntilSemicolon r)
        end
  end.

(** [s.match(/:(.*?);/)], reduced to its capture group [m[1]]: the
    leftmost colon from which the group matches wins. *)
Fixpoint matchMime (s : string) : option string :=
  match s with
  | EmptyString => None
  | String c r =>
      if (byte c =? 58)%N then
        match lazyUntilSemicolon r with
        | Some g => Some g
        | None => matchMime r
        end
      else matchMime r
  end.

(** A white-space or line-terminator code point at the head of the
    string, if any: what is left behind it. *)
Definition dropSpace (s : string) : option string :=
  match s with
  | EmptyString => None
  | String c r =>
      if isAsciiSpace c then Some r
      else
        match r with
        | String c2 r2 =>
            if ((byte c =? 194) && (byte c2 =? 160))%N then Some r2
            else
              match r2 with
              | String c3 r3 =>
                  let b1 := byte c in
                  let b2 := byte c2 in
                  let b3 := byte c3 in
                  if ((b1 =? 225) && (b2 =? 154) && (b3 =? 128)
                      || (b1 =? 226) && (b2 =? 128)
                         && ((128 <=? b3) && (b3 <=? 138) || (b3 =? 168)
                             || (b3 =? 169) || (b3 =? 175))
                      || (b1 =? 226) && (b2 =? 129) && (b3 =? 159)
                      || (b1 =? 227) && (b2 =? 128) && (b3 =? 128)
                      || (b1 =? 239) && (b2 =? 187) && (b3 =? 191))%N
                  then Some r3
                  else None
              | EmptyString => None
              end
        | EmptyString => None
        end
  end.

(** [s.trimStart()]; [fuel] bounds the number of code points removed. *)
Fixpoint trimStartFuel (fuel : nat) (s : string) : string :=
  match fuel with
  | O => s
  | S fuel' =>
      match dropSpace s with
      | Some r => trimStartFuel fuel' r
      | None => s
      end
  end.

Definition trimStart (s : string) : string :=
  trimStartFuel (String.length s) s.

Fixpoint revString (s acc : string) : string :=
  match s with
  | EmptyString => acc
  | String c r => revString r (String c acc)
  end.

(** The same code points read from the end of the string: the bytes of
    each come in reverse order. *)
Definition dropSpaceBack (s : string) : option string :=
  match s with
  | EmptyString => None
  | String c r =>
      if isAsciiSpace c then Some r
      else
        match r with
        | String c2 r2 =>
            if ((byte c2 =? 194) && (byte c =? 160))%N then Some r2
            else
              match r2 with
              | String c3 r3 =>
                  let b1 := byte c3 in
                  let b2 := byte c2 in
                  let b3 := byte c in
                  if ((b1 =? 225) && (b2 =? 154) && (b3 =? 128)
                      || (b1 =? 226) && (b2 =? 128)
                         && ((128 <=? b3) && (b3 <=? 138) || (b3 =? 168)
                             || (b3 =? 169) || (b3 =? 175))
                      || (b1 =? 226) && (b2 =? 129) && (b3 =? 159)
                      || (b1 =? 227) && (b2 =? 128) && (b3 =? 128)
                      || (b1 =? 239) && (b2 =? 187) && (b3 =? 191))%N
                  then Some r3
                  else None
              | EmptyString => None
              end
        | EmptyString => None
        end
  end.

Fixpoint trimBackFuel (fuel : nat) (s : string) : string :=
  match fuel with
  | O => s
  | S fuel' =>
      match dropSpaceBack s with
      | Some r => trimBackFuel fuel' r
      | None => s
      end
  end.

(** [s.trim()] *)
Definition trim (s : string) : string :=
  let t := trimStart s in
  revString (trimBackFuel (String.length t) (revString t EmptyString))
    EmptyString.

(** [s.split(sep)] for a separator of one character. *)
Fixpoint splitOn (sep : ascii) (s : string) : list string :=
  match s with
  | EmptyString => [EmptyString]
  | String c r =>
      if Ascii.eqb c sep then EmptyString :: splitOn sep r
      else
        match splitOn sep r with
        | w :: ws => String c w :: ws
        | [] => [String c EmptyString]
        end
  end.

(** [arr.join(sep)] *)
Fixpoint joinWith (sep : string) (l : list string) : string :=
  match l with
  | [] => EmptyString
  | [w] => w
  | w :: ws => w +++ sep +++ joinWith sep ws
  end.

(** [arr.slice(0, -1)] *)
Definition dropLast {A : Type} (l : list A) : list A := slice0 l (-1).

(** ** Files, images and the canvas *)

(** A [File]: name, MIME type and content (one character per byte). *)
Record File : Type := mkFile {
  fileName : string;
  fileType : string;
  fileBytes : string
}.

(** Every character of [s] has its code between [lo] and [hi]. *)
Definition within (lo hi : N) (s : string) : bool :=
  forallb (fun c => ((lo <=? byte c) && (byte c <=? hi))%N)
    (list_ascii_of_string s).

(** A character in ASCII lower case. *)
Definition asciiLower (c : ascii) : ascii :=
  if ((65 <=? byte c) && (byte c <=? 90))%N then ascii_of_N (byte c + 32)
  else c.

Fixpoint lowerString (s : string) : string :=
  match s with
  | EmptyString => EmptyString
  | String c r => String (asciiLower c) (lowerString r)
  end.

(** The [type] a [File] is given by its constructor: empty when the
    one asked for has a character outside U+0020..U+007E, in ASCII
    lower case otherwise. *)
Definition fileTypeOf (type_ : string) : string :=
  if within 32 126 type_ then lowerString type_ else EmptyString.

(** [new File([bytes], name, { type })] *)
Definition newFile (name_ type_ bytes : string) : File :=
  mkFile name_ (fileTypeOf type_) bytes.

(** A decoded [HTMLImageElement]. *)
Record HTMLImage : Type := mkImage {
  src : string;
  naturalWidth : Z;
  naturalHeight : Z;
  width : Z;
  height : Z
}.

(** What the code asks of a 2D context, in the order it asks. *)
Inductive CanvasOp : Type :=
  | SetGlobalAlpha (a : num)
  | DrawImage5 (img : HTMLImage) (dx dy dw dh : num)
  | DrawImage9 (img : HTMLImage) (sx sy sw sh dx dy dw dh : num).

(** A canvas element: its bitmap size and the calls made on its context. *)
Record Canvas : Type := mkCanvas {
  canvasWidth : Z;
  canvasHeight : Z;
  ops : list CanvasOp
}.

(** [document.createElement('canvas')] *)
Definition createCanvas : Canvas := mkCanvas 300 150 [].

(** Assigning a number to [canvas.width] or [canvas.height]: converted
    to an unsigned long (truncated, modulo 2^32; [NaN] and the
    infinities are 0); a value above 2^31-1 is replaced by the
    attribute's default. *)
Definition canvasDim (default : Z) (x : num) : Z :=
  match numTrunc x with
  | None => 0
  | Some t =>
      let m := t mod 4294967296 in
      if m >? 2147483647 then default else m
  end.

(** Setting a dimension also clears the bitmap. *)
Definition setCanvasSize (w h : Z) (c : Canvas) : Canvas :=
  mkCanvas w h [].

Definition canvasDo (o : CanvasOp) (c : Canvas) : Canvas :=
  mkCanvas (canvasWidth c) (canvasHeight c) (ops c ++ [o]).

(** The browser the component runs in. *)
Class Browser : Type := {
  (** [URL.createObjectURL(file)]; the registry behind the URLs (which
      of them exist, which were revoked) is not modelled *)
  createObjectURL : File -> string;
  (** [atob(s)] *)
  atob : string -> Result string;
  (** setting [img.src]: [Some] when [onload] fires, [None] for [onerror] *)
  loadImage : string -> option HTMLImage;
  (** [canvas.getContext('2d')] is not [null] *)
  hasContext2d : bool;
  (** serialisation of a bitmap that has pixels, for a MIME type *)
  encodeBitmap : Canvas -> string -> string;
  (** [canvas.toBlob]: the bytes handed to the callback, if any *)
  encodeBlob : Canvas -> string -> option string
}.

(** [canvas.toDataURL(type)]: a bitmap without pixels serialises as
    ["data:,"]. *)
Definition toDataURL `{Browser} (c : Canvas) (mime : string) : string :=
  if (canvasWidth c =? 0) || (canvasHeight c =? 0) then "data:,"
  else encodeBitmap c mime.

(** [dataURLtoFile(dataurl, filename)] *)
Definition dataURLtoFile `{Browser} (dataurl filename : string) : Result File :=
  match splitComma dataurl with
  | a0 :: a1 :: _ =>
      match matchMime a0 with
      | Some (String c m) =>
          bstr <- atob a1 ;;
          Ok (newFile filename (String c m) bstr)
      | _ => Throw (JsError "Could not parse MIME type from data URL")
      end
  | _ => Throw (JsError "Invalid data URL")
  end.

(** [canvas.toBlob(callback, type)]: the callback gets [null] for a
    bitmap without pixels. *)
Definition toBlob `{Browser} (c : Canvas) (mime : string) : option string :=
  if (canvasWidth c =? 0) || (canvasHeight c =? 0) then None
  else encodeBlob c mime.

(** ** Types shared by the two editors *)

(** [type Tab] *)
Inductive Tab : Type :=
  | Retouch | Faceswap | Adjust | Filters | CropTab | RemoveBg.

Record Hotspot : Type := mkHotspot { hx : Z; hy : Z }.

Inductive CropUnit : Type := Px | Percent.

(** [Crop] of react-image-crop *)
Record Crop : Type := mkCrop {
  cropUnit : CropUnit;
  cropX : num;
  cropY : num;
  cropWidth : num;
  cropHeight : num
}.

(** Function application written in the order the statements run. *)
Notation "s |> f" := (f s) (at level 45, left associativity, only parsing).

(** ** The multi-layer editor *)

Module Layered.

(** [interface Layer] *)
Record Layer : Type := mkLayer {
  id : string;
  file : File;
  objectUrl : string;
  name : string;
  opacity : Z;
  isVisible : bool
}.

(** The [useState] cells of [App]. *)
Record State : Type := mkState {
  history : list (list Layer);
  historyIndex : Z;
  layers : list Layer;
  activeLayerId : option string;
  prompt : string;
  additionalPrompt : string;
  isLoading : bool;
  error : option string;
  successMessage : option string;
  editHotspot : option Hotspot;
  displayHotspot : option Hotspot;
  activeTab : Tab;
  secondaryImage : option File;
  retouchScale : Z;
  crop : option Crop;
  completedCrop : option Crop;
  aspect : option Q;
  isComparing : bool;
  showExportModal : bool;
  fileToExport : option File;
  isTransparent : bool;
  flattenedImageForCropUrl : option string
}.

(** The state setters: [setX v] replaces the cell [x] and nothing else. *)
Definition setHistory (v : list (list Layer)) (s : State) : State :=
  mkState v (historyIndex s) (layers s) (activeLayerId s) (prompt s)
    (additionalPrompt s) (isLoading s) (error s) (successMessage s)
    (editHotspot s) (displayHotspot s) (activeTab s) (secondaryImage s)
    (retouchScale s) (crop s) (completedCrop s) (aspect s) (isComparing s)
    (showExportModal s) (fileToExport s) (isTransparent s)
    (flattenedImageForCropUrl s).

Definition setHistoryIndex (v : Z) (s : State) : State :=
  mkState (history s) v (layers s) (activeLayerId s) (prompt s)
    (additionalPrompt s) (isLoading s) (error s) (successMessage s)
    (editHotspot s) (displayHotspot s) (activeTab s) (secondaryImage s)
    (retouchScale s) (crop s) (completedCrop s) (aspect s) (isComparing s)
    (showExportModal s) (fileToExport s) (isTransparent s)
    (flattenedImageForCropUrl s).

Definition setLayers (v : list Layer) (s : State) : State :=
  mkState (history s) (historyIndex s) v (activeLayerId s) (prompt s)
    (additionalPrompt s) (isLoading s) (error s) (successMessage s)
    (editHotspot s) (displayHotspot s) (activeTab s) (secondaryImage s)
    (retouchScale s) (crop s) (completedCrop s) (aspect s) (isComparing s)
    (showExportModal s) (fileToExport s) (isTransparent s)
    (flattenedImageForCropUrl s).

Definition setActiveLayerId (v : option string) (s : State) : State :=
  mkState (history s) (historyIndex s) (layers s) v (prompt s)
    (additionalPrompt s) (isLoading s) (error s) (successMessage s)
    (editHotspot s) (displayHotspot s) (activeTab s) (secondaryImage s)
    (retouchScale s) (crop s) (completedCrop s) (aspect s) (isComparing s)
    (showExportModal s) (fileToExport s) (isTransparent s)
    (flattenedImageForCropUrl s).

Definition setPrompt (v : string) (s : State) : State :=
  mkState (history s) (historyIndex s) (layers s) (activeLayerId s) v
    (additionalPrompt s) (isLoading s) (error s) (successMessage s)
    (editHotspot s) (displayHotspot s) (activeTab s) (secondaryImage s)
    (retouchScale s) (crop s) (completedCrop s) (aspect s) (isComparing s)
    (showExportModal s) (fileToExport s) (isTransparent s)
    (flattenedImageForCropUrl s).

Definition setAdditionalPrompt (v : string) (s : State) : State :=
  mkState (history s) (historyIndex s) (layers s) (activeLayerId s)
    (prompt s) v (isLoading s) (error s) (successMessage s) (editHotspot s)
    (displayHotspot s) (activeTab s) (secondaryImage s) (retouchScale s)
    (crop s) (completedCrop s) (aspect s) (isComparing s) (showExportModal
    s) (fileToExport s) (isTransparent s) (flattenedImageForCropUrl s).

Definition setIsLoading (v : bool) (s : State) : State :=
  mkState (history s) (historyIndex s) (layers s) (activeLayerId s)
    (prompt s) (additionalPrompt s) v (error s) (successMessage s)
    (editHotspot s) (displayHotspot s) (activeTab s) (secondaryImage s)
    (retouchScale s) (crop s) (completedCrop s) (aspect s) (isComparing s)
    (showExportModal s) (fileToExport s) (isTransparent s)
    (flattenedImageForCropUrl s).

Definition setError (v : option string) (s : State) : State :=
  mkState (history s) (historyIndex s) (layers s) (activeLayerId s)
    (prompt s) (additionalPrompt s) (isLoading s) v (successMessage s)
    (editHotspot s) (displayHotspot s) (activeTab s) (secondaryImage s)
    (retouchScale s) (crop s) (completedCrop s) (aspect s) (isComparing s)
    (showExportModal s) (fileToExport s) (isTransparent s)
    (flattenedImageForCropUrl s).

Definition setSuccessMessage (v : option string) (s : State) : State :=
  mkState (history s) (historyIndex s) (layers s) (activeLayerId s)
    (prompt s) (additionalPrompt s) (isLoading s) (error s) v (editHotspot
    s) (displayHotspot s) (activeTab s) (secondaryImage s) (retouchScale s)
    (crop s) (completedCrop s) (aspect s) (isComparing s) (showExportModal
    s) (fileToExport s) (isTransparent s) (flattenedImageForCropUrl s).

Definition setEditHotspot (v : option Hotspot) (s : State) : State :=
  mkState (history s) (historyIndex s) (layers s) (activeLayerId s)
    (prompt s) (additionalPrompt s) (isLoading s) (error s) (successMessage
    s) v (displayHotspot s) (activeTab s) (secondaryImage s) (retouchScale
    s) (crop s) (completedCrop s) (aspect s) (isComparing s)
    (showExportModal s) (fileToExport s) (isTransparent s)
    (flattenedImageForCropUrl s).

Definition setDisplayHotspot (v : option Hotspot) (s : State) : State :=
  mkState (history s) (historyIndex s) (layers s) (activeLayerId s)
    (prompt s) (additionalPrompt s) (isLoading s) (error s) (successMessage
    s) (editHotspot s) v (activeTab s) (secondaryImage s) (retouchScale s)
    (crop s) (completedCrop s) (aspect s) (isComparing s) (showExportModal
    s) (fileToExport s) (isTransparent s) (flattenedImageForCropUrl s).

Definition setActiveTab (v : Tab) (s : State) : State :=
  mkState (history s) (historyIndex s) (layers s) (activeLayerId s)
    (prompt s) (additionalPrompt s) (isLoading s) (error s) (successMessage
    s) (editHotspot s) (displayHotspot s) v (secondaryImage s) (retouchScale
    s) (crop s) (completedCrop s) (aspect s) (isComparing s)
    (showExportModal s) (fileToExport s) (isTransparent s)
    (flattenedImageForCropUrl s).

Definition setSecondaryImage (v : option File) (s : State) : State :=
  mkState (history s) (historyIndex s) (layers s) (activeLayerId s)
    (prompt s) (additionalPrompt s) (isLoading s) (error s) (successMessage
    s) (editHotspot s) (displayHotspot s) (activeTab s) v (retouchScale s)
    (crop s) (completedCrop s) (aspect s) (isComparing s) (showExportModal
    s) (fileToExport s) (isTransparent s) (flattenedImageForCropUrl s).

Definition setRetouchScale (v : Z) (s : State) : State :=
  mkState (history s) (historyIndex s) (layers s) (activeLayerId s)
    (prompt s) (additionalPrompt s) (isLoading s) (error s) (successMessage
    s) (editHotspot s) (displayHotspot s) (activeTab s) (secondaryImage s) v
    (crop s) (completedCrop s) (aspect s) (isComparing s) (showExportModal
    s) (fileToExport s) (isTransparent s) (flattenedImageForCropUrl s).

Definition setCrop (v : option Crop) (s : State) : State :=
  mkState (history s) (historyIndex s) (layers s) (activeLayerId s)
    (prompt s) (additionalPrompt s) (isLoading s) (error s) (successMessage
    s) (editHotspot s) (displayHotspot s) (activeTab s) (secondaryImage s)
    (retouchScale s) v (completedCrop s) (aspect s) (isComparing s)
    (showExportModal s) (fileToExport s) (isTransparent s)
    (flattenedImageForCropUrl s).

Definition setCompletedCrop (v : option Crop) (s : State) : State :=
  mkState (history s) (historyIndex s) (layers s) (activeLayerId s)
    (prompt s) (additionalPrompt s) (isLoading s) (error s) (successMessage
    s) (editHotspot s) (displayHotspot s) (activeTab s) (secondaryImage s)
    (retouchScale s) (crop s) v (aspect s) (isComparing s) (showExportModal
    s) (fileToExport s) (isTransparent s) (flattenedImageForCropUrl s).

Definition setAspect (v : option Q) (s : State) : State :=
  mkState (history s) (historyIndex s) (layers s) (activeLayerId s)
    (prompt s) (additionalPrompt s) (isLoading s) (error s) (successMessage
    s) (editHotspot s) (displayHotspot s) (activeTab s) (secondaryImage s)
    (retouchScale s) (crop s) (completedCrop s) v (isComparing s)
    (showExportModal s) (fileToExport s) (isTransparent s)
    (flattenedImageForCropUrl s).

Definition setIsComparing (v : bool) (s : State) : State :=
  mkState (history s) (historyIndex s) (layers s) (activeLayerId s)
    (prompt s) (additionalPrompt s) (isLoading s) (error s) (successMessage
    s) (editHotspot s) (displayHotspot s) (activeTab s) (secondaryImage s)
    (retouchScale s) (crop s) (completedCrop s) (aspect s) v
    (showExportModal s) (fileToExport s) (isTransparent s)
    (flattenedImageForCropUrl s).

Definition setShowExportModal (v : bool) (s : State) : State :=
  mkState (history s) (historyIndex s) (layers s) (activeLayerId s)
    (prompt s) (additionalPrompt s) (isLoading s) (error s) (successMessage
    s) (editHotspot s) (displayHotspot s) (activeTab s) (secondaryImage s)
    (retouchScale s) (crop s) (completedCrop s) (aspect s) (isComparing s) v
    (fileToExport s) (isTransparent s) (flattenedImageForCropUrl s).

Definition setFileToExport (v : option File) (s : State) : State :=
  mkState (history s) (historyIndex s) (layers s) (activeLayerId s)
    (prompt s) (additionalPrompt s) (isLoading s) (error s) (successMessage
    s) (editHotspot s) (displayHotspot s) (activeTab s) (secondaryImage s)
    (retouchScale s) (crop s) (completedCrop s) (aspect s) (isComparing s)
    (showExportModal s) v (isTransparent s) (flattenedImageForCropUrl s).

Definition setIsTransparent (v : bool) (s : State) : State :=
  mkState (history s) (historyIndex s) (layers s) (activeLayerId s)
    (prompt s) (additionalPrompt s) (isLoading s) (error s) (successMessage
    s) (editHotspot s) (displayHotspot s) (activeTab s) (secondaryImage s)
    (retouchScale s) (crop s) (completedCrop s) (aspect s) (isComparing s)
    (showExportModal s) (fileToExport s) v (flattenedImageForCropUrl s).

Definition setFlattenedImageForCropUrl (v : option string) (s : State) : State :=
  mkState (history s) (historyIndex s) (layers s) (activeLayerId s)
    (prompt s) (additionalPrompt s) (isLoading s) (error s) (successMessage
    s) (editHotspot s) (displayHotspot s) (activeTab s) (secondaryImage s)
    (retouchScale s) (crop s) (completedCrop s) (aspect s) (isComparing s)
    (showExportModal s) (fileToExport s) (isTransparent s) v.

(** The state of the first render. *)
Definition initialState (transparent : bool) : State :=
  mkState [] (-1) [] None "" "" false None None None None Retouch None 100
    None None None false false None transparent None.

Section Handlers.

Context `{Browser}.

(** [activeLayerId === i], the former a string or [null] *)
Definition sameId (a : option string) (i : string) : bool :=
  match a with
  | Some x => String.eqb x i
  | None => false
  end.

(** [l.id === activeLayerId] *)
Definition idIs (a : option string) (l : Layer) : bool := sameId a (id l).

(** [layers.find(l => l.id === activeLayerId)] *)
Definition activeLayer (s : State) : option Layer :=
  find (idIs (activeLayerId s)) (layers s).

Definition canUndo (s : State) : bool := historyIndex s >? 0.

Definition canRedo (s : State) : bool :=
  historyIndex s <? Z.of_nat (List.length (history s)) - 1.

(** The effect on [[layers]]: a layer without object URL gets one, by
    assignment to the layer object itself. *)
Definition manageObjectUrl (l : Layer) : Layer :=
  match objectUrl l with
  | EmptyString =>
      mkLayer (id l) (file l) (createObjectURL (file l)) (name l) (opacity l)
        (isVisible l)
  | _ => l
  end.

(** [commitChanges(newLayers, options)].  The loop that revokes the
    object URLs of replaced files only talks to the browser's URL
    registry and writes no state. *)
Definition commitChanges (newLayers : list Layer) (addToHistory : bool)
    (s : State) : State :=
  let s1 := s |> setLayers newLayers in
  let s2 :=
    if addToHistory then
      let newHistory := slice0 (history s) (historyIndex s + 1) ++ [newLayers] in
      s1 |> setHistory newHistory
         |> setHistoryIndex (Z.of_nat (List.length newHistory) - 1)
    else s1 in
  s2 |> setCrop None |> setCompletedCrop None |> setSecondaryImage None
     |> setAdditionalPrompt "" |> setRetouchScale 100.

(** [handleImageUpload(file)]; [now] is what [Date.now()] returns. *)
Definition handleImageUpload (file_ : File) (now : Z) (s : State) : State :=
  let newLayer :=
    mkLayer ("layer-" +++ showZ now) file_ (createObjectURL file_) "Background"
      100 true in
  s |> setError None
    |> setLayers [newLayer]
    |> setActiveLayerId (Some (id newLayer))
    |> setHistory [[newLayer]]
    |> setHistoryIndex 0
    |> setSuccessMessage (Some "อัปโหลดรูปภาพสำเร็จแล้ว!")
    |> setEditHotspot None
    |> setDisplayHotspot None
    |> setActiveTab Retouch.

(** [handleAddLayer(file)] *)
Definition handleAddLayer (file_ : File) (now : Z) (s : State) : State :=
  if Z.of_nat (List.length (layers s)) =? 0 then handleImageUpload file_ now s
  else
    let newLayer :=
      mkLayer ("layer-" +++ showZ now) file_ (createObjectURL file_)
        ("Layer " +++ showZ (Z.of_nat (List.length (layers s)))) 100 true in
    let newLayers := layers s ++ [newLayer] in
    s |> commitChanges newLayers true
      |> setActiveLayerId (Some (id newLayer)).

(** [{ ...l, file: newImageFile, objectUrl: URL.createObjectURL(newImageFile) }] *)
Definition withFile (newImageFile : File) (l : Layer) : Layer :=
  mkLayer (id l) newImageFile (createObjectURL newImageFile) (name l)
    (opacity l) (isVisible l).

(** [layers.map(l => l.id === activeLayerId ? { ...l, file, objectUrl } : l)] *)
Definition replaceActiveFile (newImageFile : File) (s : State) : list Layer :=
  map (fun l => if idIs (activeLayerId s) l then withFile newImageFile l else l)
    (layers s).

(** The [try] / [catch] / [finally] shared by the five service calls:
    [body] is the [try] block run on the state left by
    [setIsLoading(true); setError(null)], [label] the text the message
    starts with. *)
Definition tryCatchFinally (label : string) (body : State -> Result State)
    (s : State) : State :=
  let s1 := s |> setIsLoading true |> setError None in
  match body s1 with
  | Ok s2 => s2 |> setIsLoading false
  | Throw err =>
      s1 |> setError (Some (label +++ errorMessageOf err))
         |> setIsLoading false
  end.

(** [handleGenerate()]; [response] settles [generateEditedImage(...)]. *)
Definition handleGenerate (now : Z) (response : Result string) (s : State)
    : State :=
  match activeLayer s with
  | None => s |> setError (Some "ยังไม่ได้เลือกเลเยอร์เพื่อแก้ไข")
  | Some _ =>
      if trimIsEmpty (prompt s) then
        s |> setError (Some "กรุณาใส่คำอธิบายการแก้ไขของคุณ")
      else
        match editHotspot s with
        | None =>
            s |> setError (Some "กรุณาคลิกบนภาพเพื่อเลือกพื้นที่ที่ต้องการแก้ไข")
        | Some _ =>
            tryCatchFinally "สร้างรูปภาพไม่สำเร็จ "
              (fun s1 =>
                 editedImageUrl <- response ;;
                 newImageFile <-
                   dataURLtoFile editedImageUrl ("edited-" +++ showZ now +++ ".png") ;;
                 Ok (s1 |> commitChanges (replaceActiveFile newImageFile s) true
                        |> setPrompt ""
                        |> setEditHotspot None
                        |> setDisplayHotspot None))
              s
        end
  end.

(** [handleApplyFilter(filterPrompt, additionalPrompt)]; the two
    arguments only travel to the service, as do those of the next
    handlers. *)
Definition handleApplyFilter (now : Z) (response : Result string) (s : State)
    : State :=
  match activeLayer s with
  | None => s |> setError (Some "ยังไม่ได้เลือกเลเยอร์เพื่อใช้ฟิลเตอร์")
  | Some _ =>
      tryCatchFinally "ใช้ฟิลเตอร์ไม่สำเร็จ "
        (fun s1 =>
           filteredImageUrl <- response ;;
           newImageFile <-
             dataURLtoFile filteredImageUrl ("filtered-" +++ showZ now +++ ".png") ;;
           Ok (s1 |> commitChanges (replaceActiveFile newImageFile s) true))
        s
  end.

(** [handleApplyAdjustment(adjustmentPrompt, additionalPrompt)] *)
Definition handleApplyAdjustment (now : Z) (response : Result string)
    (s : State) : State :=
  match activeLayer s with
  | None => s |> setError (Some "ยังไม่ได้เลือกเลเยอร์เพื่อปรับแต่ง")
  | Some _ =>
      tryCatchFinally "ปรับแต่งไม่สำเร็จ "
        (fun s1 =>
           adjustedImageUrl <- response ;;
           newImageFile <-
             dataURLtoFile adjustedImageUrl ("adjusted-" +++ showZ now +++ ".png") ;;
           Ok (s1 |> commitChanges (replaceActiveFile newImageFile s) true))
        s
  end.

(** [handleApplyFaceSwap()] *)
Definition handleApplyFaceSwap (now : Z) (response : Result string)
    (s : State) : State :=
  match activeLayer s, secondaryImage s with
  | Some _, Some _ =>
      tryCatchFinally "สลับใบหน้าไม่สำเร็จ: "
        (fun s1 =>
           swappedImageUrl <- response ;;
           newImageFile <-
             dataURLtoFile swappedImageUrl ("faceswap-" +++ showZ now +++ ".png") ;;
           Ok (s1 |> commitChanges (replaceActiveFile newImageFile s) true))
        s
  | _, _ =>
      s |> setError
             (Some "กรุณาเลือกเลเยอร์และอัปโหลดภาพเป้าหมายเพื่อทำการสลับใบหน้า")
  end.

(** [handleRemoveBackground(additionalPrompt)] *)
Definition handleRemoveBackground (now : Z) (response : Result string)
    (s : State) : State :=
  match activeLayer s with
  | None => s |> setError (Some "ยังไม่ได้เลือกเลเยอร์เพื่อลบพื้นหลัง")
  | Some _ =>
      tryCatchFinally "ลบพื้นหลังไม่สำเร็จ: "
        (fun s1 =>
           removedBgImageUrl <- response ;;
           newImageFile <-
             dataURLtoFile removedBgImageUrl
               ("removed-bg-" +++ showZ now +++ ".png") ;;
           Ok (s1 |> commitChanges (replaceActiveFile newImageFile s) true))
        s
  end.

(** One turn of the loop of [flattenLayersForCrop]: a visible layer is
    decoded and drawn over the whole canvas with its opacity as alpha;
    [img.onerror = reject] rejects with the error event. *)
Definition drawLayer (layer : Layer) (canvas : Canvas) : Result Canvas :=
  if isVisible layer then
    match loadImage (objectUrl layer) with
    | Some img =>
        Ok (canvas
              |> canvasDo (SetGlobalAlpha (numDiv (opacity layer) 100))
              |> canvasDo
                   (DrawImage5 img (numOfZ 0) (numOfZ 0)
                      (numOfZ (canvasWidth canvas))
                      (numOfZ (canvasHeight canvas))))
    | None => Throw JsOther
    end
  else Ok canvas.

(** [for (const layer of layers) { ... }] *)
Fixpoint drawLayers (ls : list Layer) (canvas : Canvas) : Result Canvas :=
  match ls with
  | [] => Ok canvas
  | layer :: rest =>
      canvas' <- drawLayer layer canvas ;;
      drawLayers rest canvas'
  end.

(** [flattenLayersForCrop()], a function of the [layers] it closes
    over: the data URL of the composite, or [null]. *)
Definition flattenLayersForCrop (ls : list Layer) : Result (option string) :=
  if Z.of_nat (List.length ls) =? 0 then Ok None
  else if negb hasContext2d then Ok None
  else
    match find isVisible ls with
    | None => Ok None
    | Some firstVisibleLayer =>
        match loadImage (objectUrl firstVisibleLayer) with
        | None => Throw JsOther
        | Some baseImg =>
            let canvas :=
              createCanvas
                |> (fun c => setCanvasSize
                               (canvasDim 300 (numOfZ (naturalWidth baseImg)))
                               (canvasHeight c) c)
                |> (fun c => setCanvasSize (canvasWidth c)
                               (canvasDim 150 (numOfZ (naturalHeight baseImg)))
                               c) in
            canvas' <- drawLayers ls canvas ;;
            Ok (Some (toDataURL canvas' "image/png"))
        end
    end.

(** A string or [null] used as a condition: [null] and [''] are falsy. *)
Definition truthy (o : option string) : option string :=
  match o with
  | Some EmptyString => None
  | _ => o
  end.

(** [handleApplyCrop()].  The image is decoded from the flattened data
    URL; when decoding fails [onload] never fires and the handler stays
    suspended at its [await], leaving the state of
    [setIsLoading(true); setError(null)]. *)
Definition handleApplyCrop (now : Z) (s : State) : State :=
  match completedCrop s, truthy (flattenedImageForCropUrl s), activeLayer s with
  | Some completedCrop_, Some url, Some activeLayer_ =>
      match loadImage url with
      | None => s |> setIsLoading true |> setError None
      | Some image =>
          tryCatchFinally "ตัดภาพไม่สำเร็จ: "
            (fun s1 =>
               let scaleX := numDiv (naturalWidth image) (width image) in
               let scaleY := numDiv (naturalHeight image) (height image) in
               let canvas :=
                 createCanvas
                   |> (fun c => setCanvasSize
                          (canvasDim 300 (numMul (cropWidth completedCrop_) scaleX))
                          (canvasHeight c) c)
                   |> (fun c => setCanvasSize (canvasWidth c)
                          (canvasDim 150 (numMul (cropHeight completedCrop_) scaleY))
                          c) in
               if negb hasContext2d then
                 Throw (JsError "Could not create canvas context")
               else
                 let canvas' :=
                   canvas
                     |> canvasDo
                          (DrawImage9 image
                             (numMul (cropX completedCrop_) scaleX)
                             (numMul (cropY completedCrop_) scaleY)
                             (numMul (cropWidth completedCrop_) scaleX)
                             (numMul (cropHeight completedCrop_) scaleY)
                             (numOfZ 0) (numOfZ 0)
                             (numOfZ (canvasWidth canvas))
                             (numOfZ (canvasHeight canvas))) in
                 let croppedDataUrl := toDataURL canvas' "image/png" in
                 newImageFile <-
                   dataURLtoFile croppedDataUrl
                     ("cropped-" +++ showZ now +++ ".png") ;;
                 let newLayer :=
                   mkLayer (id activeLayer_) newImageFile
                     (createObjectURL newImageFile) "Cropped Image"
                     (opacity activeLayer_) (isVisible activeLayer_) in
                 Ok (s1 |> commitChanges [newLayer] true
                        |> setActiveTab Retouch))
            s
      end
  | _, _, _ => s |> setError (Some "กรุณาเลือกพื้นที่ก่อนทำการตัดภาพ")
  end.

(** [handleUndo()].  [history[newIndex]] exists whenever the cursor is
    inside the history; outside, [layers] would become [undefined], a
    value [State] has no place for, and the cell is left alone. *)
Definition handleUndo (s : State) : State :=
  if canUndo s then
    let newIndex := historyIndex s - 1 in
    match index (history s) newIndex with
    | Some snapshot => s |> setHistoryIndex newIndex |> setLayers snapshot
    | None => s |> setHistoryIndex newIndex
    end
  else s.

(** [handleRedo()] *)
Definition handleRedo (s : State) : State :=
  if canRedo s then
    let newIndex := historyIndex s + 1 in
    match index (history s) newIndex with
    | Some snapshot => s |> setHistoryIndex newIndex |> setLayers snapshot
    | None => s |> setHistoryIndex newIndex
    end
  else s.

(** [handleDeleteLayer(id)] *)
Definition handleDeleteLayer (id_ : string) (s : State) : State :=
  let newLayers := filter (fun l => negb (String.eqb (id l) id_)) (layers s) in
  if Z.of_nat (List.length newLayers) >? 0 then
    (if sameId (activeLayerId s) id_ then
       match lastOf newLayers with
       | Some top => s |> setActiveLayerId (Some (id top))
       | None => s
       end
     else s)
      |> commitChanges newLayers true
  else
    s |> setLayers [] |> setHistory [] |> setHistoryIndex (-1)
      |> setActiveLayerId None.

(** [handleReorderLayers(reordered)] *)
Definition handleReorderLayers (reordered : list Layer) (s : State) : State :=
  s |> commitChanges reordered true.

(** [{ ...l, opacity }] *)
Definition withOpacity (opacity_ : Z) (l : Layer) : Layer :=
  mkLayer (id l) (file l) (objectUrl l) (name l) opacity_ (isVisible l).

(** [handleLayerOpacityChange(id, opacity)] *)
Definition handleLayerOpacityChange (id_ : string) (opacity_ : Z) (s : State)
    : State :=
  let newLayers :=
    map (fun l => if String.eqb (id l) id_ then withOpacity opacity_ l else l)
      (layers s) in
  s |> commitChanges newLayers false.

(** [commitOpacityChange()] *)
Definition commitOpacityChange (s : State) : State :=
  let newHistory := slice0 (history s) (historyIndex s + 1) ++ [layers s] in
  s |> setHistory newHistory
    |> setHistoryIndex (Z.of_nat (List.length newHistory) - 1).

(** [{ ...l, isVisible: !l.isVisible }] *)
Definition toggleVisible (l : Layer) : Layer :=
  mkLayer (id l) (file l) (objectUrl l) (name l) (opacity l)
    (negb (isVisible l)).

(** [handleLayerVisibilityChange(id)] *)
Definition handleLayerVisibilityChange (id_ : string) (s : State) : State :=
  let newLayers :=
    map (fun l => if String.eqb (id l) id_ then toggleVisible l else l)
      (layers s) in
  s |> commitChanges newLayers true.

(** [handleFileSelect(files)], [files[0]] being a file or missing *)
Definition handleFileSelect (file0 : option File) (now : Z) (s : State)
    : State :=
  match file0 with
  | Some f => handleImageUpload f now s
  | None => s
  end.

(** [handleImageClick(e)]: [x], [y] are the rounded offsets of the click
    in the image container. *)
Definition handleImageClick (x y : Z) (s : State) : State :=
  match activeTab s with
  | Retouch =>
      s |> setEditHotspot (Some (mkHotspot x y))
        |> setDisplayHotspot (Some (mkHotspot x y))
  | _ => s
  end.

(** [handleExport()] *)
Definition handleExport (now : Z) (s : State) : State :=
  match flattenLayersForCrop (layers s) with
  | Ok dataUrl =>
      match truthy dataUrl with
      | Some url =>
          match dataURLtoFile url ("export-" +++ showZ now +++ ".png") with
          | Ok f =>
              s |> setFileToExport (Some f) |> setShowExportModal true
                |> setIsLoading false
          | Throw _ =>
              s |> setError (Some "Could not prepare image for export.")
                |> setIsLoading false
          end
      | None =>
          s |> setError (Some "Could not prepare image for export.")
            |> setIsLoading false
      end
  | Throw _ =>
      s |> setError (Some "Could not prepare image for export.")
        |> setIsLoading false
  end.

(** The effect on [[activeTab, flattenLayersForCrop]], as far as it
    writes a cell when it runs: off the crop tab it empties the
    composite cell.  On the crop tab it only calls
    [flattenLayersForCrop()]; the [then] that stores the answer runs
    when that promise has settled, which can be after later events,
    and nothing cancels it. *)
Definition prepareCropEffect (s : State) : State :=
  match activeTab s with
  | CropTab => s
  | _ => s |> setFlattenedImageForCropUrl None
  end.

(** The [then] of that effect; [url] is what the promise settled with:
    the composite of the layers of the render that started it, or
    [null].  A rejected promise has no handler and writes nothing. *)
Definition compositeSettled (url : option string) (s : State) : State :=
  s |> setFlattenedImageForCropUrl url.

(** [history[0] || []] *)
Definition beforeLayers (s : State) : list Layer :=
  match index (history s) 0 with
  | Some snapshot => snapshot
  | None => []
  end.

(** [isComparing ? beforeLayers : layers]: the layers the editor
    renders. *)
Definition currentLayersToDisplay (s : State) : list Layer :=
  if isComparing s then beforeLayers s else layers s.

End Handlers.

End Layered.

(** ** The single-image editor *)

Module Flat.

(** The [useState] cells of the single-image [App] that its handlers
    write; the three derived object-URL cells are left out.  The
    setters [setX v] replace the cell [x] and nothing else. *)
Record State : Type := mkState {
  history : list File;
  historyIndex : Z;
  prompt : string;
  additionalPrompt : string;
  isLoading : bool;
  error : option string;
  successMessage : option string;
  editHotspot : option Hotspot;
  displayHotspot : option (Q * Q);
  activeTab : Tab;
  secondaryImage : option File;
  retouchScale : Z;
  crop : option Crop;
  completedCrop : option Crop
}.

Definition setHistory (v : list File) (s : State) : State :=
  mkState v (historyIndex s) (prompt s) (additionalPrompt s) (isLoading s)
    (error s) (successMessage s) (editHotspot s) (displayHotspot s)
    (activeTab s) (secondaryImage s) (retouchScale s) (crop s)
    (completedCrop s).

Definition setHistoryIndex (v : Z) (s : State) : State :=
  mkState (history s) v (prompt s) (additionalPrompt s) (isLoading s)
    (error s) (successMessage s) (editHotspot s) (displayHotspot s)
    (activeTab s) (secondaryImage s) (retouchScale s) (crop s)
    (completedCrop s).

Definition setAdditionalPrompt (v : string) (s : State) : State :=
  mkState (history s) (historyIndex s) (prompt s) v (isLoading s) (error
    s) (successMessage s) (editHotspot s) (displayHotspot s) (activeTab s)
    (secondaryImage s) (retouchScale s) (crop s) (completedCrop s).

Definition setError (v : option string) (s : State) : State :=
  mkState (history s) (historyIndex s) (prompt s) (additionalPrompt s)
    (isLoading s) v (successMessage s) (editHotspot s) (displayHotspot s)
    (activeTab s) (secondaryImage s) (retouchScale s) (crop s)
    (completedCrop s).

Definition setSuccessMessage (v : option string) (s : State) : State :=
  mkState (history s) (historyIndex s) (prompt s) (additionalPrompt s)
    (isLoading s) (error s) v (editHotspot s) (displayHotspot s) (activeTab
    s) (secondaryImage s) (retouchScale s) (crop s) (completedCrop s).

Definition setEditHotspot (v : option Hotspot) (s : State) : State :=
  mkState (history s) (historyIndex s) (prompt s) (additionalPrompt s)
    (isLoading s) (error s) (successMessage s) v (displayHotspot s)
    (activeTab s) (secondaryImage s) (retouchScale s) (crop s)
    (completedCrop s).

Definition setDisplayHotspot (v : option (Q * Q)) (s : State) : State :=
  mkState (history s) (historyIndex s) (prompt s) (additionalPrompt s)
    (isLoading s) (error s) (successMessage s) (editHotspot s) v (activeTab
    s) (secondaryImage s) (retouchScale s) (crop s) (completedCrop s).

Definition setActiveTab (v : Tab) (s : State) : State :=
  mkState (history s) (historyIndex s) (prompt s) (additionalPrompt s)
    (isLoading s) (error s) (successMessage s) (editHotspot s)
    (displayHotspot s) v (secondaryImage s) (retouchScale s) (crop s)
    (completedCrop s).

Definition setSecondaryImage (v : option File) (s : State) : State :=
  mkState (history s) (historyIndex s) (prompt s) (additionalPrompt s)
    (isLoading s) (error s) (successMessage s) (editHotspot s)
    (displayHotspot s) (activeTab s) v (retouchScale s) (crop s)
    (completedCrop s).

Definition setRetouchScale (v : Z) (s : State) : State :=
  mkState (history s) (historyIndex s) (prompt s) (additionalPrompt s)
    (isLoading s) (error s) (successMessage s) (editHotspot s)
    (displayHotspot s) (activeTab s) (secondaryImage s) v (crop s)
    (completedCrop s).

Definition setCrop (v : option Crop) (s : State) : State :=
  mkState (history s) (historyIndex s) (prompt s) (additionalPrompt s)
    (isLoading s) (error s) (successMessage s) (editHotspot s)
    (displayHotspot s) (activeTab s) (secondaryImage s) (retouchScale s) v
    (completedCrop s).

Definition setCompletedCrop (v : option Crop) (s : State) : State :=
  mkState (history s) (historyIndex s) (prompt s) (additionalPrompt s)
    (isLoading s) (error s) (successMessage s) (editHotspot s)
    (displayHotspot s) (activeTab s) (secondaryImage s) (retouchScale s)
    (crop s) v.

Definition initialState : State :=
  mkState [] (-1) "" "" false None None None None Retouch None 100 None None.

(** [history[historyIndex] ?? null] *)
Definition currentImage (s : State) : option File :=
  index (history s) (historyIndex s).

Definition canUndo (s : State) : bool := historyIndex s >? 0.

Definition canRedo (s : State) : bool :=
  historyIndex s <? Z.of_nat (List.length (history s)) - 1.

(** [addImageToHistory(newImageFile)] *)
Definition addImageToHistory (newImageFile : File) (s : State) : State :=
  let newHistory :=
    slice0 (history s) (historyIndex s + 1) ++ [newImageFile] in
  s |> setHistory newHistory
    |> setHistoryIndex (Z.of_nat (List.length newHistory) - 1)
    |> setCrop None |> setCompletedCrop None |> setSecondaryImage None
    |> setAdditionalPrompt "" |> setRetouchScale 100.

(** [handleImageUpload(file)] *)
Definition handleImageUpload (file_ : File) (s : State) : State :=
  s |> setError None
    |> setHistory [file_]
    |> setHistoryIndex 0
    |> setSuccessMessage (Some "อัปโหลดรูปภาพสำเร็จแล้ว!")
    |> setEditHotspot None
    |> setDisplayHotspot None
    |> setActiveTab Retouch
    |> setCrop None |> setCompletedCrop None |> setSecondaryImage None
    |> setAdditionalPrompt "" |> setRetouchScale 100.

(** [handleUndo()] *)
Definition handleUndo (s : State) : State :=
  if canUndo s then s |> setHistoryIndex (historyIndex s - 1) else s.

(** [handleRedo()] *)
Definition handleRedo (s : State) : State :=
  if canRedo s then s |> setHistoryIndex (historyIndex s + 1) else s.

(** [handleApplyCrop()]; [imgRef] is [imgRef.current], the rendered
    image or [null].  The callback of [toBlob] is run in the same
    step. *)
Definition handleApplyCrop `{Browser} (imgRef : option HTMLImage) (now : Z)
    (s : State) : State :=
  match completedCrop s, imgRef, currentImage s with
  | Some completedCrop_, Some image, Some _ =>
      let canvas := createCanvas in
      let scaleX := numDiv (naturalWidth image) (width image) in
      let scaleY := numDiv (naturalHeight image) (height image) in
      let cropX_ := numMul (cropX completedCrop_) scaleX in
      let cropY_ := numMul (cropY completedCrop_) scaleY in
      let cropWidth_ := numMul (cropWidth completedCrop_) scaleX in
      let cropHeight_ := numMul (cropHeight completedCrop_) scaleY in
      if numIsZero cropWidth_ || numIsZero cropHeight_ then
        s |> setError (Some "พื้นที่ที่เลือกตัดมีขนาดเล็กเกินไป")
      else
        let canvas1 :=
          canvas
            |> (fun c => setCanvasSize (canvasDim 300 cropWidth_)
                           (canvasHeight c) c)
            |> (fun c => setCanvasSize (canvasWidth c)
                           (canvasDim 150 cropHeight_) c) in
        if negb hasContext2d then
          s |> setError (Some "ไม่สามารถสร้าง canvas สำหรับการตัดภาพได้")
        else
          let canvas2 :=
            canvas1
              |> canvasDo
                   (DrawImage9 image cropX_ cropY_ cropWidth_ cropHeight_
                      (numOfZ 0) (numOfZ 0) cropWidth_ cropHeight_) in
          match toBlob canvas2 "image/png" with
          | Some blob =>
              let file_ :=
                newFile ("cropped-" +++ showZ now +++ ".png") "image/png" blob in
              s |> addImageToHistory file_ |> setActiveTab Retouch
          | None => s
          end
  | _, _, _ => s |> setError (Some "กรุณาเลือกพื้นที่ที่จะตัดก่อน")
  end.

Definition setPrompt (v : string) (s : State) : State :=
  mkState (history s) (historyIndex s) v (additionalPrompt s) (isLoading
    s) (error s) (successMessage s) (editHotspot s) (displayHotspot s)
    (activeTab s) (secondaryImage s) (retouchScale s) (crop s)
    (completedCrop s).

Definition setIsLoading (v : bool) (s : State) : State :=
  mkState (history s) (historyIndex s) (prompt s) (additionalPrompt s) v
    (error s) (successMessage s) (editHotspot s) (displayHotspot s)
    (activeTab s) (secondaryImage s) (retouchScale s) (crop s)
    (completedCrop s).

(** [history[0] ?? null] *)
Definition originalImage (s : State) : option File := index (history s) 0.

(** The [try] / [catch] / [finally] of the five service calls of this
    editor. *)
Definition tryCatchFinally (label : string) (body : State -> Result State)
    (s : State) : State :=
  let s1 := s |> setIsLoading true |> setError None in
  match body s1 with
  | Ok s2 => s2 |> setIsLoading false
  | Throw err =>
      s1 |> setError (Some (label +++ errorMessageOf err))
         |> setIsLoading false
  end.

(** [handleGenerate()] *)
Definition handleGenerate `{Browser} (now : Z) (response : Result string)
    (s : State) : State :=
  match currentImage s with
  | None => s |> setError (Some "ยังไม่ได้โหลดรูปภาพเพื่อแก้ไข")
  | Some _ =>
      if trimIsEmpty (prompt s) then
        s |> setError (Some "กรุณาใส่คำอธิบายการแก้ไขของคุณ")
      else
        match editHotspot s with
        | None =>
            s |> setError (Some "กรุณาคลิกบนภาพเพื่อเลือกพื้นที่ที่ต้องการแก้ไข")
        | Some _ =>
            tryCatchFinally "สร้างรูปภาพไม่สำเร็จ "
              (fun s1 =>
                 editedImageUrl <- response ;;
                 newImageFile <-
                   dataURLtoFile editedImageUrl ("edited-" +++ showZ now +++ ".png") ;;
                 Ok (s1 |> addImageToHistory newImageFile
                        |> setPrompt ""
                        |> setEditHotspot None
                        |> setDisplayHotspot None))
              s
        end
  end.

(** [handleApplyFilter(filterPrompt, additionalPrompt)] *)
Definition handleApplyFilter `{Browser} (now : Z) (response : Result string)
    (s : State) : State :=
  match currentImage s with
  | None => s |> setError (Some "ยังไม่ได้โหลดรูปภาพเพื่อใช้ฟิลเตอร์")
  | Some _ =>
      tryCatchFinally "ใช้ฟิลเตอร์ไม่สำเร็จ "
        (fun s1 =>
           filteredImageUrl <- response ;;
           newImageFile <-
             dataURLtoFile filteredImageUrl ("filtered-" +++ showZ now +++ ".png") ;;
           Ok (s1 |> addImageToHistory newImageFile))
        s
  end.

(** [handleApplyAdjustment(adjustmentPrompt, additionalPrompt)] *)
Definition handleApplyAdjustment `{Browser} (now : Z) (response : Result string)
    (s : State) : State :=
  match currentImage s with
  | None => s |> setError (Some "ยังไม่ได้โหลดรูปภาพเพื่อปรับแต่ง")
  | Some _ =>
      tryCatchFinally "ปรับแต่งไม่สำเร็จ "
        (fun s1 =>
           adjustedImageUrl <- response ;;
           newImageFile <-
             dataURLtoFile adjustedImageUrl ("adjusted-" +++ showZ now +++ ".png") ;;
           Ok (s1 |> addImageToHistory newImageFile))
        s
  end.

(** [handleApplyFaceSwap()] *)
Definition handleApplyFaceSwap `{Browser} (now : Z) (response : Result string)
    (s : State) : State :=
  match currentImage s, secondaryImage s with
  | Some _, Some _ =>
      tryCatchFinally "สลับใบหน้าไม่สำเร็จ "
        (fun s1 =>
           swappedImageUrl <- response ;;
           newImageFile <-
             dataURLtoFile swappedImageUrl ("faceswap-" +++ showZ now +++ ".png") ;;
           Ok (s1 |> addImageToHistory newImageFile))
        s
  | _, _ =>
      s |> setError
             (Some "กรุณาอัปโหลดทั้งภาพต้นฉบับและภาพเป้าหมายเพื่อทำการสลับใบหน้า")
  end.

(** [handleApplyRemoveBackground(additionalPrompt)] *)
Definition handleApplyRemoveBackground `{Browser} (now : Z)
    (response : Result string) (s : State) : State :=
  match currentImage s with
  | None => s |> setError (Some "ยังไม่ได้โหลดรูปภาพเพื่อลบพื้นหลัง")
  | Some _ =>
      tryCatchFinally "ลบพื้นหลังไม่สำเร็จ "
        (fun s1 =>
           removedBgImageUrl <- response ;;
           newImageFile <-
             dataURLtoFile removedBgImageUrl
               ("removed-bg-" +++ showZ now +++ ".png") ;;
           Ok (s1 |> addImageToHistory newImageFile))
        s
  end.

(** [handleImageClick(e)].  [rendered] says that [imgRef.current] is
    there, [x], [y] are the offsets of the click in the image,
    [onHotspot] is the outcome of [distance < 15] and [actual] holds
    [Math.round(x * widthScale)] and [Math.round(y * heightScale)]: the
    browser computes both in floating point. *)
Definition handleImageClick (rendered onHotspot : bool) (x y : Q)
    (actual : Hotspot) (s : State) : State :=
  match activeTab s with
  | Retouch =>
      if negb rendered then s
      else
        match displayHotspot s with
        | Some _ =>
            if onHotspot then s |> setDisplayHotspot None |> setEditHotspot None
            else
              s |> setEditHotspot (Some actual)
                |> setDisplayHotspot (Some (x, y))
                |> setPrompt ""
        | None =>
            s |> setEditHotspot (Some actual)
              |> setDisplayHotspot (Some (x, y))
              |> setPrompt ""
        end
  | _ => s
  end.

(** [handleTabChange(newTab)] *)
Definition handleTabChange (newTab : Tab) (s : State) : State :=
  match activeTab s, newTab with
  | Retouch, Retouch => s |> setActiveTab newTab
  | Retouch, _ =>
      s |> setEditHotspot None |> setDisplayHotspot None
        |> setActiveTab newTab
  | _, _ => s |> setActiveTab newTab
  end.

(** [handleSecondaryImageUpload(file)] *)
Definition handleSecondaryImageUpload (file_ : File) (s : State) : State :=
  s |> setSecondaryImage (Some file_).

(** [handleClearSecondaryImage()] *)
Definition handleClearSecondaryImage (s : State) : State :=
  s |> setSecondaryImage None.

(** The user actions and promise settlements this editor reacts to. *)
Inductive Event : Type :=
  | Upload (f : File)
  | Generate (now : Z) (response : Result string)
  | ApplyFilter (now : Z) (response : Result string)
  | ApplyAdjustment (now : Z) (response : Result string)
  | ApplyFaceSwap (now : Z) (response : Result string)
  | RemoveBackground (now : Z) (response : Result string)
  | ApplyCrop (imgRef : option HTMLImage) (now : Z)
  | ImageClick (rendered onHotspot : bool) (x y : Q) (actual : Hotspot)
  | TabChange (t : Tab)
  | Undo
  | Redo
  | SecondaryImageUpload (f : File)
  | ClearSecondaryImage
  | PromptInput (v : string)
  | AdditionalPromptInput (v : string)
  | RetouchScaleInput (v : Z)
  | CropChange (c : Crop)
  | CropComplete (c : Crop)
  | ErrorToastClose
  | SuccessToastClose.

(** The handler bound to each event. *)
Definition handle `{Browser} (e : Event) (s : State) : State :=
  match e with
  | Upload f => handleImageUpload f s
  | Generate now response => handleGenerate now response s
  | ApplyFilter now response => handleApplyFilter now response s
  | ApplyAdjustment now response => handleApplyAdjustment now response s
  | ApplyFaceSwap now response => handleApplyFaceSwap now response s
  | RemoveBackground now response => handleApplyRemoveBackground now response s
  | ApplyCrop imgRef now => handleApplyCrop imgRef now s
  | ImageClick rendered onHotspot x y actual =>
      handleImageClick rendered onHotspot x y actual s
  | TabChange t => handleTabChange t s
  | Undo => handleUndo s
  | Redo => handleRedo s
  | SecondaryImageUpload f => handleSecondaryImageUpload f s
  | ClearSecondaryImage => handleClearSecondaryImage s
  | PromptInput v => s |> setPrompt v
  | AdditionalPromptInput v => s |> setAdditionalPrompt v
  | RetouchScaleInput v => s |> setRetouchScale v
  | CropChange c => s |> setCrop (Some c)
  | CropComplete c => s |> setCompletedCrop (Some c)
  | ErrorToastClose => s |> setError None
  | SuccessToastClose => s |> setSuccessMessage None
  end.

Definition run `{Browser} (es : list Event) (s : State) : State :=
  fold_left (fun st e => handle e st) es s.

End Flat.

(** ** The layer panel *)

Module LayerPanel.

Import Layered.

(** [const [x] = arr.splice(i, 1)]: the removed element, if any, and
    what is left of the array. *)
Definition spliceOut {A : Type} (i : nat) (l : list A) : option A * list A :=
  (nth_error l i, firstn i l ++ skipn (S i) l).

(** [arr.splice(i, 0, x)] *)
Definition spliceIn {A : Type} (i : nat) (x : A) (l : list A) : list A :=
  firstn i l ++ x :: skipn i l.

(** [handleDragEnd()]: the array handed to [onLayerReorder], when it is
    called.  [dragItem] and [dragOverItem] are the refs, holding indices
    of rendered rows; an index past the end would move [undefined]
    and is not modelled. *)
Definition handleDragEnd (dragItem dragOverItem : option nat)
    (layers_ : list Layer) : option (list Layer) :=
  let reversedLayers := rev layers_ in
  match dragItem, dragOverItem with
  | Some i, Some j =>
      if Nat.eqb i j then None
      else
        match spliceOut i reversedLayers with
        | (Some draggedItemContent, rest) =>
            Some (rev (spliceIn j draggedItemContent rest))
        | (None, _) => None
        end
  | _, _ => None
  end.

(** What can happen to the opacity slider of a row.  The [input] binds
    [onChange] and [onClick] and nothing else. *)
Inductive SliderEvent : Type :=
  | SliderChange (value : Z)
  | SliderClick
  | SliderRelease.

(** The handler the slider of layer [layerId] runs for an event:
    [onChange] calls [onLayerOpacityChange(layer.id, parseInt(value, 10))],
    [onClick] stops propagation, a release (mouse-up, touch-end) finds
    no handler. *)
Definition onSlider `{Browser} (layerId : string) (e : SliderEvent) (s : State)
    : State :=
  match e with
  | SliderChange value => handleLayerOpacityChange layerId value s
  | SliderClick => s
  | SliderRelease => s
  end.

End LayerPanel.

(** ** The export dialog *)

Module ExportModal.

Inductive Format : Type := Png | Jpeg.

(** [`${format}`] *)
Definition formatName (f : Format) : string :=
  match f with
  | Png => "png"
  | Jpeg => "jpeg"
  end.

(** [`edited-${imageFile?.name.split('.').slice(0, -1).join('.') || 'image'}`] *)
Definition defaultFileName (imageFile : option File) : string :=
  "edited-"
  +++ match imageFile with
      | Some f =>
          match joinWith "." (dropLast (splitOn "."%char (fileName f))) with
          | EmptyString => "image"
          | base => base
          end
      | None => "image"
      end.

(** The [useState] cells of [ExportModal]. *)
Record State : Type := mkState {
  fileName : string;
  format : Format;
  isProcessing : bool
}.

(** The state of the first render. *)
Definition initialState (imageFile : option File) : State :=
  mkState (defaultFileName imageFile) Png false.

(** What [handleDownload] hands to the browser: the link it clicks. *)
Record Download : Type := mkDownload {
  href : string;
  download : string
}.

(** The outcome of [handleDownload]: the cells, the link clicked, if
    any, and whether [onClose] was called. *)
Record Outcome : Type := mkOutcome {
  after : State;
  clicked : option Download;
  closed : bool
}.

(** [handleDownload()].  [ctx.drawImage(img, 0, 0)] draws the image at
    its natural size; the quality argument of [toDataURL] is fixed by
    the format and is left to the codec. *)
Definition handleDownload `{Browser} (imageFile : option File) (s : State)
    : Outcome :=
  match imageFile with
  | None => mkOutcome s None false
  | Some imageFile_ =>
      match trim (fileName s) with
      | EmptyString => mkOutcome s None false
      | trimmed =>
          let body : Result Download :=
            match loadImage (createObjectURL imageFile_) with
            | None => Throw JsOther
            | Some img =>
                let canvas :=
                  createCanvas
                    |> (fun c => setCanvasSize
                                   (canvasDim 300 (numOfZ (naturalWidth img)))
                                   (canvasHeight c) c)
                    |> (fun c => setCanvasSize (canvasWidth c)
                                   (canvasDim 150 (numOfZ (naturalHeight img)))
                                   c) in
                if negb hasContext2d then
                  Throw (JsError "Could not get canvas context")
                else
                  let canvas' :=
                    canvas
                      |> canvasDo
                           (DrawImage5 img (numOfZ 0) (numOfZ 0)
                              (numOfZ (naturalWidth img))
                              (numOfZ (naturalHeight img))) in
                  let mimeType := "image/" +++ formatName (format s) in
                  let dataUrl := toDataURL canvas' mimeType in
                  Ok (mkDownload dataUrl
                        (trimmed +++ "." +++ formatName (format s)))
            end in
          match body with
          | Ok link =>
              mkOutcome (mkState (fileName s) (format s) false) (Some link) true
          | Throw _ =>
              mkOutcome (mkState (fileName s) (format s) false) None false
          end
      end
  end.

End ExportModal.

(** ** The filter and adjustment panels *)

Module Panels.

(** The [useState] cells [FilterPanel] and [AdjustmentPanel] have in
    common. *)
Record State : Type := mkState {
  selectedPresetPrompt : option string;
  customPrompt : string
}.

(** The state of the first render. *)
Definition initialState : State := mkState None "".

(** [selectedPresetPrompt || customPrompt]: [null] and [''] are falsy. *)
Definition activePrompt (s : State) : string :=
  match selectedPresetPrompt s with
  | Some (String c p) => String c p
  | _ => customPrompt s
  end.

(** [handlePresetClick(prompt)] *)
Definition handlePresetClick (prompt_ : string) (s : State) : State :=
  mkState (Some prompt_) "".

(** [handleCustomChange(e)]; [value] is [e.target.value]. *)
Definition handleCustomChange (value : string) (s : State) : State :=
  mkState None value.

(** [handleApply()] of [FilterPanel]: the prompt [onApplyFilter] is
    called with, when it is called. *)
Definition filterApply (s : State) : option string :=
  match activePrompt s with
  | EmptyString => None
  | String c p => Some (String c p)
  end.

(** The apply button of [FilterPanel] is rendered, under
    [activePrompt &&], and not disabled, by
    [isLoading || !activePrompt.trim()]. *)
Definition filterButtonEnabled (isLoading_ : bool) (s : State) : bool :=
  match activePrompt s with
  | EmptyString => false
  | String c p => negb (isLoading_ || trimIsEmpty (String c p))
  end.

(** [handleApply()] of [AdjustmentPanel] *)
Definition adjustApply (secondaryImage_ : option File) (s : State)
    : option string :=
  match activePrompt s, secondaryImage_ with
  | EmptyString, None => None
  | p, _ => Some p
  end.

(** The apply button of [AdjustmentPanel] is rendered, under
    [(activePrompt || secondaryImage) &&], and not disabled, by
    [isLoading || (!activePrompt.trim() && !secondaryImage)]. *)
Definition adjustButtonEnabled (isLoading_ : bool)
    (secondaryImage_ : option File) (s : State) : bool :=
  match activePrompt s, secondaryImage_ with
  | EmptyString, None => false
  | p, si =>
      negb (isLoading_
            || (trimIsEmpty p && match si with None => true | Some _ => false end))
  end.

(** What the user does to the prompt of a panel. *)
Inductive Event : Type :=
  | PresetClick (prompt_ : string)
  | CustomChange (value : string).

Definition handle (e : Event) (s : State) : State :=
  match e with
  | PresetClick prompt_ => handlePresetClick prompt_ s
  | CustomChange value => handleCustomChange value s
  end.

Definition run (es : list Event) (s : State) : State :=
  fold_left (fun st e => handle e st) es s.

End Panels.

(** ** The editor as a transition system *)

Module App.

Import Layered.

(** The user actions and promise settlements the component reacts to. *)
Inductive Event : Type :=
  | FileSelect (file0 : option File) (now : Z)
  | LayerAdd (f : File) (now : Z)
  | LayerSelect (i : string)
  | LayerDelete (i : string)
  | LayerDragEnd (dragItem dragOverItem : option nat)
  | LayerSlider (i : string) (e : LayerPanel.SliderEvent)
  | LayerVisibility (i : string)
  | Undo
  | Redo
  | Generate (now : Z) (response : Result string)
  | ApplyFilter (now : Z) (response : Result string)
  | ApplyAdjustment (now : Z) (response : Result string)
  | ApplyFaceSwap (now : Z) (response : Result string)
  | RemoveBackground (now : Z) (response : Result string)
  | ApplyCrop (now : Z)
  | Export (now : Z)
  | ImageClick (x y : Z)
  | TabClick (t : Tab)
  | PromptInput (v : string)
  | AdditionalPromptInput (v : string)
  | RetouchScaleInput (v : Z)
  | SecondaryImageInput (f : option File)
  | CropChange (c : Crop)
  | CropComplete (c : Crop)
  | AspectSet (a : option Q)
  | CompareHold (down : bool)
  | TransparentToggle
  | ExportModalClose
  | ErrorToastClose
  | SuccessToastClose
  | CropEffect
  | CompositeSettled (url : option string).

Section Step.

Context `{Browser}.

(** The handler bound to each event. *)
Definition handle (e : Event) (s : State) : State :=
  match e with
  | FileSelect file0 now => handleFileSelect file0 now s
  | LayerAdd f now => handleAddLayer f now s
  | LayerSelect i => s |> setActiveLayerId (Some i)
  | LayerDelete i => handleDeleteLayer i s
  | LayerDragEnd dragItem dragOverItem =>
      match LayerPanel.handleDragEnd dragItem dragOverItem (layers s) with
      | Some reordered => handleReorderLayers reordered s
      | None => s
      end
  | LayerSlider i ev => LayerPanel.onSlider i ev s
  | LayerVisibility i => handleLayerVisibilityChange i s
  | Undo => handleUndo s
  | Redo => handleRedo s
  | Generate now response => handleGenerate now response s
  | ApplyFilter now response => handleApplyFilter now response s
  | ApplyAdjustment now response => handleApplyAdjustment now response s
  | ApplyFaceSwap now response => handleApplyFaceSwap now response s
  | RemoveBackground now response => handleRemoveBackground now response s
  | ApplyCrop now => handleApplyCrop now s
  | Export now => handleExport now s
  | ImageClick x y => handleImageClick x y s
  | TabClick t => s |> setActiveTab t
  | PromptInput v => s |> setPrompt v
  | AdditionalPromptInput v => s |> setAdditionalPrompt v
  | RetouchScaleInput v => s |> setRetouchScale v
  | SecondaryImageInput f => s |> setSecondaryImage f
  | CropChange c => s |> setCrop (Some c)
  | CropComplete c => s |> setCompletedCrop (Some c)
  | AspectSet a => s |> setAspect a
  | CompareHold down => s |> setIsComparing down
  | TransparentToggle => s |> setIsTransparent (negb (isTransparent s))
  | ExportModalClose => s |> setShowExportModal false
  | ErrorToastClose => s |> setError None
  | SuccessToastClose => s |> setSuccessMessage None
  | CropEffect => prepareCropEffect s
  | CompositeSettled url => compositeSettled url s
  end.

(** One reaction of the component.  The effect that prepares the crop
    and the settlement of the promise it starts are events of their
    own, [CropEffect] and [CompositeSettled]: React runs the effect
    after a render in which the tab or the layers have changed, the
    promise settles when the images have been decoded, and user input
    can come in between.  Every such schedule is a sequence of events.
    The other effect on [[layers]], [Layered.manageObjectUrl], assigns
    to layer objects that have no object URL; [object_urls_present]
    shows that there never is one. *)
Definition step (e : Event) (s : State) : State := handle e s.

(** The states the editor can be in. *)
Inductive reachable : State -> Prop :=
  | reachable_init (transparent : bool) :
      reachable (initialState transparent)
  | reachable_step (e : Event) (s : State) :
      reachable s -> reachable (step e s).

Definition run (es : list Event) (s : State) : State :=
  fold_left (fun st e => step e st) es s.

End Step.

Arguments step : simpl never.

End App.

(** ** A sample browser, for running the editor on concrete inputs *)

Module Sample.

(** Value of a character of the base64 alphabet. *)
Definition sextet (c : ascii) : option N :=
  let n := byte c in
  (if (65 <=? n) && (n <=? 90) then Some (n - 65)
   else if (97 <=? n) && (n <=? 122) then Some (n - 71)
   else if (48 <=? n) && (n <=? 57) then Some (n + 4)
   else if n =? 43 then Some 62
   else if n =? 47 then Some 63
   else None)%N.

Fixpoint sextets (s : string) : option (list N) :=
  match s with
  | EmptyString => Some []
  | String c r =>
      match sextet c, sextets r with
      | Some v, Some vs => Some (v :: vs)
      | _, _ => None
      end
  end.

Definition chr (n : N) : ascii := ascii_of_N (n mod 256).

Fixpoint octets (l : list N) : string :=
  match l with
  | a :: b :: c :: d :: r =>
      (String (chr (a * 4 + b / 16))
         (String (chr (b * 16 + c / 4)) (String (chr (c * 64 + d)) (octets r))))%N
  | [a; b; c] =>
      (String (chr (a * 4 + b / 16)) (String (chr (b * 16 + c / 4)) EmptyString))%N
  | [a; b] => String (chr (a * 4 + b / 16))%N EmptyString
  | _ => EmptyString
  end.

Fixpoint dropSpaces (s : string) : string :=
  match s with
  | EmptyString => EmptyString
  | String c r =>
      let n := byte c in
      if ((n =? 9) || (n =? 10) || (n =? 12) || (n =? 13) || (n =? 32))%N
      then dropSpaces r
      else String c (dropSpaces r)
  end.

(** Removes one or two trailing [=] of a string whose length is a
    multiple of four. *)
Definition dropPadding (s : string) : string :=
  let n := String.length s in
  if negb (Nat.eqb (n mod 4) 0) then s
  else if String.eqb (substring (n - 2) 2 s) "==" then substring 0 (n - 2) s
  else if String.eqb (substring (n - 1) 1 s) "=" then substring 0 (n - 1) s
  else s.

(** Forgiving base64 decoding, as [atob] does it. *)
Definition decodeBase64 (s : string) : Result string :=
  let t := dropPadding (dropSpaces s) in
  if Nat.eqb (String.length t mod 4) 1 then
    Throw (JsError "The string to be decoded is not correctly encoded.")
  else
    match sextets t with
    | Some vs => Ok (octets vs)
    | None => Throw (JsError "The string to be decoded is not correctly encoded.")
    end.

(** Object URLs are derived from the file name, every non-empty URL
    decodes to a 640 by 480 image shown at half size, a 2D context is
    always available and the codec writes a fixed payload. *)
#[export] Instance browser : Browser := {
  createObjectURL f := "blob:" +++ fileName f;
  atob := decodeBase64;
  loadImage url :=
    match url with
    | EmptyString => None
    | _ => Some (mkImage url 640 480 320 240)
    end;
  hasContext2d := true;
  encodeBitmap _ mime := "data:" +++ mime +++ ";base64,aGk=";
  encodeBlob _ _ := Some "hi"
}.

(** The same browser, except that no image decodes: every [img.src]
    ends in [onerror]. *)
Definition undecoding : Browser :=
  Build_Browser (@createObjectURL browser) (@atob browser) (fun _ => None)
    (@hasContext2d browser) (@encodeBitmap browser) (@encodeBlob browser).

(** Image A of the scenarios, and the answer of the image service. *)
Definition imageA : File := mkFile "a.png" "image/png" "A".

Definition served : string := "data:image/png;base64,aGk=".

End Sample.

(** ** Vocabulary of the properties *)

Import Layered App.

(** The five operations that call the image service. *)
Inductive Operation : Type :=
  | OpRetouch | OpFilter | OpAdjust | OpFaceSwap | OpRemoveBg.

Section Vocabulary.

Context `{Browser}.

(** The handler of an operation, given the time and what the awaited
    service call settles with. *)
Definition runOperation (op : Operation) (now : Z) (response : Result string)
    (s : State) : State :=
  match op with
  | OpRetouch => handleGenerate now response s
  | OpFilter => handleApplyFilter now response s
  | OpAdjust => handleApplyAdjustment now response s
  | OpFaceSwap => handleApplyFaceSwap now response s
  | OpRemoveBg => handleRemoveBackground now response s
  end.

(** The operation gets past its validation and calls the service. *)
Definition passesValidation (op : Operation) (s : State) : bool :=
  match op with
  | OpRetouch =>
      match activeLayer s, editHotspot s with
      | Some _, Some _ => negb (trimIsEmpty (prompt s))
      | _, _ => false
      end
  | OpFaceSwap =>
      match activeLayer s, secondaryImage s with
      | Some _, Some _ => true
      | _, _ => false
      end
  | _ =>
      match activeLayer s with
      | Some _ => true
      | None => false
      end
  end.

(** The name of the failed operation, as the user reads it: "image
    generation failed", "applying the filter failed", "adjusting
    failed", "face swap failed:", "background removal failed:". *)
Definition failureLabel (op : Operation) : string :=
  match op with
  | OpRetouch => "สร้างรูปภาพไม่สำเร็จ "
  | OpFilter => "ใช้ฟิลเตอร์ไม่สำเร็จ "
  | OpAdjust => "ปรับแต่งไม่สำเร็จ "
  | OpFaceSwap => "สลับใบหน้าไม่สำเร็จ: "
  | OpRemoveBg => "ลบพื้นหลังไม่สำเร็จ: "
  end.

(** [s'] is [s] after a commit: the history of [s] cut after the cursor
    plus the layer set of [s'], with the cursor on that last snapshot. *)
Definition isCommit (s s' : State) : Prop :=
  history s' = slice0 (history s) (historyIndex s + 1) ++ [layers s']
  /\ historyIndex s' = Z.of_nat (List.length (history s')) - 1.

(** [s'] shows the same layers over the same history as [s]. *)
Definition isNeutral (s s' : State) : Prop :=
  history s' = history s /\ historyIndex s' = historyIndex s
  /\ layers s' = layers s.

(** [edits n s s']: the editor went from [s] to [s'] by events of which
    [n] committed an edit and the others touched neither the layers nor
    the history. *)
Inductive edits : nat -> State -> State -> Prop :=
  | edits_none (s : State) : edits 0 s s
  | edits_commit (n : nat) (s s' : State) (e : Event) :
      edits n s s' -> isCommit s' (step e s') -> edits (S n) s (step e s')
  | edits_other (n : nat) (s s' : State) (e : Event) :
      edits n s s' -> isNeutral s' (step e s') -> edits n s (step e s').

(** The layer created by [handleImageUpload]. *)
Definition uploadedLayer (f : File) (now : Z) : Layer :=
  mkLayer ("layer-" +++ showZ now) f (createObjectURL f) "Background" 100 true.

(** The displayed layer set is the snapshot under the cursor; before
    the first upload and after the last layer is deleted there is no
    snapshot and no layer. *)
Definition synced (s : State) : Prop :=
  index (history s) (historyIndex s) = Some (layers s)
  \/ (history s = [] /\ historyIndex s = -1 /\ layers s = []).

(** The event is a move of an opacity slider. *)
Definition isOpacityChange (e : Event) : bool :=
  match e with
  | LayerSlider _ (LayerPanel.SliderChange _) => true
  | _ => false
  end.

(** The events whose handler may call [commitChanges] with
    [addToHistory]. *)
Definition isEditEvent (e : Event) : bool :=
  match e with
  | Generate _ _ | ApplyFilter _ _ | ApplyAdjustment _ _ | ApplyFaceSwap _ _
  | RemoveBackground _ _ | ApplyCrop _ | LayerAdd _ _ | LayerDelete _
  | LayerDragEnd _ _ | LayerVisibility _ => true
  | _ => false
  end.

Definition isRetouch (e : Event) : bool :=
  match e with
  | Generate _ _ => true
  | _ => false
  end.

(** The events that write neither layers nor history: selections,
    text and slider inputs, toasts, the export, the effect that
    prepares the crop and the settlement of its promise. *)
Definition isQuietEvent (e : Event) : bool :=
  match e with
  | LayerSelect _ | Export _ | ImageClick _ _ | TabClick _ | PromptInput _
  | AdditionalPromptInput _ | RetouchScaleInput _ | SecondaryImageInput _
  | CropChange _ | CropComplete _ | AspectSet _ | CompareHold _
  | TransparentToggle | ExportModalClose | ErrorToastClose
  | SuccessToastClose | CropEffect | CompositeSettled _ => true
  | LayerSlider _ LayerPanel.SliderClick
  | LayerSlider _ LayerPanel.SliderRelease => true
  | _ => false
  end.

(** The settlement of the promise the crop effect starts. *)
Definition isSettlement (e : Event) : bool :=
  match e with
  | CompositeSettled _ => true
  | _ => false
  end.

(** The run of the crop effect, or the settlement of its promise. *)
Definition isCompositeEvent (e : Event) : bool :=
  match e with
  | CropEffect | CompositeSettled _ => true
  | _ => false
  end.

(** [layers.filter(l => l.id !== i)] *)
Definition others (i : string) (ls : list Layer) : list Layer :=
  filter (fun l => negb (String.eqb (id l) i)) ls.

(** [!layer.objectUrl] is false. *)
Definition hasUrl (l : Layer) : Prop := objectUrl l <> EmptyString.

(** Every layer on display or in a snapshot has an object URL. *)
Definition urlsPresent (s : State) : Prop :=
  Forall hasUrl (layers s) /\ Forall (Forall hasUrl) (history s).

(** The number is neither [NaN] nor an infinity. *)
Definition numIsFinite (x : num) : bool :=
  match x with
  | S754_zero _ | S754_finite _ _ _ => true
  | _ => false
  end.

(** No character of [s] has its code in [bad]. *)
Definition avoids (bad : list N) (s : string) : bool :=
  forallb (fun c => negb (existsb (N.eqb (byte c)) bad)) (list_ascii_of_string s).

(** Some character of [s] is an ASCII capital letter. *)
Definition hasUpper (s : string) : bool :=
  existsb (fun c => ((65 <=? byte c) && (byte c <=? 90))%N)
    (list_ascii_of_string s).

(** The name [dataURLtoFile] is given by each operation. *)
Definition operationFileName (op : Operation) (now : Z) : string :=
  match op with
  | OpRetouch => "edited-" +++ showZ now +++ ".png"
  | OpFilter => "filtered-" +++ showZ now +++ ".png"
  | OpAdjust => "adjusted-" +++ showZ now +++ ".png"
  | OpFaceSwap => "faceswap-" +++ showZ now +++ ".png"
  | OpRemoveBg => "removed-bg-" +++ showZ now +++ ".png"
  end.

(** [`layer-${Date.now()}`] *)
Definition layerId (now : Z) : string := "layer-" +++ showZ now.

(** The reading of the clock that names the layer an event creates. *)
Definition stamp (e : Event) : list Z :=
  match e with
  | FileSelect (Some _) now => [now]
  | LayerAdd _ now => [now]
  | _ => []
  end.

(** The ids of a layer set are distinct and all made from clock
    readings in [used]. *)
Definition idsFrom (used : list Z) (ls : list Layer) : Prop :=
  NoDup (map id ls) /\ incl (map id ls) (map layerId used).

(** The cursor is on a snapshot, or the history is empty and the cursor
    is -1. *)
Definition cursorOk (s : State) : Prop :=
  0 <= historyIndex s < Z.of_nat (List.length (history s))
  \/ (history s = [] /\ historyIndex s = -1).

(** The same for the single-image editor. *)
Definition flatCursorOk (t : Flat.State) : Prop :=
  0 <= Flat.historyIndex t < Z.of_nat (List.length (Flat.history t))
  \/ (Flat.history t = [] /\ Flat.historyIndex t = -1).

(** The event is an upload in the single-image editor. *)
Definition isFlatUpload (e : Flat.Event) : bool :=
  match e with
  | Flat.Upload _ => true
  | _ => false
  end.

(** The file and the clock reading of the upload an event makes in
    state [s], if it makes one: a file chosen in the upload input, or a
    layer added while no layer is on display. *)
Definition uploadOf (e : Event) (s : State) : option (File * Z) :=
  match e with
  | FileSelect (Some f) now => Some (f, now)
  | LayerAdd f now =>
      if Z.of_nat (List.length (layers s)) =? 0 then Some (f, now) else None
  | _ => None
  end.

(** The last upload up to and including event [e], [o] being the last
    one before it. *)
Definition uploadAfter (e : Event) (s : State) (o : option (File * Z))
    : option (File * Z) :=
  match uploadOf e s with
  | Some u => Some u
  | None => o
  end.

(** The last upload of a run of events from state [s], [o] being the
    last one before the run. *)
Fixpoint lastUploadOf (es : list Event) (s : State) (o : option (File * Z))
    : option (File * Z) :=
  match es with
  | [] => o
  | e :: es' => lastUploadOf es' (step e s) (uploadAfter e s o)
  end.

(** The first snapshot is the layer made by the last upload [o], or
    nothing has been uploaded since the layers were last empty. *)
Definition uploadFirst (o : option (File * Z)) (s : State) : Prop :=
  (exists f now,
     o = Some (f, now)
     /\ index (history s) 0 = Some [uploadedLayer f now]
     /\ 0 <= historyIndex s)
  \/ (layers s = [] /\ Forall (fun snapshot => snapshot = []) (history s)).

(** Displayed layers and snapshots all have distinct ids made from
    clock readings in [used]. *)
Definition idsOk (used : list Z) (s : State) : Prop :=
  idsFrom used (layers s) /\ Forall (idsFrom used) (history s).

(** The calls [flattenLayersForCrop] makes on the context for one
    layer whose image decodes, on a canvas of the given size. *)
Definition layerCalls (w h : Z) (l : Layer) : list CanvasOp :=
  match loadImage (objectUrl l) with
  | Some img =>
      [SetGlobalAlpha (numDiv (opacity l) 100);
       DrawImage5 img (numOfZ 0) (numOfZ 0) (numOfZ w) (numOfZ h)]
  | None => []
  end.

(** The canvas [handleApplyCrop] ends with for a completed crop and the
    decoded composite. *)
Definition croppedCanvas (c : Crop) (image : HTMLImage) : Canvas :=
  let scaleX := numDiv (naturalWidth image) (width image) in
  let scaleY := numDiv (naturalHeight image) (height image) in
  let w := canvasDim 300 (numMul (cropWidth c) scaleX) in
  let h := canvasDim 150 (numMul (cropHeight c) scaleY) in
  mkCanvas w h
    [DrawImage9 image
       (numMul (cropX c) scaleX) (numMul (cropY c) scaleY)
       (numMul (cropWidth c) scaleX) (numMul (cropHeight c) scaleY)
       (numOfZ 0) (numOfZ 0) (numOfZ w) (numOfZ h)].

(** The layer [handleApplyCrop] puts in place of all layers. *)
Definition croppedLayer (activeLayer_ : Layer) (f : File) : Layer :=
  mkLayer (id activeLayer_) f (createObjectURL f) "Cropped Image"
    (opacity activeLayer_) (isVisible activeLayer_).

(** The file of the last upload among the events, [o] when there is
    none. *)
Definition lastUpload (o : option File) (es : list Flat.Event) : option File :=
  fold_left
    (fun acc e => match e with Flat.Upload f => Some f | _ => acc end) es o.

(** The cursor of the single-image editor is on an image, and the
    first image of the history is [o]. *)
Definition flatInv (o : option File) (t : Flat.State) : Prop :=
  flatCursorOk t
  /\ Flat.originalImage t = o
  /\ (o = None -> Flat.history t = []).

(** The two hotspots are there together, and only on the retouch tab. *)
Definition flatHotspotsOk (t : Flat.State) : Prop :=
  (Flat.editHotspot t = None <-> Flat.displayHotspot t = None)
  /\ (Flat.activeTab t <> Retouch -> Flat.editHotspot t = None).

(** The handlers of the five operations in the single-image editor. *)
Definition flatRunOperation (op : Operation) (now : Z)
    (response : Result string) (t : Flat.State) : Flat.State :=
  match op with
  | OpRetouch => Flat.handleGenerate now response t
  | OpFilter => Flat.handleApplyFilter now response t
  | OpAdjust => Flat.handleApplyAdjustment now response t
  | OpFaceSwap => Flat.handleApplyFaceSwap now response t
  | OpRemoveBg => Flat.handleApplyRemoveBackground now response t
  end.

Definition flatPassesValidation (op : Operation) (t : Flat.State) : bool :=
  match op with
  | OpRetouch =>
      match Flat.currentImage t, Flat.editHotspot t with
      | Some _, Some _ => negb (trimIsEmpty (Flat.prompt t))
      | _, _ => false
      end
  | OpFaceSwap =>
      match Flat.currentImage t, Flat.secondaryImage t with
      | Some _, Some _ => true
      | _, _ => false
      end
  | _ =>
      match Flat.currentImage t with
      | Some _ => true
      | None => false
      end
  end.

(** The failure labels of the single-image editor: those of the other
    editor, none ending in a colon. *)
Definition flatFailureLabel (op : Operation) : string :=
  match op with
  | OpRetouch => "สร้างรูปภาพไม่สำเร็จ "
  | OpFilter => "ใช้ฟิลเตอร์ไม่สำเร็จ "
  | OpAdjust => "ปรับแต่งไม่สำเร็จ "
  | OpFaceSwap => "สลับใบหน้าไม่สำเร็จ "
  | OpRemoveBg => "ลบพื้นหลังไม่สำเร็จ "
  end.

(** The canvas [handleApplyCrop] of the single-image editor hands to
    [toBlob] for a completed crop and the rendered image. *)
Definition flatCroppedCanvas (c : Crop) (image : HTMLImage) : Canvas :=
  let scaleX := numDiv (naturalWidth image) (width image) in
  let scaleY := numDiv (naturalHeight image) (height image) in
  let w := numMul (cropWidth c) scaleX in
  let h := numMul (cropHeight c) scaleY in
  mkCanvas (canvasDim 300 w) (canvasDim 150 h)
    [DrawImage9 image
       (numMul (cropX c) scaleX) (numMul (cropY c) scaleY) w h
       (numOfZ 0) (numOfZ 0) w h].

End Vocabulary.

(** * Properties *)

(** Splits the goal along every [match] and [if] of an unfolded
    handler. *)
Ltac handler_cases :=
  repeat match goal with
    | H : Ok _ = Ok _ |- _ => injection H as <-
    | H : Throw _ = Ok _ |- _ => discriminate H
    | H : Ok _ = Throw _ |- _ => discriminate H
    | H : Throw _ = Throw _ |- _ => injection H as <-
    | |- context [match ?x with _ => _ end] => destruct x eqn:?
    | H : context [match ?x with _ => _ end] |- _ => destruct x eqn:?
    end.

(** ** Arrays *)

Lemma slice0_firstn {A : Type} (l : list A) (i : Z) :
  -1 <= i < Z.of_nat (List.length l) ->
  slice0 l (i + 1) = firstn (Z.to_nat (i + 1)) l.
Proof.
  intros Hi. unfold slice0.
  destruct (i + 1 <? 0) eqn:E; [apply Z.ltb_lt in E; lia|].
  rewrite Z.min_l by lia. reflexivity.
Qed.

Lemma slice0_length {A : Type} (l : list A) (i : Z) :
  -1 <= i < Z.of_nat (List.length l) ->
  Z.of_nat (List.length (slice0 l (i + 1))) = i + 1.
Proof.
  intros Hi. rewrite slice0_firstn by assumption.
  rewrite length_firstn. lia.
Qed.

Lemma slice0_prefix {A : Type} (l : list A) (e : Z) :
  exists k, slice0 l e = firstn k l.
Proof. unfold slice0. eexists. reflexivity. Qed.

Lemma index_nth_error {A : Type} (l : list A) (n : nat) :
  index l (Z.of_nat n) = nth_error l n.
Proof.
  unfold index. destruct (Z.of_nat n <? 0) eqn:E.
  - apply Z.ltb_lt in E. lia.
  - now rewrite Nat2Z.id.
Qed.

Lemma index_Some_range {A : Type} (l : list A) (i : Z) (a : A) :
  index l i = Some a -> 0 <= i < Z.of_nat (List.length l).
Proof.
  unfold index. destruct (i <? 0) eqn:E; [discriminate|].
  apply Z.ltb_ge in E. intros Hn.
  assert (nth_error l (Z.to_nat i) <> None) as Hlt by congruence.
  apply nth_error_Some in Hlt. lia.
Qed.

Lemma index_in_range {A : Type} (l : list A) (i : Z) :
  0 <= i < Z.of_nat (List.length l) -> exists a, index l i = Some a.
Proof.
  intros Hi. unfold index. destruct (i <? 0) eqn:E.
  - apply Z.ltb_lt in E. lia.
  - destruct (nth_error l (Z.to_nat i)) eqn:En; [eauto|].
    apply nth_error_None in En. lia.
Qed.

Lemma index_push_last {A : Type} (l : list A) (a : A) :
  index (l ++ [a]) (Z.of_nat (List.length (l ++ [a])) - 1) = Some a.
Proof.
  rewrite length_app. simpl.
  replace (Z.of_nat (List.length l + 1) - 1) with (Z.of_nat (List.length l)) by lia.
  rewrite index_nth_error, nth_error_app2 by lia.
  now rewrite Nat.sub_diag.
Qed.

Lemma index_push_at {A : Type} (l : list A) (a : A) (i : Z) :
  i = Z.of_nat (List.length l) -> index (l ++ [a]) i = Some a.
Proof.
  intros ->. rewrite index_nth_error, nth_error_app2 by lia.
  now rewrite Nat.sub_diag.
Qed.

Lemma index_push_old {A : Type} (l : list A) (a : A) (i : Z) :
  i < Z.of_nat (List.length l) -> index (l ++ [a]) i = index l i.
Proof.
  intros Hi. unfold index. destruct (i <? 0) eqn:E; [reflexivity|].
  apply Z.ltb_ge in E. apply nth_error_app1. lia.
Qed.

Lemma index_firstn {A : Type} (l : list A) (k : nat) (i : Z) :
  i < Z.of_nat k -> index (firstn k l) i = index l i.
Proof.
  intros Hi. unfold index. destruct (i <? 0) eqn:E; [reflexivity|].
  apply Z.ltb_ge in E. rewrite nth_error_firstn.
  destruct (Nat.ltb_spec (Z.to_nat i) k); [reflexivity | lia].
Qed.

Lemma Forall_take {A : Type} (P : A -> Prop) (k : nat) (l : list A) :
  Forall P l -> Forall P (firstn k l).
Proof.
  intros Hl. revert k. induction Hl; intros [|k]; simpl; constructor; auto.
Qed.

Lemma Forall_drop {A : Type} (P : A -> Prop) (k : nat) (l : list A) :
  Forall P l -> Forall P (skipn k l).
Proof.
  intros Hl. revert k. induction Hl; intros [|k]; simpl; auto.
Qed.

Lemma Forall_keep {A : Type} (P : A -> Prop) (f : A -> bool) (l : list A) :
  Forall P l -> Forall P (filter f l).
Proof.
  intros Hl. induction Hl; simpl; [constructor|].
  destruct (f x); [constructor|]; assumption.
Qed.

(** ** What a commit does to the cells *)

Section CommitFacts.

Context `{Browser}.

Lemma commitChanges_history (nl : list Layer) (s : State) :
  history (commitChanges nl true s)
  = slice0 (history s) (historyIndex s + 1) ++ [nl].
Proof. reflexivity. Qed.

Lemma commitChanges_cursor (nl : list Layer) (s : State) :
  historyIndex (commitChanges nl true s)
  = Z.of_nat (List.length (history (commitChanges nl true s))) - 1.
Proof. reflexivity. Qed.

Lemma commitChanges_layers (nl : list Layer) (b : bool) (s : State) :
  layers (commitChanges nl b s) = nl.
Proof. destruct b; reflexivity. Qed.

Lemma commitChanges_quiet (nl : list Layer) (s : State) :
  history (commitChanges nl false s) = history s
  /\ historyIndex (commitChanges nl false s) = historyIndex s.
Proof. split; reflexivity. Qed.

Lemma commitChanges_cursor_next (nl : list Layer) (s : State) :
  -1 <= historyIndex s < Z.of_nat (List.length (history s)) ->
  historyIndex (commitChanges nl true s) = historyIndex s + 1.
Proof.
  intros Hi. rewrite commitChanges_cursor, commitChanges_history.
  rewrite length_app, Nat2Z.inj_add, slice0_length by assumption.
  simpl. lia.
Qed.

End CommitFacts.

(** ** Reactions and the cells they write *)

Section Reactions.

Context `{Browser}.

(** A reaction is the run of one handler. *)
Lemma step_store (e : Event) (s : State) :
  history (step e s) = history (handle e s)
  /\ historyIndex (step e s) = historyIndex (handle e s)
  /\ layers (step e s) = layers (handle e s)
  /\ activeLayerId (step e s) = activeLayerId (handle e s).
Proof.
  unfold step. repeat split; reflexivity.
Qed.

Lemma step_inputs (e : Event) (s : State) :
  prompt (step e s) = prompt (handle e s)
  /\ editHotspot (step e s) = editHotspot (handle e s)
  /\ displayHotspot (step e s) = displayHotspot (handle e s)
  /\ crop (step e s) = crop (handle e s)
  /\ completedCrop (step e s) = completedCrop (handle e s)
  /\ secondaryImage (step e s) = secondaryImage (handle e s)
  /\ additionalPrompt (step e s) = additionalPrompt (handle e s)
  /\ retouchScale (step e s) = retouchScale (handle e s).
Proof.
  unfold step. repeat split; reflexivity.
Qed.

(** The cursor never leaves the history. *)
Lemma cursor_stays_in_history (s : State) :
  reachable s -> -1 <= historyIndex s < Z.of_nat (List.length (history s)).
Proof.
  induction 1 as [t | e s Hr IH]; [simpl; lia|].
  destruct (step_store e s) as (Hh & Hc & _). rewrite Hh, Hc. clear Hh Hc.
  destruct e; try (exact IH);
    unfold handle, prepareCropEffect, compositeSettled, handleFileSelect,
      handleImageUpload, handleAddLayer,
      handleDeleteLayer, handleReorderLayers, LayerPanel.onSlider,
      handleLayerVisibilityChange, handleGenerate, handleApplyFilter,
      handleApplyAdjustment, handleApplyFaceSwap, handleRemoveBackground,
      handleApplyCrop, handleExport, handleImageClick, handleUndo, handleRedo,
      canUndo, canRedo, tryCatchFinally, bind in *;
    handler_cases;
    try (exact IH);
    try (simpl; rewrite ?length_app; simpl; lia);
    repeat match goal with
      | E : (_ >? _) = true |- _ => rewrite Z.gtb_ltb in E; apply Z.ltb_lt in E
      | E : (_ <? _) = true |- _ => apply Z.ltb_lt in E
      end;
    simpl; lia.
Qed.

Lemma reachable_run (es : list Event) (s : State) :
  reachable s -> reachable (run es s).
Proof.
  revert s. induction es as [|e es IH]; intros s Hr; [exact Hr|].
  change (run (e :: es) s) with (run es (step e s)).
  apply IH, reachable_step, Hr.
Qed.

End Reactions.

(** ** The opacity slider *)

Section Opacity.

Context `{Browser}.

(** Moving a slider replaces the layer set and leaves history and cursor
    alone. *)
Lemma opacity_change_keeps_history (i : string) (v : Z) (s : State) :
  let s' := handleLayerOpacityChange i v s in
  history s' = history s /\ historyIndex s' = historyIndex s
  /\ layers s'
     = map (fun l => if String.eqb (id l) i then withOpacity v l else l)
         (layers s).
Proof. repeat split; reflexivity. Qed.

(** No event of a slider, release included, touches history or cursor. *)
Lemma slider_keeps_history (i : string) (ev : LayerPanel.SliderEvent)
    (s : State) :
  history (step (LayerSlider i ev) s) = history s
  /\ historyIndex (step (LayerSlider i ev) s) = historyIndex s.
Proof.
  destruct (step_store (LayerSlider i ev) s) as (Hh & Hc & _).
  rewrite Hh, Hc. destruct ev; split; reflexivity.
Qed.

(** Releasing a slider changes nothing at all. *)
Lemma slider_release_is_inert (i : string) (s : State) :
  handle (LayerSlider i LayerPanel.SliderRelease) s = s.
Proof. reflexivity. Qed.

(** What [commitOpacityChange] would do if something called it. *)
Lemma commitOpacityChange_appends (s : State) :
  -1 <= historyIndex s < Z.of_nat (List.length (history s)) ->
  let s' := commitOpacityChange s in
  history s' = firstn (Z.to_nat (historyIndex s + 1)) (history s) ++ [layers s]
  /\ historyIndex s' = historyIndex s + 1
  /\ layers s' = layers s.
Proof.
  intros Hi. unfold commitOpacityChange. simpl.
  rewrite length_app, Nat2Z.inj_add, slice0_length by assumption.
  rewrite slice0_firstn by assumption.
  repeat split. simpl. lia.
Qed.

End Opacity.

(** ** C1: undoing every edit gives back the uploaded image *)

Section UndoAll.

Context `{Browser}.

Lemma upload_store (f : File) (now : Z) (s : State) :
  let s0 := step (FileSelect (Some f) now) s in
  history s0 = [[uploadedLayer f now]] /\ historyIndex s0 = 0
  /\ layers s0 = [uploadedLayer f now].
Proof.
  destruct (step_store (FileSelect (Some f) now) s) as (Hh & Hi & Hl & _).
  cbv zeta. rewrite Hh, Hi, Hl. repeat split; reflexivity.
Qed.

(** One undo with a snapshot below the cursor. *)
Lemma undo_store (s : State) :
  0 < historyIndex s < Z.of_nat (List.length (history s)) ->
  history (step Undo s) = history s
  /\ historyIndex (step Undo s) = historyIndex s - 1
  /\ index (history s) (historyIndex s - 1) = Some (layers (step Undo s)).
Proof.
  intros Hi. destruct (step_store Undo s) as (Hh & Hc & Hl & _).
  rewrite Hh, Hc, Hl. simpl. unfold handleUndo, canUndo.
  destruct (historyIndex s >? 0) eqn:E;
    [|rewrite Z.gtb_ltb in E; apply Z.ltb_ge in E; lia].
  destruct (index_in_range (history s) (historyIndex s - 1)) as [snap Hs]; [lia|].
  rewrite Hs. repeat split; reflexivity.
Qed.

Lemma undo_many (k : nat) (s : State) :
  0 <= historyIndex s < Z.of_nat (List.length (history s)) ->
  Z.of_nat k <= historyIndex s ->
  let s' := Nat.iter k (step Undo) s in
  history s' = history s
  /\ historyIndex s' = historyIndex s - Z.of_nat k
  /\ ((0 < k)%nat -> index (history s) (historyIndex s') = Some (layers s')).
Proof.
  intros Hi. induction k as [|k IH]; intros Hk.
  - simpl. repeat split; [lia | intros Hpos; inversion Hpos].
  - destruct IH as (Hh & Hc & _); [lia|].
    simpl. set (sk := Nat.iter k (step Undo) s) in *.
    destruct (undo_store sk) as (Hh' & Hc' & Hl'); [rewrite Hh, Hc; lia|].
    repeat split.
    + congruence.
    + rewrite Hc', Hc. lia.
    + intros _. rewrite Hc', <- Hh. exact Hl'.
Qed.

(** What [n] committed edits after an upload leave behind. *)
Lemma edits_store (f : File) (now : Z) (s sN : State) (n : nat) :
  edits n (step (FileSelect (Some f) now) s) sN ->
  Z.of_nat (List.length (history sN)) = Z.of_nat n + 1
  /\ historyIndex sN = Z.of_nat n
  /\ index (history sN) 0 = Some [uploadedLayer f now]
  /\ (n = 0%nat -> layers sN = [uploadedLayer f now]).
Proof.
  intros He.
  remember (step (FileSelect (Some f) now) s) as s0 eqn:E0.
  induction He as [s0 | n s0 s' e He IH [Hh Hc] | n s0 s' e He IH (Hh & Hc & Hl)].
  - subst s0. destruct (upload_store f now s) as (Hh & Hc & Hl).
    rewrite Hh, Hc, Hl. repeat split; reflexivity.
  - destruct (IH E0) as (Hlen & Hcur & H0 & _).
    rewrite slice0_firstn, Hcur in Hh by lia.
    rewrite firstn_all2 in Hh by lia.
    assert (Hlen' : Z.of_nat (List.length (history (step e s')))
                    = Z.of_nat (S n) + 1).
    { rewrite Hh, length_app. simpl. lia. }
    repeat split.
    + exact Hlen'.
    + lia.
    + rewrite Hh, index_push_old by lia. exact H0.
    + discriminate.
  - destruct (IH E0) as (Hlen & Hcur & H0 & Hz).
    rewrite Hh, Hc, Hl. repeat split; assumption.
Qed.

(** C1. Start from any state, upload a file, and let the editor react to
    any events of which [n] commit an edit while the others leave
    layers and history alone.  The history then holds [n + 1] snapshots
    with the cursor on the last; [n] undos put the cursor on snapshot 0
    and display it, and it is the single layer made by the upload,
    carrying the uploaded file. *)
Theorem undo_all_restores_upload (f : File) (now : Z) (s sN : State) (n : nat) :
  edits n (step (FileSelect (Some f) now) s) sN ->
  let s0 := Nat.iter n (step Undo) sN in
  List.length (history sN) = S n
  /\ historyIndex sN = Z.of_nat n
  /\ historyIndex s0 = 0
  /\ index (history s0) 0 = Some (layers s0)
  /\ layers s0 = [uploadedLayer f now]
  /\ map file (layers s0) = [f]
  /\ canUndo s0 = false.
Proof.
  intros He s0.
  destruct (edits_store f now s sN n He) as (Hlen & Hcur & H0 & Hz).
  destruct (undo_many n sN) as (Hh & Hc & Hl); [lia | lia |].
  fold s0 in Hh, Hc, Hl.
  assert (Hc0 : historyIndex s0 = 0) by lia.
  assert (Hlay : layers s0 = [uploadedLayer f now]).
  { destruct n as [|n].
    - apply Hz. reflexivity.
    - rewrite Hc0, H0 in Hl. specialize (Hl ltac:(lia)). congruence. }
  clearbody s0.
  repeat split.
  - lia.
  - exact Hcur.
  - exact Hc0.
  - rewrite Hh, Hlay. exact H0.
  - exact Hlay.
  - rewrite Hlay. reflexivity.
  - unfold canUndo. rewrite Hc0. reflexivity.
Qed.

End UndoAll.

Section UndoOnSample.

#[local] Existing Instance Sample.browser.

(** The scenario: image A is uploaded, the user clicks at (120, 80),
    types "remove object" and the retouch succeeds.  Two snapshots, the
    cursor at 1; one undo shows the layer "Background" with image A. *)
Lemma undo_all_restores_upload_witness :
  let sA := step (FileSelect (Some Sample.imageA) 1) (initialState false) in
  let s1 :=
    step (Generate 2 (Ok Sample.served))
      (step (PromptInput "remove object") (step (ImageClick 120 80) sA)) in
  edits 1 sA s1
  /\ List.length (history s1) = 2%nat
  /\ historyIndex s1 = 1
  /\ map file (layers s1) = [mkFile "edited-2.png" "image/png" "hi"]
  /\ layers (Nat.iter 1 (step Undo) s1) = [uploadedLayer Sample.imageA 1]
  /\ uploadedLayer Sample.imageA 1
     = mkLayer "layer-1" Sample.imageA "blob:a.png" "Background" 100 true.
Proof.
  intros sA s1.
  assert (He : edits 1 sA s1).
  { apply edits_commit; [apply edits_other; [apply edits_other|]|].
    - apply edits_none.
    - split; [|split]; vm_compute; reflexivity.
    - split; [|split]; vm_compute; reflexivity.
    - split; vm_compute; reflexivity. }
  split; [exact He|].
  destruct (undo_all_restores_upload Sample.imageA 1 (initialState false) s1 1 He)
    as (Hlen & Hcur & _ & _ & Hlay & _).
  split; [exact Hlen|]. split; [exact Hcur|].
  split; [vm_compute; reflexivity|].
  split; [exact Hlay | vm_compute; reflexivity].
Defined.

End UndoOnSample.

(** ** C2: a commit after undo drops the redo tail *)

(** C2. In a history whose cursor is strictly before the last snapshot,
    [commitChanges] keeps the snapshots up to and including the cursor,
    drops the ones after it, appends the new snapshot and moves the
    cursor onto it, so that [canRedo] is false; [addImageToHistory] of
    the single-image editor does the same with files. *)
Theorem commit_after_undo_discards_redo `{Browser}
    (s : State) (newLayers : list Layer) (t : Flat.State) (newImage : File) :
  (-1 <= historyIndex s < Z.of_nat (List.length (history s)) - 1 ->
   let s' := commitChanges newLayers true s in
   history s'
   = firstn (Z.to_nat (historyIndex s + 1)) (history s) ++ [newLayers]
   /\ (List.length (history s') <= List.length (history s))%nat
   /\ historyIndex s' = historyIndex s + 1
   /\ historyIndex s' = Z.of_nat (List.length (history s')) - 1
   /\ index (history s') (historyIndex s') = Some newLayers
   /\ layers s' = newLayers
   /\ canRedo s' = false)
  /\
  (-1 <= Flat.historyIndex t < Z.of_nat (List.length (Flat.history t)) - 1 ->
   let t' := Flat.addImageToHistory newImage t in
   Flat.history t'
   = firstn (Z.to_nat (Flat.historyIndex t + 1)) (Flat.history t) ++ [newImage]
   /\ Flat.historyIndex t' = Flat.historyIndex t + 1
   /\ Flat.currentImage t' = Some newImage
   /\ Flat.canRedo t' = false).
Proof.
  split.
  - intros Hi s'.
    assert (Hh : history s'
                 = firstn (Z.to_nat (historyIndex s + 1)) (history s) ++ [newLayers]).
    { subst s'. rewrite commitChanges_history, slice0_firstn by lia. reflexivity. }
    assert (Hc : historyIndex s' = historyIndex s + 1).
    { subst s'. apply commitChanges_cursor_next. lia. }
    assert (Hl : Z.of_nat (List.length (history s')) = historyIndex s + 2).
    { rewrite Hh, length_app, length_firstn. simpl. lia. }
    assert (Hn : layers s' = newLayers) by apply commitChanges_layers.
    clearbody s'.
    repeat split.
    + exact Hh.
    + lia.
    + exact Hc.
    + lia.
    + rewrite Hc, Hh. apply index_push_at.
      rewrite length_firstn. lia.
    + exact Hn.
    + unfold canRedo. apply Z.ltb_ge. lia.
  - intros Hi t'.
    assert (Hh : Flat.history t'
                 = firstn (Z.to_nat (Flat.historyIndex t + 1)) (Flat.history t)
                   ++ [newImage]).
    { subst t'. unfold Flat.addImageToHistory. simpl.
      rewrite slice0_firstn by lia. reflexivity. }
    assert (Hl : Z.of_nat (List.length (Flat.history t')) = Flat.historyIndex t + 2).
    { rewrite Hh, length_app, length_firstn. simpl. lia. }
    assert (Hc : Flat.historyIndex t'
                 = Z.of_nat (List.length (Flat.history t')) - 1) by reflexivity.
    clearbody t'.
    repeat split.
    + exact Hh.
    + lia.
    + unfold Flat.currentImage. rewrite Hc, Hh. apply index_push_last.
    + unfold Flat.canRedo. apply Z.ltb_ge. lia.
Qed.

Section CommitOnSample.

#[local] Existing Instance Sample.browser.

(** Upload, filter, undo, then a visibility toggle: the filtered
    snapshot is gone and nothing is left to redo.  The same with three
    files in the single-image editor. *)
Lemma commit_after_undo_discards_redo_witness :
  let s :=
    run [FileSelect (Some Sample.imageA) 1; ApplyFilter 2 (Ok Sample.served); Undo]
      (initialState false) in
  let t :=
    Flat.initialState
      |> Flat.handleImageUpload Sample.imageA
      |> Flat.addImageToHistory (mkFile "b.png" "image/png" "B")
      |> Flat.handleUndo in
  (-1 <= historyIndex s < Z.of_nat (List.length (history s)) - 1)
  /\ (-1 <= Flat.historyIndex t < Z.of_nat (List.length (Flat.history t)) - 1)
  /\ canRedo s = true
  /\ canRedo (commitChanges [] true s) = false
  /\ Flat.canRedo (Flat.addImageToHistory Sample.imageA t) = false.
Proof.
  intros s t.
  assert (Hs : -1 <= historyIndex s < Z.of_nat (List.length (history s)) - 1)
    by (vm_compute; split; [discriminate | reflexivity]).
  assert (Ht : -1 <= Flat.historyIndex t
               < Z.of_nat (List.length (Flat.history t)) - 1)
    by (vm_compute; split; [discriminate | reflexivity]).
  destruct (commit_after_undo_discards_redo s [] t Sample.imageA) as [Hl Hf].
  destruct (Hl Hs) as (_ & _ & _ & _ & _ & _ & Hr).
  destruct (Hf Ht) as (_ & _ & _ & Hr').
  repeat split; try apply Hs; try apply Ht; try assumption.
Defined.

End CommitOnSample.

(** ** C3: a failing service call changes nothing but the message *)

(** C3. When one of the five service operations gets past its validation
    and the awaited call throws or rejects with [e], the handler ends in
    the state it started from with only two cells written: [error]
    holds the operation's failure label followed by the message of [e]
    (the fixed text for a value that is no [Error]), and [isLoading] is
    false.  Layers, history, cursor and active layer are untouched. *)
Theorem failed_operation_keeps_state `{Browser}
    (op : Operation) (now : Z) (e : Thrown) (s : State) :
  passesValidation op s = true ->
  let s' := runOperation op now (Throw e) s in
  s' = (s |> setError (Some (failureLabel op +++ errorMessageOf e))
          |> setIsLoading false)
  /\ error s' = Some (failureLabel op +++ errorMessageOf e)
  /\ (forall m, e = JsError m -> error s' = Some (failureLabel op +++ m))
  /\ layers s' = layers s
  /\ history s' = history s
  /\ historyIndex s' = historyIndex s
  /\ activeLayerId s' = activeLayerId s
  /\ isLoading s' = false.
Proof.
  intros Hv s'.
  assert (Hs : s' = (s |> setError (Some (failureLabel op +++ errorMessageOf e))
                       |> setIsLoading false)).
  { unfold s'. destruct op; simpl in Hv |- *;
      unfold handleGenerate, handleApplyFilter, handleApplyAdjustment,
        handleApplyFaceSwap, handleRemoveBackground;
      destruct (activeLayer s); try discriminate;
      try (destruct (editHotspot s); try discriminate);
      try (destruct (secondaryImage s); try discriminate);
      try (destruct (trimIsEmpty (prompt s)); try discriminate);
      reflexivity. }
  rewrite Hs. repeat split; try reflexivity.
  intros m ->. reflexivity.
Qed.

(** What the operations do when the service answers with something that
    is no data URL: the same as for a failing call. *)
Lemma undecodable_answer_keeps_state `{Browser}
    (op : Operation) (now : Z) (url : string) (s : State) :
  passesValidation op s = true ->
  (forall filename, exists e, dataURLtoFile url filename = Throw e) ->
  let s' := runOperation op now (Ok url) s in
  layers s' = layers s /\ history s' = history s
  /\ historyIndex s' = historyIndex s /\ error s' <> None.
Proof.
  intros Hv Hbad s'. unfold s'.
  destruct op; simpl in Hv |- *;
    unfold handleGenerate, handleApplyFilter, handleApplyAdjustment,
      handleApplyFaceSwap, handleRemoveBackground, tryCatchFinally;
    destruct (activeLayer s); try discriminate;
    try (destruct (editHotspot s); try discriminate);
    try (destruct (secondaryImage s); try discriminate);
    try (destruct (trimIsEmpty (prompt s)); try discriminate);
    simpl;
    match goal with
    | |- context [dataURLtoFile url ?f] =>
        destruct (Hbad f) as [e He]; rewrite He
    end; simpl; repeat split; discriminate.
Qed.

(** A rejected validation writes the message and nothing else. *)
Lemma rejected_operation_keeps_state `{Browser}
    (op : Operation) (now : Z) (r : Result string) (s : State) :
  passesValidation op s = false ->
  exists m, runOperation op now r s = setError (Some m) s.
Proof.
  intros Hv.
  destruct op; simpl in Hv |- *;
    unfold handleGenerate, handleApplyFilter, handleApplyAdjustment,
      handleApplyFaceSwap, handleRemoveBackground;
    destruct (activeLayer s); try (eexists; reflexivity);
    try (destruct (editHotspot s));
    try (destruct (secondaryImage s));
    try (destruct (trimIsEmpty (prompt s)));
    try discriminate; eexists; reflexivity.
Qed.

Section FailureOnSample.

#[local] Existing Instance Sample.browser.

(** A filter applied to a freshly uploaded image while the service is
    out of quota. *)
Lemma failed_operation_keeps_state_witness :
  let s := step (FileSelect (Some Sample.imageA) 1) (initialState false) in
  passesValidation OpFilter s = true
  /\ error (runOperation OpFilter 2 (Throw (JsError "quota exceeded")) s)
     = Some "ใช้ฟิลเตอร์ไม่สำเร็จ quota exceeded"
  /\ history (runOperation OpFilter 2 (Throw (JsError "quota exceeded")) s)
     = history s.
Proof.
  intros s.
  assert (Hv : passesValidation OpFilter s = true) by reflexivity.
  split; [exact Hv|].
  destruct (failed_operation_keeps_state OpFilter 2 (JsError "quota exceeded") s Hv)
    as (_ & He & _ & _ & Hh & _).
  split; [rewrite He; reflexivity | exact Hh].
Defined.

End FailureOnSample.

(** ** C4: flattening skips invisible layers *)

Section Flatten.

Context `{Browser}.

Lemma drawLayers_visible (ls : list Layer) (c : Canvas) :
  drawLayers ls c = drawLayers (filter isVisible ls) c.
Proof.
  revert c. induction ls as [|l ls IH]; intros c; [reflexivity|].
  simpl. destruct (isVisible l) eqn:Ev.
  - simpl. destruct (drawLayer l c); simpl; [apply IH | reflexivity].
  - unfold drawLayer. rewrite Ev. simpl. apply IH.
Qed.

Lemma find_visible (ls : list Layer) :
  find isVisible ls = find isVisible (filter isVisible ls).
Proof.
  induction ls as [|l ls IH]; [reflexivity|].
  simpl. destruct (isVisible l) eqn:Ev; simpl; rewrite ?Ev; auto.
Qed.

Lemma find_visible_none (ls : list Layer) :
  existsb isVisible ls = false -> find isVisible ls = None.
Proof.
  induction ls as [|l ls IH]; [reflexivity|].
  simpl. destruct (isVisible l); simpl; [discriminate | exact IH].
Qed.

Lemma filter_visible_head (ls : list Layer) :
  find isVisible ls = hd_error (filter isVisible ls).
Proof.
  induction ls as [|l ls IH]; [reflexivity|].
  simpl. destruct (isVisible l); simpl; auto.
Qed.

Lemma flatten_visible (ls : list Layer) :
  flattenLayersForCrop ls = flattenLayersForCrop (filter isVisible ls).
Proof.
  unfold flattenLayersForCrop.
  rewrite <- find_visible.
  destruct (find isVisible ls) as [first|] eqn:Ef.
  - assert (Hl1 : (Z.of_nat (List.length ls) =? 0) = false).
    { destruct ls; [discriminate | reflexivity]. }
    assert (Hl2 : (Z.of_nat (List.length (filter isVisible ls)) =? 0) = false).
    { rewrite filter_visible_head in Ef.
      destruct (filter isVisible ls); [discriminate | reflexivity]. }
    rewrite Hl1, Hl2.
    destruct (negb hasContext2d); [reflexivity|].
    destruct (loadImage (objectUrl first)); [|reflexivity].
    rewrite <- drawLayers_visible. reflexivity.
  - destruct (Z.of_nat (List.length ls) =? 0), (negb hasContext2d),
      (Z.of_nat (List.length (filter isVisible ls)) =? 0); reflexivity.
Qed.

(** C4. [flattenLayersForCrop] answers [null] for a layer set without
    visible layer, and for any layer set it answers (or rejects) exactly
    as it does for the list of its visible layers, in their order: the
    canvas gets the same size and the same sequence of drawing calls.
    In particular an invisible layer below or above a single visible
    one changes nothing. *)
Theorem flatten_ignores_invisible (ls : list Layer) :
  (existsb isVisible ls = false -> flattenLayersForCrop ls = Ok None)
  /\ flattenLayersForCrop ls = flattenLayersForCrop (filter isVisible ls)
  /\ (forall v i : Layer,
        isVisible v = true -> isVisible i = false ->
        flattenLayersForCrop [v; i] = flattenLayersForCrop [v]
        /\ flattenLayersForCrop [i; v] = flattenLayersForCrop [v]).
Proof.
  split; [|split].
  - intros Hno. unfold flattenLayersForCrop.
    rewrite (find_visible_none ls Hno).
    destruct (Z.of_nat (List.length ls) =? 0), (negb hasContext2d); reflexivity.
  - apply flatten_visible.
  - intros v i Hv Hi. split.
    + rewrite (flatten_visible [v; i]). simpl. rewrite Hv, Hi. reflexivity.
    + rewrite (flatten_visible [i; v]). simpl. rewrite Hv, Hi. reflexivity.
Qed.

End Flatten.

Section FlattenOnSample.

#[local] Existing Instance Sample.browser.

(** A hidden layer alone flattens to [null]; under an opaque visible
    layer it leaves the composite of that layer alone. *)
Lemma flatten_ignores_invisible_witness :
  let v := mkLayer "layer-1" Sample.imageA "blob:a.png" "Background" 100 true in
  let i := mkLayer "layer-2" Sample.imageA "blob:b.png" "Layer 1" 40 false in
  existsb isVisible [i] = false
  /\ flattenLayersForCrop [i] = Ok None
  /\ flattenLayersForCrop [i; v] = flattenLayersForCrop [v]
  /\ flattenLayersForCrop [v] = Ok (Some "data:image/png;base64,aGk=").
Proof.
  intros v i.
  destruct (flatten_ignores_invisible [i]) as (Hnull & _ & Hpair).
  split; [reflexivity|].
  split; [apply Hnull; reflexivity|].
  split; [apply (Hpair v i); reflexivity | reflexivity].
Defined.

End FlattenOnSample.

(** ** C5: the displayed layers and the snapshot under the cursor *)

Section Sync.

Context `{Browser}.

Lemma synced_cursor (s : State) :
  synced s ->
  (0 <= historyIndex s < Z.of_nat (List.length (history s)))
  \/ (history s = [] /\ historyIndex s = -1).
Proof.
  intros [Hs | (Hh & Hc & _)]; [left | right; auto].
  eapply index_Some_range. exact Hs.
Qed.

Lemma synced_undo (s : State) : synced s -> synced (handleUndo s).
Proof.
  intros Hs. unfold handleUndo, canUndo.
  destruct (historyIndex s >? 0) eqn:E; [|exact Hs].
  rewrite Z.gtb_ltb in E. apply Z.ltb_lt in E.
  destruct (synced_cursor s Hs) as [Hr | [_ Hc]]; [|lia].
  destruct (index_in_range (history s) (historyIndex s - 1)) as [snap Hsnap];
    [lia|].
  rewrite Hsnap. left. exact Hsnap.
Qed.

Lemma synced_redo (s : State) : synced s -> synced (handleRedo s).
Proof.
  intros Hs. unfold handleRedo, canRedo.
  destruct (historyIndex s <? Z.of_nat (List.length (history s)) - 1) eqn:E;
    [|exact Hs].
  apply Z.ltb_lt in E.
  destruct (synced_cursor s Hs) as [Hr | [Hh Hc]];
    [|rewrite Hh, Hc in E; simpl in E; lia].
  destruct (index_in_range (history s) (historyIndex s + 1)) as [snap Hsnap];
    [lia|].
  rewrite Hsnap. left. exact Hsnap.
Qed.

(** Every handler but the one of the opacity slider keeps the displayed
    layers on the snapshot under the cursor. *)
Lemma synced_handle (e : Event) (s : State) :
  isOpacityChange e = false -> synced s -> synced (handle e s).
Proof.
  intros Hop Hs.
  destruct e; try (exact Hs);
    try (apply synced_undo; exact Hs); try (apply synced_redo; exact Hs);
    unfold handle, prepareCropEffect, compositeSettled, handleFileSelect,
      handleImageUpload, handleAddLayer,
      handleDeleteLayer, handleReorderLayers, LayerPanel.onSlider,
      handleLayerVisibilityChange, handleGenerate, handleApplyFilter,
      handleApplyAdjustment, handleApplyFaceSwap, handleRemoveBackground,
      handleApplyCrop, handleExport, handleImageClick, tryCatchFinally, bind
      in *;
    handler_cases; try discriminate Hop;
    first
      [ exact Hs
      | left; apply index_push_last
      | left; reflexivity
      | right; repeat split; reflexivity ].
Qed.

Lemma synced_step (e : Event) (s : State) :
  isOpacityChange e = false -> synced s -> synced (step e s).
Proof.
  intros Hop Hs. pose proof (synced_handle e s Hop Hs) as Hh.
  exact Hh.
Qed.

Lemma synced_run (es : list Event) (s : State) :
  forallb (fun e => negb (isOpacityChange e)) es = true ->
  synced s -> synced (run es s).
Proof.
  revert s. induction es as [|e es IH]; intros s Hes Hs; [exact Hs|].
  simpl in Hes. apply andb_true_iff in Hes as [He Hes].
  apply negb_true_iff in He.
  unfold run. simpl. apply IH; [exact Hes | apply synced_step; assumption].
Qed.

(** The history after a handler: the one before, or a prefix of it plus
    the layer set now on display, or nothing. *)
Lemma history_shape (e : Event) (s : State) :
  history (handle e s) = history s
  \/ (exists k, history (handle e s)
                = firstn k (history s) ++ [layers (handle e s)])
  \/ history (handle e s) = [].
Proof.
  destruct e; try (left; reflexivity);
    unfold handle, prepareCropEffect, compositeSettled, handleFileSelect,
      handleImageUpload, handleAddLayer,
      handleDeleteLayer, handleReorderLayers, LayerPanel.onSlider,
      handleLayerVisibilityChange, handleGenerate, handleApplyFilter,
      handleApplyAdjustment, handleApplyFaceSwap, handleRemoveBackground,
      handleApplyCrop, handleExport, handleImageClick, handleUndo, handleRedo,
      tryCatchFinally, bind in *;
    handler_cases;
    first
      [ left; reflexivity
      | right; left; exists 0%nat; reflexivity
      | right; left; eexists; unfold commitChanges, slice0; reflexivity
      | right; right; reflexivity ].
Qed.

(** A snapshot found in the history after a reaction was at the same
    place before it, or is the snapshot just recorded. *)
Lemma snapshots_stay (e : Event) (s : State) (i : Z) (snap : list Layer) :
  index (history (step e s)) i = Some snap ->
  index (history s) i = Some snap
  \/ (i = Z.of_nat (List.length (history (step e s))) - 1
      /\ snap = layers (step e s)).
Proof.
  destruct (step_store e s) as (Hh & _ & Hl & _). rewrite Hh, Hl.
  destruct (history_shape e s) as [-> | [[k Hk] | Hnil]].
  - auto.
  - rewrite Hk. intros Hi.
    pose proof (index_Some_range _ _ _ Hi) as Hr.
    rewrite length_app in Hr |- *. simpl in Hr |- *.
    destruct (Z.ltb_spec i (Z.of_nat (List.length (firstn k (history s)))))
      as [Hlt | Hge].
    + left. rewrite index_push_old in Hi by exact Hlt.
      rewrite index_firstn in Hi; [exact Hi|].
      rewrite length_firstn in Hlt. lia.
    + right. split; [lia|].
      rewrite index_push_at in Hi by lia. congruence.
  - rewrite Hnil. unfold index. destruct (i <? 0); [discriminate|].
    destruct (Z.to_nat i); discriminate.
Qed.

Lemma undo_synced_or_same (s : State) :
  -1 <= historyIndex s < Z.of_nat (List.length (history s)) ->
  synced (handleUndo s) \/ handleUndo s = s.
Proof.
  intros Hr. unfold handleUndo, canUndo.
  destruct (historyIndex s >? 0) eqn:E; [left | right; reflexivity].
  rewrite Z.gtb_ltb in E. apply Z.ltb_lt in E.
  destruct (index_in_range (history s) (historyIndex s - 1)) as [snap Hsnap];
    [lia|].
  rewrite Hsnap. left. exact Hsnap.
Qed.

Lemma redo_synced_or_same (s : State) :
  -1 <= historyIndex s < Z.of_nat (List.length (history s)) ->
  synced (handleRedo s) \/ handleRedo s = s.
Proof.
  intros Hr. unfold handleRedo, canRedo.
  destruct (historyIndex s <? Z.of_nat (List.length (history s)) - 1) eqn:E;
    [left | right; reflexivity].
  apply Z.ltb_lt in E.
  destruct (index_in_range (history s) (historyIndex s + 1)) as [snap Hsnap];
    [lia|].
  rewrite Hsnap. left. exact Hsnap.
Qed.

(** Every handler but the one of the opacity slider either puts the
    displayed layers on the snapshot under the cursor or writes none of
    layers, history and cursor. *)
Lemma handle_synced_or_same (e : Event) (s : State) :
  isOpacityChange e = false ->
  -1 <= historyIndex s < Z.of_nat (List.length (history s)) ->
  synced (handle e s)
  \/ (history (handle e s) = history s
      /\ historyIndex (handle e s) = historyIndex s
      /\ layers (handle e s) = layers s).
Proof.
  intros Hop Hr.
  destruct e; try (right; repeat split; reflexivity);
    try (change (handle Undo s) with (handleUndo s);
         destruct (undo_synced_or_same s Hr) as [Hu | ->];
         [left; exact Hu | right; repeat split; reflexivity]);
    try (change (handle Redo s) with (handleRedo s);
         destruct (redo_synced_or_same s Hr) as [Hu | ->];
         [left; exact Hu | right; repeat split; reflexivity]);
    unfold handle, prepareCropEffect, compositeSettled, handleFileSelect,
      handleImageUpload, handleAddLayer,
      handleDeleteLayer, handleReorderLayers, LayerPanel.onSlider,
      handleLayerVisibilityChange, handleGenerate, handleApplyFilter,
      handleApplyAdjustment, handleApplyFaceSwap, handleRemoveBackground,
      handleApplyCrop, handleExport, handleImageClick, tryCatchFinally, bind
      in *;
    handler_cases; try discriminate Hop;
    first
      [ right; repeat split; reflexivity
      | left; left; apply index_push_last
      | left; left; reflexivity
      | left; right; repeat split; reflexivity ].
Qed.

Lemma resynced_step (e : Event) (s : State) :
  reachable s ->
  isOpacityChange e = false ->
  synced s \/ history (step e s) <> history s
  \/ historyIndex (step e s) <> historyIndex s ->
  synced (step e s).
Proof.
  intros Hr Hop Hs. unfold step in *.
  destruct (handle_synced_or_same e s Hop (cursor_stays_in_history s Hr))
    as [Hd | (Hh & Hc & Hl)]; [exact Hd|].
  destruct Hs as [Hs | [Hm | Hm]]; [|contradiction|contradiction].
  unfold synced. rewrite Hh, Hc, Hl. exact Hs.
Qed.

Lemma slider_move_synced (e : Event) (s : State) :
  isOpacityChange e = true ->
  synced s ->
  synced (step e s) <-> layers (step e s) = layers s.
Proof.
  intros He Hs. destruct e as [| | | | |i ev| | | | | | | | | | | | | | | | | | | | | | | | | |];
    try discriminate He.
  destruct (slider_keeps_history i ev s) as [Hh Hc].
  unfold synced. rewrite Hh, Hc. split.
  - intros [Hd | (Hn & _ & Hl)].
    + destruct Hs as [Hs | (Hn & _)]; [congruence|].
      rewrite Hn in Hd. unfold index in Hd.
      destruct (historyIndex s <? 0); [discriminate|].
      destruct (Z.to_nat (historyIndex s)); discriminate.
    + destruct Hs as [Hs | (_ & _ & Hl')]; [|congruence].
      rewrite Hn in Hs. unfold index in Hs.
      destruct (historyIndex s <? 0); [discriminate|].
      destruct (Z.to_nat (historyIndex s)); discriminate.
  - intros ->. exact Hs.
Qed.

(** C5 (as amended). The displayed layer set is the snapshot under the
    cursor (before the first upload and after the last layer is deleted
    there is neither snapshot nor layer, and the cursor is -1) in every
    state reached without moving an opacity slider.  At any point the
    editor reaches, a reaction other than the move of an opacity slider
    leaves the display on the snapshot under the cursor if it was there
    before, and puts it there, wherever it was, if it changes history
    or cursor: an upload, a committed edit, a reorder, a delete, a
    visibility toggle, an undo or redo that moves; a reaction that does
    not put it there writes none of layers, history and cursor.  Moving
    an opacity slider changes neither history nor cursor, so that the display
    stays on the snapshot under the cursor only if the move changes no
    layer.  The display therefore differs from the snapshot only from
    such a move to the next reaction that changes history or cursor.
    No reaction changes a snapshot that stays in the history: a
    snapshot found after a reaction was at the same index before, or is
    the one just recorded, and then it is the displayed layer set. *)
Theorem display_follows_cursor_once_history_moves
    (es : list Event) (transparent : bool) :
  let s := run es (initialState transparent) in
  (forallb (fun e => negb (isOpacityChange e)) es = true -> synced s)
  /\ (forall e : Event,
        isOpacityChange e = false ->
        synced (step e s)
        \/ (history (step e s) = history s
            /\ historyIndex (step e s) = historyIndex s
            /\ layers (step e s) = layers s))
  /\ (forall e : Event,
        isOpacityChange e = false ->
        synced s \/ history (step e s) <> history s
        \/ historyIndex (step e s) <> historyIndex s ->
        synced (step e s))
  /\ (forall (e : Event) (es' : list Event),
        isOpacityChange e = false ->
        history (step e s) <> history s
        \/ historyIndex (step e s) <> historyIndex s ->
        forallb (fun e' => negb (isOpacityChange e')) es' = true ->
        synced (run (es ++ e :: es') (initialState transparent)))
  /\ (forall (e : Event) (t : State),
        isOpacityChange e = true ->
        history (step e t) = history t
        /\ historyIndex (step e t) = historyIndex t
        /\ (synced t -> (synced (step e t) <-> layers (step e t) = layers t)))
  /\ (forall (e : Event) (t : State) (i : Z) (snap : list Layer),
        index (history (step e t)) i = Some snap ->
        index (history t) i = Some snap
        \/ (i = Z.of_nat (List.length (history (step e t))) - 1
            /\ snap = layers (step e t))).
Proof.
  intros s.
  assert (Hr : reachable s) by (apply reachable_run, reachable_init).
  split; [|split; [|split; [|split; [|split]]]].
  - intros Hes. apply synced_run; [exact Hes|]. right. repeat split; reflexivity.
  - intros e He. unfold step.
    apply handle_synced_or_same; [exact He|].
    apply cursor_stays_in_history. exact Hr.
  - intros e. apply resynced_step. exact Hr.
  - intros e es' He Hm Hes'.
    unfold run. rewrite fold_left_app. simpl fold_left.
    apply synced_run; [exact Hes'|].
    apply resynced_step; [exact Hr | exact He | right; exact Hm].
  - intros e t He. split; [|split].
    + destruct e; try discriminate He. apply slider_keeps_history.
    + destruct e; try discriminate He. apply slider_keeps_history.
    + apply slider_move_synced. exact He.
  - intros e t. apply snapshots_stay.
Qed.

End Sync.

Section SyncOnSample.

#[local] Existing Instance Sample.browser.

(** Upload, retouch, undo, redo, hide the layer, undo: the display is
    the snapshot under the cursor, here the retouched image.  Upload,
    move the opacity slider to 50: the display has left the snapshot;
    hiding the layer then commits, and the display is the snapshot
    under the cursor again, and stays so through an undo. *)
Lemma display_follows_cursor_once_history_moves_witness :
  let es :=
    [FileSelect (Some Sample.imageA) 1; ImageClick 120 80;
     PromptInput "remove object"; Generate 2 (Ok Sample.served); Undo; Redo;
     LayerVisibility "layer-1"; Undo] in
  let moved :=
    [FileSelect (Some Sample.imageA) 1;
     LayerSlider "layer-1" (LayerPanel.SliderChange 50)] in
  let s := run moved (initialState false) in
  forallb (fun e => negb (isOpacityChange e)) es = true
  /\ synced (run es (initialState false))
  /\ historyIndex (run es (initialState false)) = 1
  /\ List.length (history (run es (initialState false))) = 3%nat
  /\ ~ synced s
  /\ historyIndex (step (LayerVisibility "layer-1") s) <> historyIndex s
  /\ synced (step (LayerVisibility "layer-1") s)
  /\ synced (run (moved ++ [LayerVisibility "layer-1"; Undo])
               (initialState false)).
Proof.
  intros es moved s.
  destruct (display_follows_cursor_once_history_moves es false)
    as (Hs & _).
  destruct (display_follows_cursor_once_history_moves moved false)
    as (_ & _ & Hre & Hrun & _).
  assert (Hm : historyIndex (step (LayerVisibility "layer-1") s)
               <> historyIndex s)
    by (vm_compute; discriminate).
  split; [reflexivity|]. split; [exact (Hs eq_refl)|].
  split; [vm_compute; reflexivity|]. split; [vm_compute; reflexivity|].
  split.
  { intros [Hd | (Hn & _)]; vm_compute in Hd || vm_compute in Hn;
      discriminate. }
  split; [exact Hm|].
  split; [exact (Hre (LayerVisibility "layer-1") eq_refl (or_intror (or_intror Hm)))|].
  exact (Hrun (LayerVisibility "layer-1") [Undo] eq_refl (or_intror Hm) eq_refl).
Defined.

(** C5, counterexample. After the upload the opacity slider of the
    layer is moved to 50: the editor shows the layer at 50, the
    snapshot under the cursor has it at 100. *)
Lemma opacity_change_leaves_snapshot_behind :
  let s :=
    run [FileSelect (Some Sample.imageA) 1;
         LayerSlider "layer-1" (LayerPanel.SliderChange 50)]
      (initialState false) in
  reachable s
  /\ map opacity (layers s) = [50]
  /\ option_map (map opacity) (index (history s) (historyIndex s))
     = Some [100]
  /\ index (history s) (historyIndex s) <> Some (layers s).
Proof.
  intros s. split.
  - unfold s, run. simpl fold_left. do 2 apply reachable_step.
    apply reachable_init.
  - split; [vm_compute; reflexivity|].
    split; [vm_compute; reflexivity | vm_compute; discriminate].
Qed.

End SyncOnSample.

(** ** Which events are edits *)

Section Edits.

Context `{Browser}.

Lemma commit_is_edit (nl : list Layer) (s : State) :
  isCommit s (commitChanges nl true s).
Proof. split; reflexivity. Qed.

(** The handler of an edit event that moved the history has made a
    commit. *)
Lemma edit_event_is_commit (e : Event) (s : State) :
  isEditEvent e = true ->
  layers s <> [] ->
  layers (step e s) <> [] ->
  history (step e s) <> history s
  \/ historyIndex (step e s) <> historyIndex s ->
  isCommit s (step e s).
Proof.
  intros He Hs Hs' Hmoved. unfold isCommit.
  destruct (step_store e s) as (Hh & Hc & Hl & _).
  rewrite Hh, Hc, Hl in *. clear Hh Hc Hl.
  destruct e; try discriminate He; clear He;
    unfold handle, prepareCropEffect, compositeSettled, handleAddLayer,
      handleDeleteLayer, handleReorderLayers,
      handleLayerVisibilityChange, handleGenerate, handleApplyFilter,
      handleApplyAdjustment, handleApplyFaceSwap, handleRemoveBackground,
      handleApplyCrop, tryCatchFinally, bind in *;
    handler_cases;
    try (exfalso; simpl in *; tauto);
    try (split; reflexivity).
  exfalso. apply Hs. destruct (layers s); [reflexivity | discriminate].
Qed.

Lemma quiet_event_is_neutral (e : Event) (s : State) :
  isQuietEvent e = true -> isNeutral s (step e s).
Proof.
  intros He. unfold isNeutral.
  destruct (step_store e s) as (Hh & Hc & Hl & _). rewrite Hh, Hc, Hl.
  destruct e; try discriminate He;
    try (repeat split; reflexivity).
  - destruct e; try discriminate He; repeat split; reflexivity.
  - unfold handle, handleExport. handler_cases; repeat split; reflexivity.
  - unfold handle, handleImageClick. handler_cases; repeat split; reflexivity.
  - unfold handle, prepareCropEffect. handler_cases; repeat split; reflexivity.
Qed.

End Edits.

(** ** C6: what a commit resets *)

Section CommitResets.

Context `{Browser}.

Lemma commitChanges_resets (nl : list Layer) (b : bool) (s : State) :
  let s' := commitChanges nl b s in
  crop s' = None /\ completedCrop s' = None /\ secondaryImage s' = None
  /\ additionalPrompt s' = "" /\ retouchScale s' = 100
  /\ prompt s' = prompt s /\ editHotspot s' = editHotspot s
  /\ displayHotspot s' = displayHotspot s.
Proof. destruct b; repeat split; reflexivity. Qed.

(** The cells written by the handler of an edit event that moved the
    history. *)
Lemma edit_event_resets (e : Event) (s : State) :
  isEditEvent e = true ->
  layers s <> [] ->
  layers (handle e s) <> [] ->
  history (handle e s) <> history s
  \/ historyIndex (handle e s) <> historyIndex s ->
  let s' := handle e s in
  (crop s' = None /\ completedCrop s' = None /\ secondaryImage s' = None
   /\ additionalPrompt s' = "" /\ retouchScale s' = 100)
  /\ if isRetouch e
     then prompt s' = "" /\ editHotspot s' = None /\ displayHotspot s' = None
     else prompt s' = prompt s /\ editHotspot s' = editHotspot s
          /\ displayHotspot s' = displayHotspot s.
Proof.
  intros He Hs Hs' Hmoved s'. subst s'.
  destruct e; try discriminate He; clear He; simpl isRetouch; cbv iota;
    unfold handle, prepareCropEffect, compositeSettled, handleAddLayer,
      handleDeleteLayer, handleReorderLayers,
      handleLayerVisibilityChange, handleGenerate, handleApplyFilter,
      handleApplyAdjustment, handleApplyFaceSwap, handleRemoveBackground,
      handleApplyCrop, tryCatchFinally, bind in *;
    handler_cases;
    try (exfalso; simpl in *; tauto);
    try (repeat split; reflexivity).
  - (* adding to an empty layer set is an upload *)
    exfalso. apply Hs. destruct (layers s); [reflexivity | discriminate].
Qed.

End CommitResets.


Section ResetsOnSample.

#[local] Existing Instance Sample.browser.



End ResetsOnSample.

(** ** C7: the opacity slider *)

Section OpacityOnSample.

#[local] Existing Instance Sample.browser.

(** C7, at the failing input. The slider of the uploaded layer is
    dragged to 70, then to 50, and released.  The layer is shown at 50,
    the history still holds the one snapshot of the upload with
    opacity 100: the release has recorded nothing. *)
Theorem opacity_release_commits_nothing :
  let s0 := step (FileSelect (Some Sample.imageA) 1) (initialState false) in
  let s1 :=
    run [LayerSlider "layer-1" (LayerPanel.SliderChange 70);
         LayerSlider "layer-1" (LayerPanel.SliderChange 50);
         LayerSlider "layer-1" LayerPanel.SliderRelease] s0 in
  map opacity (layers s1) = [50]
  /\ history s1 = history s0
  /\ map (map opacity) (history s1) = [[100]]
  /\ historyIndex s1 = 0
  /\ index (history s1) (historyIndex s1) <> Some (layers s1)
  /\ map (map opacity) (history (commitOpacityChange s1)) = [[100]; [50]].
Proof.
  intros s0 s1.
  split; [vm_compute; reflexivity|]. split; [vm_compute; reflexivity|].
  split; [vm_compute; reflexivity|]. split; [vm_compute; reflexivity|].
  split; [vm_compute; discriminate | vm_compute; reflexivity].
Qed.

End OpacityOnSample.

(** ** C8: a crop of zero width *)

Section ZeroCrop.

Context `{Browser}.

(** Zero times any number is a zero or [NaN]: the canvas gets no
    pixels. *)
Lemma zero_times (w scale : num) (default : Z) :
  numIsZero w = true -> canvasDim default (numMul w scale) = 0.
Proof.
  destruct w; try discriminate. intros _. destruct scale; reflexivity.
Qed.

Lemma zero_times_is_zero (w scale : num) :
  numIsZero w = true -> numIsFinite scale = true ->
  numIsZero (numMul w scale) = true.
Proof.
  destruct w; try discriminate. intros _.
  destruct scale; try discriminate; reflexivity.
Qed.

Lemma empty_bitmap_url (c : Canvas) (mime : string) :
  canvasWidth c = 0 -> toDataURL c mime = "data:,".
Proof. intros Hc. unfold toDataURL. rewrite Hc. reflexivity. Qed.

Lemma empty_bitmap_blob (c : Canvas) (mime : string) :
  canvasWidth c = 0 -> toBlob c mime = None.
Proof. intros Hc. unfold toBlob. rewrite Hc. reflexivity. Qed.

Lemma empty_url_is_no_file (filename : string) :
  dataURLtoFile "data:," filename
  = Throw (JsError "Could not parse MIME type from data URL").
Proof. reflexivity. Qed.

(** What [handleApplyCrop] of the multi-layer editor does once it is
    past its validation with a crop of zero width and a decoded
    composite. *)
Lemma layered_zero_crop (c : Crop) (now : Z) (s : State) (url : string)
    (img : HTMLImage) (l : Layer) :
  numIsZero (cropWidth c) = true ->
  completedCrop s = Some c ->
  truthy (flattenedImageForCropUrl s) = Some url ->
  activeLayer s = Some l ->
  loadImage url = Some img ->
  handleApplyCrop now s
  = (s |> setError
            (Some (if hasContext2d
                   then "ตัดภาพไม่สำเร็จ: Could not parse MIME type from data URL"
                   else "ตัดภาพไม่สำเร็จ: Could not create canvas context"))
       |> setIsLoading false).
Proof.
  intros Hw Hc Hu Ha Hi. unfold handleApplyCrop, tryCatchFinally.
  rewrite Hc, Hu, Ha, Hi.
  destruct hasContext2d; [|reflexivity].
  cbv beta iota zeta. simpl negb. cbv iota.
  rewrite empty_bitmap_url; [rewrite empty_url_is_no_file; reflexivity|].
  simpl. apply zero_times. exact Hw.
Qed.

(** The validation of [handleApplyCrop]: a completed crop, a composite
    and an active layer, and nothing about the size of the crop. *)
Lemma layered_crop_validation (c : Crop) (now : Z) (s : State) :
  completedCrop s = Some c ->
  truthy (flattenedImageForCropUrl s) = None \/ activeLayer s = None ->
  handleApplyCrop now s
  = (s |> setError (Some "กรุณาเลือกพื้นที่ก่อนทำการตัดภาพ")).
Proof.
  intros Hc Hno. unfold handleApplyCrop. rewrite Hc.
  destruct (truthy (flattenedImageForCropUrl s)) as [url|]; [|reflexivity].
  destruct Hno as [Hno | ->]; [discriminate | reflexivity].
Qed.

(** With a composite that does not decode [onload] never fires. *)
Lemma layered_crop_waits (c : Crop) (now : Z) (s : State) (url : string)
    (l : Layer) :
  completedCrop s = Some c ->
  truthy (flattenedImageForCropUrl s) = Some url ->
  activeLayer s = Some l ->
  loadImage url = None ->
  handleApplyCrop now s = (s |> setIsLoading true |> setError None).
Proof.
  intros Hc Hu Ha Hi. unfold handleApplyCrop. rewrite Hc, Hu, Ha, Hi.
  reflexivity.
Qed.

Lemma layered_zero_crop_store (c : Crop) (now : Z) (s : State) :
  numIsZero (cropWidth c) = true ->
  completedCrop s = Some c ->
  let s' := handleApplyCrop now s in
  layers s' = layers s /\ history s' = history s
  /\ historyIndex s' = historyIndex s /\ activeLayerId s' = activeLayerId s.
Proof.
  intros Hw Hc s'. subst s'.
  destruct (truthy (flattenedImageForCropUrl s)) as [url|] eqn:Hu.
  - destruct (activeLayer s) as [l|] eqn:Ha.
    + destruct (loadImage url) as [img|] eqn:Hi.
      * rewrite (layered_zero_crop c now s url img l) by assumption.
        repeat split; reflexivity.
      * rewrite (layered_crop_waits c now s url l) by assumption.
        repeat split; reflexivity.
    + rewrite (layered_crop_validation c now s Hc) by (right; exact Ha).
      repeat split; reflexivity.
  - rewrite (layered_crop_validation c now s Hc) by (left; exact Hu).
    repeat split; reflexivity.
Qed.

Lemma flat_zero_crop (c : Crop) (now : Z) (t : Flat.State) (img : HTMLImage)
    (f : File) :
  numIsZero (cropWidth c) = true ->
  Flat.completedCrop t = Some c ->
  Flat.currentImage t = Some f ->
  numIsFinite (numDiv (naturalWidth img) (width img)) = true ->
  Flat.handleApplyCrop (Some img) now t
  = Flat.setError (Some "พื้นที่ที่เลือกตัดมีขนาดเล็กเกินไป") t.
Proof.
  intros Hw Hc Hf Hfin. unfold Flat.handleApplyCrop. rewrite Hc, Hf.
  cbv zeta. rewrite (zero_times_is_zero _ _ Hw Hfin). reflexivity.
Qed.

Lemma flat_crop_validation (now : Z) (t : Flat.State)
    (imgRef : option HTMLImage) :
  imgRef = None \/ Flat.currentImage t = None ->
  Flat.handleApplyCrop imgRef now t
  = Flat.setError (Some "กรุณาเลือกพื้นที่ที่จะตัดก่อน") t.
Proof.
  intros Hno. unfold Flat.handleApplyCrop.
  destruct (Flat.completedCrop t); [|reflexivity].
  destruct Hno as [-> | ->]; [reflexivity|].
  destruct imgRef; reflexivity.
Qed.

Lemma flat_zero_crop_store (c : Crop) (now : Z) (t : Flat.State)
    (imgRef : option HTMLImage) :
  numIsZero (cropWidth c) = true ->
  Flat.completedCrop t = Some c ->
  let t' := Flat.handleApplyCrop imgRef now t in
  Flat.history t' = Flat.history t
  /\ Flat.historyIndex t' = Flat.historyIndex t.
Proof.
  intros Hw Hc t'. subst t'. unfold Flat.handleApplyCrop. rewrite Hc.
  destruct imgRef as [img|]; [|split; reflexivity].
  destruct (Flat.currentImage t); [|split; reflexivity].
  cbv zeta.
  destruct (numIsZero _ || numIsZero _); [split; reflexivity|].
  destruct (negb hasContext2d); [split; reflexivity|].
  rewrite empty_bitmap_blob; [split; reflexivity|].
  simpl. apply zero_times. exact Hw.
Qed.


End ZeroCrop.

Section ZeroCropOnSample.

#[local] Existing Instance Sample.browser.



End ZeroCropOnSample.

(** ** C9: deleting a layer *)

Section Delete.

Context `{Browser}.

Lemma others_all (i : string) (ls : list Layer) :
  ~ In i (map id ls) -> others i ls = ls.
Proof.
  induction ls as [|l ls IH]; intros Hn; [reflexivity|].
  simpl in *. destruct (String.eqb_spec (id l) i) as [E|E].
  - exfalso. apply Hn. left. exact E.
  - simpl. f_equal. apply IH. intros Hin. apply Hn. right. exact Hin.
Qed.

Lemma others_length (i : string) (ls : list Layer) :
  NoDup (map id ls) -> In i (map id ls) ->
  S (List.length (others i ls)) = List.length ls.
Proof.
  induction ls as [|l ls IH]; intros Hnd Hin; [destruct Hin|].
  simpl in *. inversion Hnd as [|x xs Hx Hxs]; subst.
  destruct (String.eqb_spec (id l) i) as [E|E]; simpl.
  - rewrite others_all; [reflexivity|]. rewrite <- E. exact Hx.
  - f_equal. apply IH; [exact Hxs|]. destruct Hin as [Hin|Hin]; [contradiction|exact Hin].
Qed.

Lemma others_without (i : string) (ls : list Layer) :
  ~ In i (map id (others i ls)).
Proof.
  intros Hin. apply in_map_iff in Hin as (l & Hl & Hf).
  apply filter_In in Hf as [_ Hf].
  apply negb_true_iff in Hf. destruct (String.eqb_spec (id l) i); congruence.
Qed.

Lemma lastOf_nonempty {A : Type} (l : list A) :
  l <> [] -> exists a, lastOf l = Some a.
Proof.
  intros Hne. unfold lastOf. apply index_in_range.
  destruct l; [congruence|]. simpl List.length. lia.
Qed.

(** C9 (as amended). Deleting, by its id, a layer of a layer set with
    distinct ids.  If it is the only layer, layers and history become
    empty, the cursor -1 and the active layer [null].  If there are
    more, the layer set loses exactly that layer and is committed: the
    history is cut after the cursor, the new layer set appended, the
    cursor advanced; the active layer becomes the topmost remaining
    layer when the deleted layer was the active one, and stays what it
    was otherwise. *)
Theorem delete_layer_effect (i : string) (s : State) :
  NoDup (map id (layers s)) ->
  In i (map id (layers s)) ->
  -1 <= historyIndex s < Z.of_nat (List.length (history s)) ->
  let s' := handleDeleteLayer i s in
  (List.length (layers s) = 1%nat ->
   layers s' = [] /\ history s' = [] /\ historyIndex s' = -1
   /\ activeLayerId s' = None)
  /\ ((1 < List.length (layers s))%nat ->
      layers s' = others i (layers s)
      /\ S (List.length (layers s')) = List.length (layers s)
      /\ ~ In i (map id (layers s'))
      /\ history s'
         = firstn (Z.to_nat (historyIndex s + 1)) (history s) ++ [layers s']
      /\ historyIndex s' = historyIndex s + 1
      /\ (exists top,
            lastOf (layers s') = Some top
            /\ activeLayerId s'
               = if sameId (activeLayerId s) i then Some (id top)
                 else activeLayerId s)).
Proof.
  intros Hnd Hin Hcur s'.
  pose proof (others_length i (layers s) Hnd Hin) as Hlen.
  split.
  - intros H1. subst s'. unfold handleDeleteLayer. fold (others i (layers s)).
    assert (Hnil : others i (layers s) = []).
    { destruct (others i (layers s)); [reflexivity | simpl in Hlen; lia]. }
    rewrite Hnil. repeat split; reflexivity.
  - intros Hmany.
    assert (Hne : others i (layers s) <> []).
    { intros Hnil. rewrite Hnil in Hlen. simpl in Hlen. lia. }
    destruct (lastOf_nonempty _ Hne) as [top Htop].
    assert (Hs' : s' = commitChanges (others i (layers s)) true
                         (if sameId (activeLayerId s) i
                          then setActiveLayerId (Some (id top)) s else s)).
    { subst s'. unfold handleDeleteLayer. fold (others i (layers s)).
      rewrite Htop.
      destruct (Z.gtb_spec (Z.of_nat (List.length (others i (layers s)))) 0)
        as [_|Hle]; [reflexivity|].
      destruct (others i (layers s)); [congruence | simpl in Hle; lia]. }
    assert (Hl : layers s' = others i (layers s)).
    { rewrite Hs'. apply commitChanges_layers. }
    assert (Hh : history s'
                 = slice0 (history s) (historyIndex s + 1)
                   ++ [others i (layers s)]).
    { rewrite Hs', commitChanges_history.
      destruct (sameId (activeLayerId s) i); reflexivity. }
    assert (Hc : historyIndex s' = historyIndex s + 1).
    { rewrite Hs', commitChanges_cursor_next;
        destruct (sameId (activeLayerId s) i); try reflexivity; exact Hcur. }
    assert (Ha : activeLayerId s'
                 = if sameId (activeLayerId s) i then Some (id top)
                   else activeLayerId s).
    { rewrite Hs'. destruct (sameId (activeLayerId s) i); reflexivity. }
    clearbody s'. rewrite Hl.
    split; [reflexivity|]. split; [exact Hlen|].
    split; [apply others_without|].
    split; [rewrite Hh, slice0_firstn by exact Hcur; reflexivity|].
    split; [exact Hc|]. exists top. split; assumption.
Qed.

End Delete.

Section DeleteOnSample.

#[local] Existing Instance Sample.browser.

(** Three layers with the bottom one active; the middle one, then the
    top one, then the last one are deleted. *)
Lemma delete_layer_effect_witness :
  let s :=
    run [FileSelect (Some Sample.imageA) 1; LayerAdd Sample.imageA 2;
         LayerAdd Sample.imageA 3; LayerSelect "layer-1"]
      (initialState false) in
  let s1 := step (FileSelect (Some Sample.imageA) 1) (initialState false) in
  NoDup (map id (layers s))
  /\ In "layer-2" (map id (layers s))
  /\ -1 <= historyIndex s < Z.of_nat (List.length (history s))
  /\ (1 < List.length (layers s))%nat
  /\ historyIndex (handleDeleteLayer "layer-2" s) = 3
  /\ List.length (layers s1) = 1%nat
  /\ history (handleDeleteLayer "layer-1" s1) = [].
Proof.
  intros s s1.
  assert (Hnd : NoDup (map id (layers s))).
  { vm_compute. repeat constructor; simpl; intuition discriminate. }
  assert (Hin : In "layer-2" (map id (layers s))).
  { vm_compute. right. left. reflexivity. }
  assert (Hcur : -1 <= historyIndex s < Z.of_nat (List.length (history s))).
  { vm_compute. split; [discriminate | reflexivity]. }
  assert (Hmany : (1 < List.length (layers s))%nat).
  { vm_compute. apply le_S, le_n. }
  destruct (delete_layer_effect "layer-2" s Hnd Hin Hcur) as [_ Hm].
  destruct (Hm Hmany) as (_ & _ & _ & _ & Hc & _).
  assert (Hnd1 : NoDup (map id (layers s1))).
  { vm_compute. repeat constructor. simpl. intuition. }
  assert (Hin1 : In "layer-1" (map id (layers s1))).
  { vm_compute. left. reflexivity. }
  assert (Hcur1 : -1 <= historyIndex s1 < Z.of_nat (List.length (history s1))).
  { vm_compute. split; [discriminate | reflexivity]. }
  destruct (delete_layer_effect "layer-1" s1 Hnd1 Hin1 Hcur1) as [Hone _].
  assert (Hlen1 : List.length (layers s1) = 1%nat) by (vm_compute; reflexivity).
  destruct (Hone Hlen1) as (_ & Hh & _).
  split; [exact Hnd|]. split; [exact Hin|]. split; [exact Hcur|].
  split; [exact Hmany|]. split; [rewrite Hc; vm_compute; reflexivity|].
  split; [exact Hlen1 | exact Hh].
Defined.

(** C9, counterexample. Of three layers the bottom one is active and
    the middle one is deleted: the active layer is still the bottom
    one, not the topmost of the two that remain. *)
Lemma delete_keeps_other_active_layer :
  let s :=
    run [FileSelect (Some Sample.imageA) 1; LayerAdd Sample.imageA 2;
         LayerAdd Sample.imageA 3; LayerSelect "layer-1"]
      (initialState false) in
  let s' := step (LayerDelete "layer-2") s in
  map id (layers s) = ["layer-1"; "layer-2"; "layer-3"]
  /\ map id (layers s') = ["layer-1"; "layer-3"]
  /\ option_map id (lastOf (layers s')) = Some "layer-3"
  /\ activeLayerId s' = Some "layer-1"
  /\ activeLayerId s' <> option_map id (lastOf (layers s')).
Proof.
  intros s s'.
  split; [vm_compute; reflexivity|]. split; [vm_compute; reflexivity|].
  split; [vm_compute; reflexivity|]. split; [vm_compute; reflexivity|].
  vm_compute. discriminate.
Qed.

End DeleteOnSample.

(** ** C10: a visibility toggle is a committed edit *)

(** C10. With the cursor inside the history, [handleLayerVisibilityChange]
    cuts the history after the cursor, appends the new layer set as a
    snapshot and moves the cursor onto it; the new layer set has the
    layers of the old one in the same order, the visibility flag negated
    on the layers carrying the given id and every other field of every
    layer as it was. *)
Theorem visibility_toggle_is_committed `{Browser} (s : State) (id_ : string) :
  -1 <= historyIndex s < Z.of_nat (List.length (history s)) ->
  let s' := handleLayerVisibilityChange id_ s in
  history s'
  = firstn (Z.to_nat (historyIndex s + 1)) (history s) ++ [layers s']
  /\ historyIndex s' = historyIndex s + 1
  /\ index (history s') (historyIndex s') = Some (layers s')
  /\ canRedo s' = false
  /\ List.length (layers s') = List.length (layers s)
  /\ forall (n : nat) (l : Layer),
       nth_error (layers s) n = Some l ->
       exists l',
         nth_error (layers s') n = Some l'
         /\ id l' = id l /\ file l' = file l /\ objectUrl l' = objectUrl l
         /\ name l' = name l /\ opacity l' = opacity l
         /\ isVisible l'
            = if String.eqb (id l) id_ then negb (isVisible l) else isVisible l.
Proof.
  intros Hi s'.
  set (toggle := fun l => if String.eqb (id l) id_ then toggleVisible l else l).
  assert (Hlay : layers s' = map toggle (layers s)) by reflexivity.
  assert (Hh : history s'
               = firstn (Z.to_nat (historyIndex s + 1)) (history s) ++ [layers s']).
  { rewrite Hlay. unfold s', handleLayerVisibilityChange.
    rewrite commitChanges_history, slice0_firstn by assumption. reflexivity. }
  assert (Hc : historyIndex s' = historyIndex s + 1).
  { unfold s', handleLayerVisibilityChange.
    apply commitChanges_cursor_next. assumption. }
  clearbody s'.
  assert (Hl : Z.of_nat (List.length (history s')) = historyIndex s + 2).
  { rewrite Hh, length_app, length_firstn. simpl. lia. }
  split; [exact Hh|]. split; [exact Hc|]. split.
  { rewrite Hc. rewrite Hh at 1. apply index_push_at.
    rewrite length_firstn. lia. }
  split. { unfold canRedo. apply Z.ltb_ge. lia. }
  split. { rewrite Hlay. apply length_map. }
  intros n l Hn. exists (toggle l). split.
  - rewrite Hlay, nth_error_map, Hn. reflexivity.
  - unfold toggle. destruct (String.eqb (id l) id_); repeat split; reflexivity.
Qed.

Section VisibilityOnSample.

#[local] Existing Instance Sample.browser.

(** The cursor of a freshly uploaded image is inside the history, and
    toggling its only layer hides it in a second snapshot. *)
Lemma visibility_toggle_is_committed_witness :
  let s := step (FileSelect (Some Sample.imageA) 1) (initialState false) in
  -1 <= historyIndex s < Z.of_nat (List.length (history s))
  /\ historyIndex (handleLayerVisibilityChange "layer-1" s) = 1
  /\ map isVisible (layers (handleLayerVisibilityChange "layer-1" s)) = [false].
Proof.
  intros s.
  assert (Hi : -1 <= historyIndex s < Z.of_nat (List.length (history s)))
    by (vm_compute; split; [discriminate | reflexivity]).
  split; [exact Hi|].
  destruct (visibility_toggle_is_committed s "layer-1" Hi) as (_ & Hc & _).
  split; [rewrite Hc; reflexivity | reflexivity].
Defined.

End VisibilityOnSample.

(** ** The effect that hands out object URLs never fires *)

Section ObjectUrls.

Context `{Browser}.

Hypothesis createObjectURL_nonempty :
  forall f : File, createObjectURL f <> EmptyString.

Lemma urls_commit (s s' : State) (nl : list Layer) :
  layers s' = nl ->
  history s' = slice0 (history s) (historyIndex s + 1) ++ [nl] ->
  Forall hasUrl nl -> urlsPresent s -> urlsPresent s'.
Proof.
  unfold urlsPresent. intros -> -> Hnl [_ Hh]. split; [exact Hnl|].
  apply Forall_app. split; [|repeat constructor; exact Hnl].
  destruct (slice0_prefix (history s) (historyIndex s + 1)) as [k ->].
  apply Forall_take. exact Hh.
Qed.

Lemma urls_snapshot (s : State) (i : Z) (snap : list Layer) :
  urlsPresent s -> index (history s) i = Some snap -> Forall hasUrl snap.
Proof.
  intros [_ Hh] Hi. unfold index in Hi. destruct (i <? 0); [discriminate|].
  apply nth_error_In in Hi. rewrite Forall_forall in Hh. apply Hh. exact Hi.
Qed.

Lemma urls_map (f : Layer -> Layer) (ls : list Layer) :
  (forall l, hasUrl l -> hasUrl (f l)) ->
  Forall hasUrl ls -> Forall hasUrl (map f ls).
Proof.
  intros Hf Hls. induction Hls; simpl; constructor; auto.
Qed.

Lemma urls_replace (f : File) (s : State) :
  Forall hasUrl (layers s) -> Forall hasUrl (replaceActiveFile f s).
Proof.
  apply urls_map. intros l Hl.
  destruct (idIs (activeLayerId s) l); [apply createObjectURL_nonempty | exact Hl].
Qed.

Lemma urls_reorder (i j : option nat) (ls reordered : list Layer) :
  LayerPanel.handleDragEnd i j ls = Some reordered ->
  Forall hasUrl ls -> Forall hasUrl reordered.
Proof.
  unfold LayerPanel.handleDragEnd, LayerPanel.spliceOut, LayerPanel.spliceIn.
  intros Hd Hls. destruct i as [i|], j as [j|]; try discriminate.
  destruct (Nat.eqb i j); [discriminate|].
  destruct (nth_error (rev ls) i) as [x|] eqn:Hx; [|discriminate].
  injection Hd as <-.
  assert (Hrev : Forall hasUrl (rev ls)) by (apply Forall_rev; exact Hls).
  assert (Hxu : hasUrl x).
  { rewrite Forall_forall in Hrev. apply Hrev. eapply nth_error_In. exact Hx. }
  assert (Hrest : Forall hasUrl (firstn i (rev ls) ++ skipn (S i) (rev ls))).
  { apply Forall_app. split; [apply Forall_take | apply Forall_drop]; exact Hrev. }
  apply Forall_rev, Forall_app. split; [apply Forall_take; exact Hrest|].
  constructor; [exact Hxu | apply Forall_drop; exact Hrest].
Qed.

Lemma urls_handle (e : Event) (s : State) :
  urlsPresent s -> urlsPresent (handle e s).
Proof.
  intros Hs. pose proof Hs as [Hl Hh].
  destruct e; try (exact Hs);
    unfold handle, prepareCropEffect, compositeSettled, handleFileSelect,
      handleImageUpload, handleAddLayer,
      handleDeleteLayer, handleReorderLayers, LayerPanel.onSlider,
      handleLayerOpacityChange, handleLayerVisibilityChange, handleGenerate,
      handleApplyFilter, handleApplyAdjustment, handleApplyFaceSwap,
      handleRemoveBackground, handleApplyCrop, handleExport, handleImageClick,
      handleUndo, handleRedo, tryCatchFinally, bind in *;
    handler_cases;
    try (exact Hs);
    try (eapply urls_commit;
         [reflexivity | reflexivity | apply urls_replace; exact Hl | exact Hs]).
  - (* upload *)
    split; repeat constructor; apply createObjectURL_nonempty.
  - (* first layer added *)
    split; repeat constructor; apply createObjectURL_nonempty.
  - (* layer added *)
    eapply urls_commit; [reflexivity | reflexivity | | exact Hs].
    apply Forall_app. split; [exact Hl|].
    repeat constructor. apply createObjectURL_nonempty.
  - (* active layer deleted *)
    eapply urls_commit; [reflexivity | reflexivity | | exact Hs].
    apply Forall_keep. exact Hl.
  - eapply urls_commit; [reflexivity | reflexivity | | exact Hs].
    apply Forall_keep. exact Hl.
  - (* other layer deleted *)
    eapply urls_commit; [reflexivity | reflexivity | | exact Hs].
    apply Forall_keep. exact Hl.
  - (* last layer deleted *)
    split; constructor.
  - (* reorder *)
    eapply urls_commit; [reflexivity | reflexivity | | exact Hs].
    eapply urls_reorder; eassumption.
  - (* opacity *)
    split; [|exact Hh]. apply urls_map; [|exact Hl].
    intros l Hu. destruct (String.eqb (id l) i); exact Hu.
  - (* visibility *)
    eapply urls_commit; [reflexivity | reflexivity | | exact Hs].
    apply urls_map; [|exact Hl].
    intros l Hu. destruct (String.eqb (id l) i); exact Hu.
  - (* undo *)
    split; [|exact Hh]. eapply urls_snapshot; eassumption.
  - (* redo *)
    split; [|exact Hh]. eapply urls_snapshot; eassumption.
  - (* crop *)
    eapply urls_commit; [reflexivity | reflexivity | | exact Hs].
    repeat constructor. apply createObjectURL_nonempty.
Qed.

(** In no state the editor can reach is there a layer, on display or in
    a snapshot, for which the effect on [[layers]] would assign an
    object URL: the layer objects shared between the display and the
    snapshots are never written to. *)
Lemma object_urls_present (s : State) :
  reachable s ->
  urlsPresent s /\ map manageObjectUrl (layers s) = layers s.
Proof.
  intros Hr.
  assert (Hu : urlsPresent s).
  { induction Hr as [t | e s Hr IH].
    - split; constructor.
    - unfold step. apply urls_handle. exact IH. }
  split; [exact Hu|]. destruct Hu as [Hl _].
  induction Hl as [|l ls Hx Hls IH]; [reflexivity|].
  simpl. rewrite IH. f_equal. unfold manageObjectUrl.
  destruct (objectUrl l) eqn:E; [contradiction | reflexivity].
Qed.

End ObjectUrls.

Section ObjectUrlsOnSample.

#[local] Existing Instance Sample.browser.

Lemma object_urls_present_on_sample :
  let s :=
    step (Generate 2 (Ok Sample.served))
      (step (PromptInput "remove object")
         (step (ImageClick 120 80)
            (step (FileSelect (Some Sample.imageA) 1) (initialState false)))) in
  (forall f : File, createObjectURL f <> EmptyString)
  /\ reachable s
  /\ map manageObjectUrl (layers s) = layers s.
Proof.
  intros s.
  assert (Hurl : forall f : File, createObjectURL f <> EmptyString)
    by (intros f; discriminate).
  assert (Hr : reachable s) by (repeat apply reachable_step; apply reachable_init).
  split; [exact Hurl|]. split; [exact Hr|].
  apply (object_urls_present Hurl s Hr).
Defined.

End ObjectUrlsOnSample.

(** * Further properties *)

(** Turns the boolean tests left by [handler_cases] into comparisons. *)
Ltac tests :=
  repeat match goal with
    | E : (_ >? _) = true |- _ => rewrite Z.gtb_ltb in E; apply Z.ltb_lt in E
    | E : (_ >? _) = false |- _ => rewrite Z.gtb_ltb in E; apply Z.ltb_ge in E
    | E : (_ <? _) = true |- _ => apply Z.ltb_lt in E
    | E : (_ <? _) = false |- _ => apply Z.ltb_ge in E
    | E : (_ =? _) = true |- _ => apply Z.eqb_eq in E
    | E : (_ =? _) = false |- _ => apply Z.eqb_neq in E
    end.

(** ** Data URLs *)

Section DataUrls.

Context `{Browser}.

Lemma append_assoc (a b c : string) : (a +++ b) +++ c = a +++ b +++ c.
Proof. induction a as [|x a IH]; simpl; [reflexivity | now rewrite IH]. Qed.

Lemma avoids_cons (bad : list N) (c : ascii) (s : string) :
  avoids bad (String c s) = true ->
  existsb (N.eqb (byte c)) bad = false /\ avoids bad s = true.
Proof.
  unfold avoids. simpl. intros Ha. apply andb_true_iff in Ha as [Hc Hs].
  apply negb_true_iff in Hc. auto.
Qed.

Lemma splitComma_plain (s : string) :
  avoids [44%N] s = true -> splitComma s = [s].
Proof.
  induction s as [|c s IH]; intros Ha; [reflexivity|].
  apply avoids_cons in Ha as [Hc Hs]. simpl in Hc |- *.
  apply orb_false_iff in Hc as [Hc _]. rewrite Hc, (IH Hs). reflexivity.
Qed.

Lemma splitComma_head (a b : string) :
  avoids [44%N] a = true ->
  splitComma (a +++ "," +++ b) = a :: splitComma b.
Proof.
  induction a as [|c a IH]; intros Ha; [reflexivity|].
  apply avoids_cons in Ha as [Hc Hs]. simpl in Hc |- *.
  apply orb_false_iff in Hc as [Hc _]. rewrite Hc.
  simpl in IH. rewrite (IH Hs). reflexivity.
Qed.

Lemma lazyUntilSemicolon_step (c : ascii) (t : string) :
  existsb (N.eqb (byte c)) [59; 10; 13; 226]%N = false ->
  lazyUntilSemicolon (String c t)
  = option_map (String c) (lazyUntilSemicolon t).
Proof.
  intros Hc. simpl in Hc.
  repeat (apply orb_false_iff in Hc as [? Hc]).
  assert (Hu : lazyUntilSemicolon (String c t)
               = if (byte c =? 59)%N then Some EmptyString
                 else if ((byte c =? 10) || (byte c =? 13))%N then None
                 else
                   match t with
                   | String c2 (String c3 _) =>
                       if ((byte c =? 226) && (byte c2 =? 128)
                           && ((byte c3 =? 168) || (byte c3 =? 169)))%N
                       then None
                       else option_map (String c) (lazyUntilSemicolon t)
                   | _ => option_map (String c) (lazyUntilSemicolon t)
                   end) by reflexivity.
  rewrite Hu.
  repeat match goal with E : (_ =? _)%N = false |- _ => rewrite E; clear E end.
  destruct t as [|c2 [|c3 t']]; reflexivity.
Qed.

Lemma lazyUntilSemicolon_stop (m r : string) :
  avoids [59; 10; 13; 226]%N m = true ->
  lazyUntilSemicolon (m +++ ";" +++ r) = Some m.
Proof.
  induction m as [|c m IH]; intros Ha; [reflexivity|].
  apply avoids_cons in Ha as [Hc Hs].
  change ((String c m) +++ ";" +++ r) with (String c (m +++ ";" +++ r)).
  rewrite (lazyUntilSemicolon_step c _ Hc), (IH Hs). reflexivity.
Qed.

Lemma lazyUntilSemicolon_none (s : string) :
  avoids [59%N] s = true -> lazyUntilSemicolon s = None.
Proof.
  induction s as [|c s IH]; intros Ha; [reflexivity|].
  apply avoids_cons in Ha as [Hc Hs]. simpl in Hc.
  apply orb_false_iff in Hc as [Hc _].
  assert (Hu : lazyUntilSemicolon (String c s)
               = if (byte c =? 59)%N then Some EmptyString
                 else if ((byte c =? 10) || (byte c =? 13))%N then None
                 else
                   match s with
                   | String c2 (String c3 _) =>
                       if ((byte c =? 226) && (byte c2 =? 128)
                           && ((byte c3 =? 168) || (byte c3 =? 169)))%N
                       then None
                       else option_map (String c) (lazyUntilSemicolon s)
                   | _ => option_map (String c) (lazyUntilSemicolon s)
                   end) by reflexivity.
  rewrite Hu, Hc, (IH Hs).
  destruct ((byte c =? 10)%N || (byte c =? 13)%N); [reflexivity|].
  destruct s as [|c2 [|c3 t]]; try reflexivity.
  destruct (_ && _); reflexivity.
Qed.

Lemma matchMime_step (c : ascii) (r : string) :
  matchMime (String c r)
  = if (byte c =? 58)%N then
      match lazyUntilSemicolon r with
      | Some g => Some g
      | None => matchMime r
      end
    else matchMime r.
Proof. reflexivity. Qed.

Lemma matchMime_found (p m r : string) :
  avoids [58%N] p = true ->
  avoids [59; 10; 13; 226]%N m = true ->
  matchMime (p +++ ":" +++ m +++ ";" +++ r) = Some m.
Proof.
  intros Hp Hm. induction p as [|c p IH].
  - change (EmptyString +++ ":" +++ m +++ ";" +++ r)
      with (String ":" (m +++ ";" +++ r)).
    rewrite matchMime_step, (lazyUntilSemicolon_stop m r Hm). reflexivity.
  - apply avoids_cons in Hp as [Hc Hs]. simpl in Hc.
    apply orb_false_iff in Hc as [Hc _].
    change (String c p +++ ":" +++ m +++ ";" +++ r)
      with (String c (p +++ ":" +++ m +++ ";" +++ r)).
    rewrite matchMime_step, Hc. apply IH. exact Hs.
Qed.

Lemma matchMime_no_colon (h : string) :
  avoids [58%N] h = true -> matchMime h = None.
Proof.
  induction h as [|c h IH]; intros Ha; [reflexivity|].
  apply avoids_cons in Ha as [Hc Hs]. simpl in Hc.
  apply orb_false_iff in Hc as [Hc _].
  rewrite matchMime_step, Hc. apply IH. exact Hs.
Qed.

Lemma matchMime_no_semicolon (h : string) :
  avoids [59%N] h = true -> matchMime h = None.
Proof.
  induction h as [|c h IH]; intros Ha; [reflexivity|].
  apply avoids_cons in Ha as [Hc Hs].
  rewrite matchMime_step, (lazyUntilSemicolon_none h Hs), (IH Hs).
  destruct (byte c =? 58)%N; reflexivity.
Qed.

Lemma avoids_weaken (bad bad' : list N) (s : string) :
  incl bad' bad -> avoids bad s = true -> avoids bad' s = true.
Proof.
  intros Hi. unfold avoids. rewrite !forallb_forall. intros Ha c Hc.
  specialize (Ha c Hc). apply negb_true_iff in Ha. apply negb_true_iff.
  destruct (existsb (N.eqb (byte c)) bad') eqn:E; [|reflexivity].
  apply existsb_exists in E as (n & Hn & En).
  rewrite <- Ha. symmetry. apply existsb_exists. exists n. split; [apply Hi; exact Hn | exact En].
Qed.

Lemma avoids_app (bad : list N) (a b : string) :
  avoids bad a = true -> avoids bad b = true -> avoids bad (a +++ b) = true.
Proof.
  intros Ha Hb. induction a as [|c a IH]; [exact Hb|].
  apply avoids_cons in Ha as [Hc Hs]. unfold avoids in *. simpl.
  rewrite Hc. simpl. apply IH. exact Hs.
Qed.

Lemma lowerString_plain (s : string) :
  hasUpper s = false -> lowerString s = s.
Proof.
  induction s as [|c s IH]; intros Hu; [reflexivity|].
  unfold hasUpper in Hu. simpl in Hu. apply orb_false_iff in Hu as [Hc Hs].
  simpl. unfold asciiLower. rewrite Hc. f_equal. apply IH. exact Hs.
Qed.

(** X1. A data URL made of a prefix without colon or comma, a colon, a
    non-empty MIME type without semicolon, comma, line break or byte
    0xE2, a semicolon, an encoding name without comma, a comma and a
    payload without comma is turned into a file with the given name,
    the bytes [atob] makes of the payload and the type the [File]
    constructor makes of that MIME type: empty when the MIME type has a
    character outside U+0020..U+007E, the MIME type in ASCII lower case
    otherwise, hence the MIME type itself when it is printable and has
    no capital letter. If [atob] throws, so does [dataURLtoFile], with
    the same value. *)
Theorem dataURLtoFile_parses
    (prefix mime encoding payload filename : string) :
  avoids [58; 44]%N prefix = true ->
  avoids [59; 44; 10; 13; 226]%N mime = true ->
  mime <> EmptyString ->
  avoids [44%N] encoding = true ->
  avoids [44%N] payload = true ->
  dataURLtoFile
    (prefix +++ ":" +++ mime +++ ";" +++ encoding +++ "," +++ payload) filename
  = (bstr <- atob payload ;; Ok (mkFile filename (fileTypeOf mime) bstr))
  /\ (within 32 126 mime = false -> fileTypeOf mime = EmptyString)
  /\ (within 32 126 mime = true -> fileTypeOf mime = lowerString mime)
  /\ (within 32 126 mime = true -> hasUpper mime = false ->
      fileTypeOf mime = mime).
Proof.
  intros Hp Hm Hne He Hpay.
  split; [|split; [|split]].
  2: { intros Hw. unfold fileTypeOf. rewrite Hw. reflexivity. }
  2: { intros Hw. unfold fileTypeOf. rewrite Hw. reflexivity. }
  2: { intros Hw Hu. unfold fileTypeOf. rewrite Hw.
       apply lowerString_plain. exact Hu. }
  set (header := prefix +++ ":" +++ mime +++ ";" +++ encoding).
  assert (Hh : avoids [44%N] header = true).
  { unfold header. apply avoids_app.
    - apply (avoids_weaken [58; 44]%N); [|exact Hp].
      intros n [<-|[]]. right. left. reflexivity.
    - apply (avoids_app _ ":"); [reflexivity|]. apply avoids_app.
      + apply (avoids_weaken [59; 44; 10; 13; 226]%N); [|exact Hm].
        intros n [<-|[]]. right. left. reflexivity.
      + apply (avoids_app _ ";"); [reflexivity | exact He]. }
  assert (Hurl : prefix +++ ":" +++ mime +++ ";" +++ encoding +++ "," +++ payload
                 = header +++ "," +++ payload).
  { unfold header. rewrite !append_assoc. reflexivity. }
  rewrite Hurl. unfold dataURLtoFile.
  rewrite (splitComma_head header payload Hh), (splitComma_plain payload Hpay).
  unfold header. rewrite matchMime_found.
  - destruct mime; [congruence | reflexivity].
  - apply (avoids_weaken [58; 44]%N); [|exact Hp].
    intros n [<-|[]]. left. reflexivity.
  - apply (avoids_weaken [59; 44; 10; 13; 226]%N); [|exact Hm].
    intros n Hn. simpl in *. intuition.
Qed.

Lemma splitComma_cons (s : string) : exists w ws, splitComma s = w :: ws.
Proof.
  induction s as [|c s (w & ws & IH)]; simpl; [eauto|].
  destruct (byte c =? 44)%N; [eauto|]. rewrite IH. eauto.
Qed.

(** X2. [dataURLtoFile] throws "Invalid data URL" for a string without
    comma, and "Could not parse MIME type from data URL" when the part
    before the first comma has no colon, has no semicolon, or has
    nothing between its first colon and the semicolon that follows it;
    [atob] is not reached in any of these cases. *)
Theorem dataURLtoFile_rejects (url header rest filename : string) :
  (avoids [44%N] url = true ->
   dataURLtoFile url filename = Throw (JsError "Invalid data URL"))
  /\ (avoids [44%N] header = true ->
      avoids [58%N] header = true \/ avoids [59%N] header = true ->
      dataURLtoFile (header +++ "," +++ rest) filename
      = Throw (JsError "Could not parse MIME type from data URL"))
  /\ (avoids [58; 44]%N header = true ->
      forall tail : string,
        avoids [44%N] tail = true ->
        dataURLtoFile (header +++ ":;" +++ tail +++ "," +++ rest) filename
        = Throw (JsError "Could not parse MIME type from data URL")).
Proof.
  split; [|split].
  - intros Hu. unfold dataURLtoFile. rewrite (splitComma_plain url Hu).
    reflexivity.
  - intros Hh Hno. unfold dataURLtoFile. rewrite (splitComma_head _ _ Hh).
    destruct (splitComma_cons rest) as (w & ws & ->).
    destruct Hno as [Hc | Hs].
    + rewrite (matchMime_no_colon _ Hc). reflexivity.
    + rewrite (matchMime_no_semicolon _ Hs). reflexivity.
  - intros Hh tail Ht. unfold dataURLtoFile.
    assert (Hurl : header +++ ":;" +++ tail +++ "," +++ rest
                   = (header +++ ":" +++ EmptyString +++ ";" +++ tail)
                     +++ "," +++ rest).
    { rewrite !append_assoc. reflexivity. }
    rewrite Hurl, splitComma_head.
    + destruct (splitComma_cons rest) as (w & ws & ->).
      rewrite matchMime_found; [reflexivity | | reflexivity].
      apply (avoids_weaken [58; 44]%N); [|exact Hh].
      intros n [<-|[]]. left. reflexivity.
    + apply avoids_app.
      * apply (avoids_weaken [58; 44]%N); [|exact Hh].
        intros n [<-|[]]. right. left. reflexivity.
      * apply (avoids_app _ ":"); [reflexivity|].
        apply (avoids_app _ ";"); [reflexivity | exact Ht].
Qed.

End DataUrls.

Section DataUrlsOnSample.

#[local] Existing Instance Sample.browser.

(** The answer of the sample service with its type in capitals and
    with a type that is not printable, and three malformed ones. *)
Lemma dataURLtoFile_parses_witness :
  avoids [58; 44]%N "data" = true
  /\ avoids [59; 44; 10; 13; 226]%N "IMAGE/PNG" = true
  /\ dataURLtoFile "data:IMAGE/PNG;base64,aGk=" "edited-2.png"
     = Ok (mkFile "edited-2.png" "image/png" "hi")
  /\ dataURLtoFile "data:image/png;base64,aGk=" "edited-2.png"
     = Ok (mkFile "edited-2.png" "image/png" "hi")
  /\ dataURLtoFile ("data:image" +++ String (ascii_of_N 9) "png;base64,aGk=")
       "edited-2.png"
     = Ok (mkFile "edited-2.png" "" "hi").
Proof.
  split; [reflexivity|]. split; [reflexivity|].
  destruct (dataURLtoFile_parses "data" "IMAGE/PNG" "base64" "aGk="
              "edited-2.png") as (H1 & _ & H2 & _);
    [reflexivity | reflexivity | discriminate | reflexivity | reflexivity|].
  destruct (dataURLtoFile_parses "data" "image/png" "base64" "aGk="
              "edited-2.png") as (H3 & _ & _ & H4);
    [reflexivity | reflexivity | discriminate | reflexivity | reflexivity|].
  destruct (dataURLtoFile_parses "data"
              ("image" +++ String (ascii_of_N 9) "png") "base64" "aGk="
              "edited-2.png") as (H5 & H6 & _);
    [reflexivity | reflexivity | discriminate | reflexivity | reflexivity|].
  split; [|split].
  - refine (eq_trans H1 _). rewrite (H2 eq_refl). reflexivity.
  - refine (eq_trans H3 _). rewrite (H4 eq_refl eq_refl). reflexivity.
  - refine (eq_trans H5 _). rewrite (H6 eq_refl). reflexivity.
Defined.

Lemma dataURLtoFile_rejects_witness :
  avoids [44%N] "not a data url" = true
  /\ dataURLtoFile "not a data url" "x.png" = Throw (JsError "Invalid data URL")
  /\ dataURLtoFile "data:," "x.png"
     = Throw (JsError "Could not parse MIME type from data URL")
  /\ dataURLtoFile "data:;base64,aGk=" "x.png"
     = Throw (JsError "Could not parse MIME type from data URL").
Proof.
  destruct (dataURLtoFile_rejects "not a data url" "data:" "" "x.png")
    as (H1 & H2 & _).
  destruct (dataURLtoFile_rejects "" "data" "aGk=" "x.png") as (_ & _ & H3).
  split; [reflexivity|]. split; [apply H1; reflexivity|].
  split; [apply H2; [reflexivity | right; reflexivity]|].
  apply (H3 eq_refl "base64" eq_refl).
Defined.

End DataUrlsOnSample.

(** ** The cursor and the first snapshot *)

Section Cursor.

Context `{Browser}.

Lemma cursorOk_handle (e : Event) (s : State) :
  cursorOk s -> cursorOk (handle e s).
Proof.
  intros IH.
  destruct e; try (exact IH);
    unfold handle, prepareCropEffect, compositeSettled, handleFileSelect,
      handleImageUpload, handleAddLayer,
      handleDeleteLayer, handleReorderLayers, LayerPanel.onSlider,
      handleLayerVisibilityChange, handleGenerate, handleApplyFilter,
      handleApplyAdjustment, handleApplyFaceSwap, handleRemoveBackground,
      handleApplyCrop, handleExport, handleImageClick, handleUndo, handleRedo,
      canUndo, canRedo, tryCatchFinally, bind in *;
    handler_cases;
    try (exact IH);
    tests;
    unfold cursorOk in *; simpl in *;
    first
      [ right; split; reflexivity
      | left; rewrite ?length_app; simpl; lia
      | destruct IH as [IH | [Hh Hc]];
        [ left; lia
        | rewrite Hh, Hc in *; simpl in *; lia ] ].
Qed.

(** X3. In every state the editor can reach the cursor is the index of
    a snapshot, or the history is empty and the cursor is -1: undo and
    redo never step outside the history, and [history[historyIndex]] is
    defined whenever there is any history. *)
Theorem cursor_on_snapshot_or_empty (s : State) :
  reachable s ->
  cursorOk s
  /\ (history s <> [] ->
      exists snapshot, index (history s) (historyIndex s) = Some snapshot)
  /\ (canUndo s = true -> index (history s) (historyIndex s - 1) <> None)
  /\ (canRedo s = true -> index (history s) (historyIndex s + 1) <> None).
Proof.
  intros Hr.
  assert (Hc : cursorOk s).
  { induction Hr as [t | e s Hr IH]; [right; split; reflexivity|].
    destruct (step_store e s) as (Hh & Hi & _).
    unfold cursorOk. rewrite Hh, Hi. apply cursorOk_handle. exact IH. }
  split; [exact Hc|]. split; [|split].
  - intros Hne. destruct Hc as [Hc | [Hh _]]; [|contradiction].
    apply index_in_range. exact Hc.
  - unfold canUndo. intros Hu. rewrite Z.gtb_ltb in Hu. apply Z.ltb_lt in Hu.
    destruct Hc as [Hc | [_ Hc]]; [|lia].
    destruct (index_in_range (history s) (historyIndex s - 1)) as [x ->];
      [lia | discriminate].
  - unfold canRedo. intros Hu. apply Z.ltb_lt in Hu.
    destruct Hc as [Hc | [Hh Hc]]; [|rewrite Hh, Hc in Hu; simpl in Hu; lia].
    destruct (index_in_range (history s) (historyIndex s + 1)) as [x ->];
      [lia | discriminate].
Qed.

Lemma uploadFirst_layers (o : option (File * Z)) (s s' : State) :
  uploadFirst o s ->
  history s' = history s -> historyIndex s' = historyIndex s ->
  (layers s = [] -> layers s' = []) ->
  uploadFirst o s'.
Proof.
  unfold uploadFirst. intros [Ha | [Hl Hh]] -> -> Hnil; [left; exact Ha|].
  right. split; [apply Hnil; exact Hl | exact Hh].
Qed.

Lemma uploadFirst_commit (o : option (File * Z)) (s s' : State)
    (nl : list Layer) :
  uploadFirst o s ->
  layers s' = nl ->
  history s' = slice0 (history s) (historyIndex s + 1) ++ [nl] ->
  historyIndex s' = Z.of_nat (List.length (history s')) - 1 ->
  (layers s = [] -> nl = []) ->
  uploadFirst o s'.
Proof.
  unfold uploadFirst.
  intros [(f & now & Ho & H0 & Hi) | [Hl Hh]] Hnl Hhist Hcur Hnil.
  - left. exists f, now. split; [exact Ho|].
    rewrite Hcur, Hhist. clear Hcur Hhist Hnl s'.
    pose proof (index_Some_range _ _ _ H0) as Hr.
    unfold slice0. destruct (historyIndex s + 1 <? 0) eqn:E;
      [apply Z.ltb_lt in E; lia|].
    set (k := Z.to_nat (Z.min (historyIndex s + 1)
                          (Z.of_nat (List.length (history s))))).
    assert (Hk : (0 < k)%nat) by (unfold k; lia).
    assert (Hlen : List.length (firstn k (history s)) = Nat.min k (List.length (history s)))
      by apply length_firstn.
    split.
    + rewrite index_push_old by lia. rewrite index_firstn by lia. exact H0.
    + rewrite length_app. simpl. lia.
  - right. rewrite Hnl, Hhist, (Hnil Hl). split; [reflexivity|].
    apply Forall_app. split; [|repeat constructor].
    destruct (slice0_prefix (history s) (historyIndex s + 1)) as [k ->].
    apply Forall_take. exact Hh.
Qed.

Lemma uploadFirst_cursor (o : option (File * Z)) (s s' : State) (i : Z)
    (snapshot : list Layer) :
  uploadFirst o s ->
  index (history s) i = Some snapshot ->
  history s' = history s -> historyIndex s' = i -> layers s' = snapshot ->
  uploadFirst o s'.
Proof.
  unfold uploadFirst.
  intros [(f & now & Ho & H0 & Hi) | [Hl Hh]] Hsnap -> -> ->.
  - left. exists f, now. split; [exact Ho|]. split; [exact H0|].
    apply index_Some_range in Hsnap. lia.
  - right. split; [|exact Hh].
    unfold index in Hsnap. destruct (i <? 0); [discriminate|].
    apply nth_error_In in Hsnap. rewrite Forall_forall in Hh.
    apply Hh. exact Hsnap.
Qed.

Lemma dragEnd_empty (i j : option nat) : LayerPanel.handleDragEnd i j [] = None.
Proof.
  unfold LayerPanel.handleDragEnd, LayerPanel.spliceOut.
  destruct i as [i|], j as [j|]; try reflexivity.
  destruct (Nat.eqb i j); [reflexivity|]. simpl. destruct i; reflexivity.
Qed.

Lemma uploadFirst_handle (e : Event) (o : option (File * Z)) (s : State) :
  uploadFirst o s -> uploadFirst (uploadAfter e s o) (handle e s).
Proof.
  intros IH.
  destruct e; try (exact IH).
  1: { (* FileSelect *)
       destruct file0 as [f|]; [|exact IH].
       left. exists f, now. split; [reflexivity|].
       split; [reflexivity | simpl; lia]. }
  1: { (* LayerAdd *)
       unfold uploadAfter, uploadOf, handle, handleAddLayer.
       destruct (Z.of_nat (List.length (layers s)) =? 0) eqn:E.
       - left. exists f, now. split; [reflexivity|].
         split; [reflexivity | simpl; lia].
       - eapply (uploadFirst_commit o s);
           [exact IH | reflexivity | reflexivity | reflexivity|].
         intros Hnil. rewrite Hnil in E. discriminate E. }
  all: cbv beta iota delta [uploadAfter uploadOf];
    unfold handle, prepareCropEffect, compositeSettled,
      handleDeleteLayer, handleReorderLayers, LayerPanel.onSlider,
      handleLayerOpacityChange, handleLayerVisibilityChange, handleGenerate,
      handleApplyFilter, handleApplyAdjustment, handleApplyFaceSwap,
      handleRemoveBackground, handleApplyCrop, handleExport, handleImageClick,
      handleUndo, handleRedo, canUndo, canRedo, tryCatchFinally, bind in *;
    handler_cases;
    try (exact IH);
    try (right; split; [reflexivity | constructor]);
    try (eapply (uploadFirst_cursor o s);
         [exact IH | eassumption | reflexivity ..]);
    try (eapply (uploadFirst_layers o s);
         [exact IH | reflexivity | reflexivity | intros ->; reflexivity]);
    try (eapply (uploadFirst_commit o s);
         [ exact IH | reflexivity | reflexivity | reflexivity
         | intros Hnil; try (unfold replaceActiveFile); try rewrite Hnil;
           try reflexivity ]).
  - exfalso. match goal with E : LayerPanel.handleDragEnd _ _ _ = Some _ |- _ =>
      rewrite Hnil, dragEnd_empty in E; discriminate E end.
  - tests. destruct IH as [(f & now & Ho & H0 & Hi) | Hb]; [|right; exact Hb].
    left. exists f, now. split; [exact Ho|]. split; [exact H0 | simpl; lia].
  - tests. destruct IH as [(f & now & Ho & H0 & Hi) | Hb]; [|right; exact Hb].
    left. exists f, now. split; [exact Ho|]. split; [exact H0 | simpl; lia].
  - exfalso. match goal with E : activeLayer s = Some _ |- _ =>
      unfold activeLayer in E; rewrite Hnil in E; discriminate E end.
Qed.

Lemma uploadFirst_run (es : list Event) :
  forall (s : State) (o : option (File * Z)),
    uploadFirst o s -> uploadFirst (lastUploadOf es s o) (run es s).
Proof.
  induction es as [|e es IH]; intros s o Hu; [exact Hu|].
  change (run (e :: es) s) with (run es (step e s)).
  simpl lastUploadOf. apply IH. unfold step. apply uploadFirst_handle.
  exact Hu.
Qed.


(** X5. Undo and redo undo each other.  When the display is the
    snapshot under the cursor, an undo followed by a redo, and a redo
    followed by an undo, give back the very same state; whatever the
    display was, after an undo and a redo it is the snapshot under the
    cursor, so that opacity changes made since the last commit are
    gone. *)
Theorem undo_and_redo_cancel (s : State) :
  cursorOk s ->
  (canUndo s = true ->
   index (history s) (historyIndex s)
   = Some (layers (handleRedo (handleUndo s)))
   /\ historyIndex (handleRedo (handleUndo s)) = historyIndex s)
  /\ (synced s -> canUndo s = true -> handleRedo (handleUndo s) = s)
  /\ (synced s -> canRedo s = true -> handleUndo (handleRedo s) = s).
Proof.
  intros Hc.
  assert (Hback : forall t : State,
             t |> setHistoryIndex (historyIndex t) |> setLayers (layers t) = t)
    by (intros []; reflexivity).
  assert (Hundo : canUndo s = true ->
            exists snap cur,
              index (history s) (historyIndex s - 1) = Some snap
              /\ index (history s) (historyIndex s) = Some cur
              /\ handleRedo (handleUndo s)
                 = (s |> setHistoryIndex (historyIndex s) |> setLayers cur)).
  { intros Hu. pose proof Hu as Hu'. unfold canUndo in Hu'. tests.
    destruct Hc as [Hc | [_ Hc]]; [|lia].
    destruct (index_in_range (history s) (historyIndex s - 1)) as [snap Hs];
      [lia|].
    destruct (index_in_range (history s) (historyIndex s)) as [cur Hcur];
      [lia|].
    exists snap, cur. split; [exact Hs|]. split; [exact Hcur|].
    unfold handleUndo. rewrite Hu, Hs. unfold handleRedo, canRedo. simpl.
    destruct (Z.ltb_spec (historyIndex s - 1)
                (Z.of_nat (List.length (history s)) - 1)) as [_|Hge]; [|lia].
    replace (historyIndex s - 1 + 1) with (historyIndex s) by lia.
    rewrite Hcur. reflexivity. }
  split; [|split].
  - intros Hu. destruct (Hundo Hu) as (snap & cur & _ & Hcur & ->).
    split; [exact Hcur | reflexivity].
  - intros Hs Hu. destruct (Hundo Hu) as (snap & cur & _ & Hcur & ->).
    destruct Hs as [Hs | (_ & Hi & _)];
      [|unfold canUndo in Hu; rewrite Hi in Hu; discriminate Hu].
    rewrite Hs in Hcur. injection Hcur as <-. apply Hback.
  - intros Hs Hr. pose proof Hr as Hr'. unfold canRedo in Hr'. tests.
    destruct Hs as [Hs | (Hh & Hi & _)];
      [|rewrite Hh, Hi in Hr'; simpl in Hr'; lia].
    pose proof (index_Some_range _ _ _ Hs) as Hrange.
    destruct (index_in_range (history s) (historyIndex s + 1)) as [nxt Hn];
      [lia|].
    unfold handleRedo. rewrite Hr, Hn. unfold handleUndo, canUndo. simpl.
    destruct (Z.gtb_spec (historyIndex s + 1) 0) as [_|Hle]; [|lia].
    replace (historyIndex s + 1 - 1) with (historyIndex s) by lia.
    rewrite Hs.
    transitivity (s |> setHistoryIndex (historyIndex s) |> setLayers (layers s));
      [reflexivity | apply Hback].
Qed.

(** X6. Undo stops at the first snapshot.  With the cursor on a
    snapshot, [k] undos leave the history as it is and put the cursor
    at [max 0 (cursor - k)]; from there on further undos change
    nothing. *)
Theorem undo_stops_at_first_snapshot (k : nat) (s : State) :
  0 <= historyIndex s < Z.of_nat (List.length (history s)) ->
  let s' := Nat.iter k handleUndo s in
  history s' = history s
  /\ historyIndex s' = Z.max 0 (historyIndex s - Z.of_nat k)
  /\ (historyIndex s <= Z.of_nat k -> handleUndo s' = s').
Proof.
  intros Hi.
  assert (Hk : history (Nat.iter k handleUndo s) = history s
               /\ historyIndex (Nat.iter k handleUndo s)
                  = Z.max 0 (historyIndex s - Z.of_nat k)).
  { induction k as [|k [Hh Hc]]; [simpl; split; [reflexivity | lia]|].
    simpl. set (sk := Nat.iter k handleUndo s) in *.
    unfold handleUndo, canUndo.
    destruct (Z.gtb_spec (historyIndex sk) 0) as [Hpos|Hle].
    - destruct (index_in_range (history sk) (historyIndex sk - 1)) as [x ->];
        [rewrite Hh; lia|].
      simpl. split; [exact Hh | lia].
    - split; [exact Hh | lia]. }
  destruct Hk as [Hh Hc]. intros s'. fold s' in Hh, Hc. clearbody s'.
  split; [exact Hh|]. split; [exact Hc|].
  intros Hle. unfold handleUndo, canUndo. rewrite Hc.
  destruct (Z.gtb_spec (Z.max 0 (historyIndex s - Z.of_nat k)) 0); [lia|].
  reflexivity.
Qed.

End Cursor.

Section CursorOnSample.

#[local] Existing Instance Sample.browser.

Lemma cursor_on_snapshot_or_empty_witness :
  let s :=
    step Undo
      (step (LayerVisibility "layer-1")
         (step (FileSelect (Some Sample.imageA) 1) (initialState false))) in
  reachable s /\ cursorOk s /\ historyIndex s = 0.
Proof.
  intros s.
  assert (Hr : reachable s) by (repeat apply reachable_step; apply reachable_init).
  destruct (cursor_on_snapshot_or_empty s Hr) as (Hc & _).
  split; [exact Hr|]. split; [exact Hc | vm_compute; reflexivity].
Defined.


Lemma undo_and_redo_cancel_witness :
  let s :=
    run [FileSelect (Some Sample.imageA) 1; LayerVisibility "layer-1";
         LayerSlider "layer-1" (LayerPanel.SliderChange 40)]
      (initialState false) in
  cursorOk s
  /\ canUndo s = true
  /\ map opacity (layers s) = [40]
  /\ index (history s) (historyIndex s)
     = Some (layers (handleRedo (handleUndo s)))
  /\ option_map (map opacity) (index (history s) (historyIndex s))
     = Some [100].
Proof.
  intros s.
  assert (Hc : cursorOk s) by (left; vm_compute; split; [discriminate | reflexivity]).
  assert (Hu : canUndo s = true) by (vm_compute; reflexivity).
  destruct (undo_and_redo_cancel s Hc) as (H1 & _).
  destruct (H1 Hu) as [Hcur _].
  split; [exact Hc|]. split; [exact Hu|]. split; [vm_compute; reflexivity|].
  split; [exact Hcur | vm_compute; reflexivity].
Defined.

Lemma undo_stops_at_first_snapshot_witness :
  let s :=
    run [FileSelect (Some Sample.imageA) 1; LayerVisibility "layer-1";
         LayerVisibility "layer-1"] (initialState false) in
  0 <= historyIndex s < Z.of_nat (List.length (history s))
  /\ historyIndex s = 2
  /\ historyIndex (Nat.iter 5 handleUndo s) = 0.
Proof.
  intros s.
  assert (Hi : 0 <= historyIndex s < Z.of_nat (List.length (history s)))
    by (vm_compute; split; [discriminate | reflexivity]).
  destruct (undo_stops_at_first_snapshot 5 s Hi) as (_ & Hc & _).
  split; [exact Hi|]. split; [vm_compute; reflexivity|].
  rewrite Hc. vm_compute. reflexivity.
Defined.

End CursorOnSample.

(** ** The service operations when they succeed *)

Section Operations.

Context `{Browser}.

Lemma find_replace (a : option string) (g : Layer -> Layer) (ls : list Layer) :
  (forall l, id (g l) = id l) ->
  find (idIs a) (map (fun l => if idIs a l then g l else l) ls)
  = option_map g (find (idIs a) ls).
Proof.
  intros Hg. induction ls as [|l ls IH]; simpl; [reflexivity|].
  destruct (idIs a l) eqn:E.
  - unfold idIs in *. rewrite Hg, E. reflexivity.
  - rewrite E. exact IH.
Qed.

Lemma validated_has_layer (op : Operation) (s : State) :
  passesValidation op s = true -> exists l, activeLayer s = Some l.
Proof.
  destruct op; simpl; destruct (activeLayer s); try discriminate; eauto.
Qed.

(** X7. When one of the five service operations gets past its
    validation and the service answers with a data URL that
    [dataURLtoFile] turns into the file [f], the handler commits a layer
    set that differs from the old one only in the layers carrying the
    active id: they get [f] and a new object URL for it.  Order, ids,
    names, opacities and visibility flags are kept, the same layer
    stays active, [error] is empty and [isLoading] false. *)
Theorem successful_operation_replaces_active_file
    (op : Operation) (now : Z) (url : string) (f : File) (s : State) :
  passesValidation op s = true ->
  dataURLtoFile url (operationFileName op now) = Ok f ->
  let s' := runOperation op now (Ok url) s in
  isCommit s s'
  /\ (forall (n : nat) (l : Layer),
        nth_error (layers s) n = Some l ->
        nth_error (layers s') n
        = Some (if idIs (activeLayerId s) l
                then mkLayer (id l) f (createObjectURL f) (name l) (opacity l)
                       (isVisible l)
                else l))
  /\ List.length (layers s') = List.length (layers s)
  /\ activeLayerId s' = activeLayerId s
  /\ (exists l, activeLayer s = Some l
                /\ activeLayer s'
                   = Some (mkLayer (id l) f (createObjectURL f) (name l)
                             (opacity l) (isVisible l)))
  /\ error s' = None
  /\ isLoading s' = false.
Proof.
  intros Hv Hf s'.
  destruct (validated_has_layer op s Hv) as [l0 Hl0].
  assert (Hs : layers s' = replaceActiveFile f s
               /\ isCommit s s' /\ activeLayerId s' = activeLayerId s
               /\ error s' = None /\ isLoading s' = false).
  { unfold s'. destruct op; simpl in Hv, Hf |- *;
      unfold handleGenerate, handleApplyFilter, handleApplyAdjustment,
        handleApplyFaceSwap, handleRemoveBackground, tryCatchFinally;
      destruct (activeLayer s); try discriminate;
      try (destruct (editHotspot s); try discriminate);
      try (destruct (secondaryImage s); try discriminate);
      try (destruct (trimIsEmpty (prompt s)); try discriminate);
      simpl; rewrite Hf; simpl;
      (split; [reflexivity|]); (split; [split; reflexivity|]);
      repeat split; reflexivity. }
  destruct Hs as (Hl & Hc & Ha & He & Hi).
  split; [exact Hc|]. split.
  { intros n l Hn. rewrite Hl. unfold replaceActiveFile.
    rewrite nth_error_map, Hn. reflexivity. }
  split; [rewrite Hl; unfold replaceActiveFile; apply length_map|].
  split; [exact Ha|]. split.
  { exists l0. split; [exact Hl0|].
    unfold activeLayer. rewrite Ha, Hl. unfold replaceActiveFile.
    rewrite (find_replace (activeLayerId s) (withFile f)) by reflexivity.
    unfold activeLayer in Hl0. rewrite Hl0. reflexivity. }
  split; assumption.
Qed.

(** X8. When the service does answer but [dataURLtoFile] throws on the
    answer, the operation ends as for a failing call: the state it
    started from with the failure label and the message of the thrown
    value in [error] and [isLoading] false.  For an answer without
    comma the message is "Invalid data URL". *)
Theorem undecodable_response_is_reported
    (op : Operation) (now : Z) (url : string) (s : State) :
  passesValidation op s = true ->
  (forall e, dataURLtoFile url (operationFileName op now) = Throw e ->
     runOperation op now (Ok url) s
     = (s |> setError (Some (failureLabel op +++ errorMessageOf e))
          |> setIsLoading false))
  /\ (avoids [44%N] url = true ->
      runOperation op now (Ok url) s
      = (s |> setError (Some (failureLabel op +++ "Invalid data URL"))
           |> setIsLoading false)).
Proof.
  intros Hv.
  assert (Hthrow : forall e,
            dataURLtoFile url (operationFileName op now) = Throw e ->
            runOperation op now (Ok url) s
            = (s |> setError (Some (failureLabel op +++ errorMessageOf e))
                 |> setIsLoading false)).
  { intros e He.
    destruct op; simpl in Hv, He |- *;
      unfold handleGenerate, handleApplyFilter, handleApplyAdjustment,
        handleApplyFaceSwap, handleRemoveBackground, tryCatchFinally;
      destruct (activeLayer s); try discriminate;
      try (destruct (editHotspot s); try discriminate);
      try (destruct (secondaryImage s); try discriminate);
      try (destruct (trimIsEmpty (prompt s)); try discriminate);
      simpl; rewrite He; reflexivity. }
  split; [exact Hthrow|].
  intros Hc. apply (Hthrow (JsError "Invalid data URL")).
  unfold dataURLtoFile. rewrite (splitComma_plain url Hc). reflexivity.
Qed.

End Operations.

(** ** Layer ids *)

Section LayerIds.

Context `{Browser}.

Lemma showZ_inj (a b : Z) : showZ a = showZ b -> a = b.
Proof.
  unfold showZ. intros E. apply DecimalZ.to_int_inj.
  assert (Hn : forall z, Z.to_int z <> Decimal.Pos Decimal.Nil
                         /\ Z.to_int z <> Decimal.Neg Decimal.Nil).
  { intros [|p|p]; simpl; split; try discriminate;
      intros E'; injection E' as E';
      exact (DecimalPos.Unsigned.to_uint_nonnil p E'). }
  pose proof (NilZero.isi (Z.to_int a) (proj1 (Hn a)) (proj2 (Hn a))) as Ea.
  pose proof (NilZero.isi (Z.to_int b) (proj1 (Hn b)) (proj2 (Hn b))) as Eb.
  rewrite E in Ea. congruence.
Qed.

Lemma layerId_inj (a b : Z) : layerId a = layerId b -> a = b.
Proof.
  unfold layerId. simpl. intros E. injection E as E. apply showZ_inj, E.
Qed.

Lemma idsFrom_mono (used used' : list Z) (ls : list Layer) :
  incl used used' -> idsFrom used ls -> idsFrom used' ls.
Proof.
  intros Hi [Hn Hs]. split; [exact Hn|].
  intros x Hx. apply Hs in Hx. apply in_map_iff in Hx as (t & <- & Ht).
  apply in_map, Hi, Ht.
Qed.

Lemma idsOk_mono (used used' : list Z) (s : State) :
  incl used used' -> idsOk used s -> idsOk used' s.
Proof.
  intros Hi [Hl Hh]. split; [eapply idsFrom_mono; eassumption|].
  eapply Forall_impl; [|exact Hh]. intros ls. apply idsFrom_mono, Hi.
Qed.

Lemma idsOk_layers (used : list Z) (s s' : State) (nl : list Layer) :
  idsOk used s -> idsFrom used nl ->
  layers s' = nl -> history s' = history s -> idsOk used s'.
Proof. intros [_ Hh] Hnl Hl Hhist. split; [rewrite Hl | rewrite Hhist]; assumption. Qed.

Lemma idsOk_same (used : list Z) (s s' : State) :
  idsOk used s -> layers s' = layers s -> history s' = history s ->
  idsOk used s'.
Proof. intros Hs Hl Hh. eapply idsOk_layers; eauto. apply Hs. Qed.

Lemma idsOk_commit (used : list Z) (s s' : State) (nl : list Layer) :
  idsOk used s -> idsFrom used nl ->
  layers s' = nl ->
  history s' = slice0 (history s) (historyIndex s + 1) ++ [nl] ->
  idsOk used s'.
Proof.
  intros [_ Hh] Hnl Hl Hhist. split; [rewrite Hl; exact Hnl|].
  rewrite Hhist. apply Forall_app. split; [|constructor; [exact Hnl | constructor]].
  destruct (slice0_prefix (history s) (historyIndex s + 1)) as [k ->].
  apply Forall_take, Hh.
Qed.

Lemma idsOk_cursor (used : list Z) (s s' : State) (i : Z) (snapshot : list Layer) :
  idsOk used s -> index (history s) i = Some snapshot ->
  layers s' = snapshot -> history s' = history s -> idsOk used s'.
Proof.
  intros Hs Hi Hl Hh. eapply idsOk_layers; eauto.
  destruct Hs as [_ Hall]. rewrite Forall_forall in Hall. apply Hall.
  unfold index in Hi. destruct (i <? 0); [discriminate|].
  eapply nth_error_In, Hi.
Qed.

Lemma idsFrom_map (used : list Z) (g : Layer -> Layer) (ls : list Layer) :
  (forall l, id (g l) = id l) -> idsFrom used ls -> idsFrom used (map g ls).
Proof.
  intros Hg Hls. unfold idsFrom. rewrite map_map.
  rewrite (map_ext (fun l => id (g l)) id Hg). exact Hls.
Qed.

Lemma NoDup_map_filter {A B : Type} (g : A -> B) (p : A -> bool) (l : list A) :
  NoDup (map g l) -> NoDup (map g (filter p l)).
Proof.
  induction l as [|a l IH]; simpl; intros Hn; [constructor|].
  inversion Hn as [|? ? Hin Hn']; subst.
  destruct (p a); [|auto]. simpl. constructor; [|auto].
  intros Hx. apply Hin. apply in_map_iff in Hx as (y & Hy & Hf).
  apply filter_In in Hf as [Hf _]. apply in_map_iff. eauto.
Qed.

Lemma idsFrom_filter (used : list Z) (p : Layer -> bool) (ls : list Layer) :
  idsFrom used ls -> idsFrom used (filter p ls).
Proof.
  intros [Hn Hs]. split; [apply NoDup_map_filter, Hn|].
  intros x Hx. apply Hs. apply in_map_iff in Hx as (y & Hy & Hf).
  apply filter_In in Hf as [Hf _]. apply in_map_iff. eauto.
Qed.

Lemma idsFrom_perm (used : list Z) (ls ls' : list Layer) :
  Permutation ls ls' -> idsFrom used ls -> idsFrom used ls'.
Proof.
  intros Hp [Hn Hs]. pose proof (Permutation_map id Hp) as Hm. split.
  - eapply Permutation_NoDup; eassumption.
  - intros x Hx. apply Hs. eapply Permutation_in; [symmetry|]; eassumption.
Qed.

Lemma idsFrom_single (used : list Z) (now : Z) (l : Layer) :
  id l = layerId now -> idsFrom (now :: used) [l].
Proof.
  intros Hl. split; simpl.
  - constructor; [intros []|constructor].
  - intros x [<-|[]]. left. symmetry. exact Hl.
Qed.

Lemma idsFrom_add (used : list Z) (now : Z) (ls : list Layer) (l : Layer) :
  idsFrom used ls -> ~ In now used -> id l = layerId now ->
  idsFrom (now :: used) (ls ++ [l]).
Proof.
  intros [Hn Hs] Hfresh Hl. split; rewrite map_app; simpl.
  - apply NoDup_app; [exact Hn | constructor; [intros []|constructor] |].
    intros x Hx [<-|[]]. apply Hs in Hx.
    apply in_map_iff in Hx as (t & Ht & Hin). rewrite Hl in Ht.
    apply layerId_inj in Ht. subst t. contradiction.
  - intros x Hx. apply in_app_or in Hx as [Hx | [<-|[]]].
    + right. apply Hs, Hx.
    + left. symmetry. exact Hl.
Qed.

Lemma idsFrom_found (used : list Z) (p : Layer -> bool) (ls : list Layer)
    (l l' : Layer) :
  idsFrom used ls -> find p ls = Some l -> id l' = id l -> idsFrom used [l'].
Proof.
  intros [_ Hs] Hf Hl. apply find_some in Hf as [Hin _]. split; simpl.
  - constructor; [intros []|constructor].
  - intros x [<-|[]]. rewrite Hl. apply Hs, in_map, Hin.
Qed.

Lemma spliceOut_parts {A : Type} (i : nat) (l : list A) (x : A) (rest : list A) :
  LayerPanel.spliceOut i l = (Some x, rest) ->
  l = firstn i l ++ x :: skipn (S i) l /\ rest = firstn i l ++ skipn (S i) l.
Proof.
  unfold LayerPanel.spliceOut. intros E. injection E as Hx <-.
  split; [|reflexivity].
  rewrite <- (firstn_skipn i l) at 1. f_equal.
  revert l Hx. induction i as [|i IH]; intros [|a l] Hx;
    try discriminate; simpl in *.
  - injection Hx as ->. reflexivity.
  - apply IH, Hx.
Qed.

Lemma spliceIn_perm {A : Type} (j : nat) (x : A) (l : list A) :
  Permutation (x :: l) (LayerPanel.spliceIn j x l).
Proof.
  unfold LayerPanel.spliceIn. rewrite <- (firstn_skipn j l) at 1.
  apply Permutation_middle.
Qed.

Lemma dragEnd_perm (i j : option nat) (ls r : list Layer) :
  LayerPanel.handleDragEnd i j ls = Some r -> Permutation ls r.
Proof.
  unfold LayerPanel.handleDragEnd. destruct i as [i|], j as [j|]; try discriminate.
  destruct (Nat.eqb i j); [discriminate|].
  destruct (LayerPanel.spliceOut i (rev ls)) as [[x|] rest] eqn:E; [|discriminate].
  intros Hr. injection Hr as <-.
  apply spliceOut_parts in E as [Hl ->].
  rewrite <- Permutation_rev. rewrite <- spliceIn_perm.
  rewrite (Permutation_rev ls), Hl at 1. symmetry. apply Permutation_middle.
Qed.

Lemma idsOk_handle (e : Event) (used : list Z) (s : State) :
  idsOk used s -> (forall t, In t (stamp e) -> ~ In t used) ->
  idsOk (stamp e ++ used) (handle e s).
Proof.
  intros IH Hfresh.
  assert (Hmono : idsOk (stamp e ++ used) s)
    by (eapply idsOk_mono; [apply incl_appr, incl_refl | exact IH]).
  destruct e; try exact IH; simpl stamp in *; simpl app in *.
  - (* FileSelect *)
    destruct file0 as [f|]; [|exact IH]. simpl.
    split; [apply idsFrom_single; reflexivity|].
    constructor; [apply idsFrom_single; reflexivity | constructor].
  - (* LayerAdd *)
    simpl. unfold handleAddLayer.
    destruct (Z.of_nat (List.length (layers s)) =? 0).
    + split; [apply idsFrom_single; reflexivity|].
      constructor; [apply idsFrom_single; reflexivity | constructor].
    + eapply (idsOk_commit _ s); [exact Hmono | | reflexivity | reflexivity].
      apply idsFrom_add; [apply IH | apply Hfresh; left; reflexivity | reflexivity].
  - (* LayerDelete *)
    simpl. unfold handleDeleteLayer. handler_cases;
      try (eapply (idsOk_commit _ s);
           [exact IH | apply idsFrom_filter, IH | reflexivity | reflexivity]).
    split; [split; [constructor | intros x []] | constructor].
  - (* LayerDragEnd *)
    simpl. destruct (LayerPanel.handleDragEnd dragItem dragOverItem (layers s)) eqn:E;
      [|exact IH].
    eapply (idsOk_commit _ s); [exact IH | | reflexivity | reflexivity].
    eapply idsFrom_perm; [eapply dragEnd_perm, E | apply IH].
  - (* LayerSlider *)
    destruct e; try exact IH. simpl.
    eapply (idsOk_layers _ s); [exact IH | | reflexivity | reflexivity].
    apply idsFrom_map; [|apply IH]. intros x. destruct (String.eqb (id x) _); reflexivity.
  - (* LayerVisibility *)
    simpl. eapply (idsOk_commit _ s); [exact IH | | reflexivity | reflexivity].
    apply idsFrom_map; [|apply IH]. intros x. destruct (String.eqb (id x) _); reflexivity.
  - (* Undo *)
    simpl. unfold handleUndo. handler_cases;
      first
        [ exact IH
        | eapply (idsOk_cursor _ s);
          [exact IH | eassumption | reflexivity | reflexivity]
        | eapply idsOk_same; [exact IH | reflexivity | reflexivity] ].
  - (* Redo *)
    simpl. unfold handleRedo. handler_cases;
      first
        [ exact IH
        | eapply (idsOk_cursor _ s);
          [exact IH | eassumption | reflexivity | reflexivity]
        | eapply idsOk_same; [exact IH | reflexivity | reflexivity] ].
  - simpl. unfold handleGenerate, tryCatchFinally, bind. handler_cases;
      try (eapply idsOk_same; [exact IH | reflexivity | reflexivity]).
    eapply (idsOk_commit _ s); [exact IH | | reflexivity | reflexivity].
    apply idsFrom_map; [|apply IH]. intros x. destruct (idIs _ x); reflexivity.
  - simpl. unfold handleApplyFilter, tryCatchFinally, bind. handler_cases;
      try (eapply idsOk_same; [exact IH | reflexivity | reflexivity]).
    eapply (idsOk_commit _ s); [exact IH | | reflexivity | reflexivity].
    apply idsFrom_map; [|apply IH]. intros x. destruct (idIs _ x); reflexivity.
  - simpl. unfold handleApplyAdjustment, tryCatchFinally, bind. handler_cases;
      try (eapply idsOk_same; [exact IH | reflexivity | reflexivity]).
    eapply (idsOk_commit _ s); [exact IH | | reflexivity | reflexivity].
    apply idsFrom_map; [|apply IH]. intros x. destruct (idIs _ x); reflexivity.
  - simpl. unfold handleApplyFaceSwap, tryCatchFinally, bind. handler_cases;
      try (eapply idsOk_same; [exact IH | reflexivity | reflexivity]).
    eapply (idsOk_commit _ s); [exact IH | | reflexivity | reflexivity].
    apply idsFrom_map; [|apply IH]. intros x. destruct (idIs _ x); reflexivity.
  - simpl. unfold handleRemoveBackground, tryCatchFinally, bind. handler_cases;
      try (eapply idsOk_same; [exact IH | reflexivity | reflexivity]).
    eapply (idsOk_commit _ s); [exact IH | | reflexivity | reflexivity].
    apply idsFrom_map; [|apply IH]. intros x. destruct (idIs _ x); reflexivity.
  - (* ApplyCrop *)
    simpl. unfold handleApplyCrop, tryCatchFinally, bind. handler_cases;
      try (eapply idsOk_same; [exact IH | reflexivity | reflexivity]).
    eapply (idsOk_commit _ s); [exact IH | | reflexivity | reflexivity].
    eapply idsFrom_found; [apply IH | eassumption | reflexivity].
  - (* Export *)
    simpl. unfold handleExport. handler_cases;
      eapply idsOk_same; try exact IH; reflexivity.
  - (* ImageClick *)
    simpl. unfold handleImageClick. handler_cases;
      eapply idsOk_same; try exact IH; reflexivity.
  - (* CropEffect *)
    simpl. unfold prepareCropEffect. handler_cases;
      eapply idsOk_same; try exact IH; reflexivity.
Qed.

Lemma NoDup_app_disjoint {A : Type} (l1 l2 : list A) (a : A) :
  NoDup (l1 ++ l2) -> In a l1 -> ~ In a l2.
Proof.
  induction l1 as [|x l1 IH]; simpl; intros Hn []; inversion Hn; subst.
  - intros Ha. match goal with F : ~ In _ _ |- _ => apply F end.
    apply in_or_app. right. exact Ha.
  - apply IH; assumption.
Qed.

Lemma idsOk_run (es : list Event) :
  forall (used : list Z) (s : State),
    idsOk used s ->
    NoDup (flat_map stamp es) ->
    (forall t, In t (flat_map stamp es) -> ~ In t used) ->
    idsOk (flat_map stamp es ++ used) (run es s).
Proof.
  induction es as [|e es IH]; intros used s Hs Hn Hfresh; [exact Hs|].
  simpl in Hn, Hfresh |- *.
  assert (Hstep : idsOk (stamp e ++ used) (step e s)).
  { destruct (step_store e s) as (Hh & _ & Hl & _).
    eapply idsOk_same; [|exact Hl | exact Hh].
    apply idsOk_handle; [exact Hs|].
    intros t Ht. apply Hfresh, in_or_app. left. exact Ht. }
  eapply idsOk_mono; [|apply (IH _ _ Hstep)].
  - intros t Ht. apply in_app_or in Ht as [Ht|Ht]; [|apply in_app_or in Ht as [Ht|Ht]];
      rewrite !in_app_iff; auto.
  - eapply NoDup_app_remove_l, Hn.
  - intros t Ht Hin. apply in_app_or in Hin as [Hin|Hin].
    + apply (NoDup_app_disjoint _ _ t Hn Hin Ht).
    + apply (Hfresh t); [apply in_or_app; right; exact Ht | exact Hin].
Qed.

(** X9. As long as no two of the events that create a layer (an upload,
    an added layer) read the same value from the clock, the layers on
    display have pairwise distinct ids, and so have the layers of every
    snapshot in the history; each id is [layer-<t>] for the clock
    reading [t] of one of those events. *)
Theorem layer_ids_are_distinct (es : list Event) (transparent : bool) :
  NoDup (flat_map stamp es) ->
  let s := run es (initialState transparent) in
  NoDup (map id (layers s))
  /\ Forall (fun snapshot => NoDup (map id snapshot)) (history s)
  /\ (forall l, In l (layers s) ->
        exists now, In now (flat_map stamp es) /\ id l = layerId now).
Proof.
  intros Hn s.
  assert (H0 : idsOk [] (initialState transparent)).
  { split; [split; [constructor | intros x []] | constructor]. }
  pose proof (idsOk_run es [] (initialState transparent) H0 Hn
                (fun t _ (F : In t []) => F)) as [[Hd Hs] Hh].
  rewrite app_nil_r in *. fold s in Hd, Hs, Hh.
  split; [exact Hd|]. split.
  - eapply Forall_impl; [|exact Hh]. intros ls [Hls _]. exact Hls.
  - intros l Hl. apply (in_map id) in Hl. apply Hs in Hl.
    apply in_map_iff in Hl as (t & Ht & Hin). exists t. split; [exact Hin|].
    symmetry. exact Ht.
Qed.

End LayerIds.

(** ** Adding a layer, and undoing it *)

Section AddLayer.

Context `{Browser}.

Lemma find_push {A : Type} (p : A -> bool) (l : list A) (x : A) :
  find p (l ++ [x])
  = match find p l with
    | Some y => Some y
    | None => if p x then Some x else None
    end.
Proof.
  induction l as [|a l IH]; simpl; [reflexivity|].
  destruct (p a); [reflexivity | exact IH].
Qed.

Lemma find_id_none (i : string) (ls : list Layer) :
  ~ In i (map id ls) -> find (idIs (Some i)) ls = None.
Proof.
  induction ls as [|l ls IH]; simpl; intros Hn; [reflexivity|].
  destruct (String.eqb_spec i (id l)) as [E|E]; [exfalso; auto|].
  apply IH. tauto.
Qed.

Lemma find_id_in (i : string) (ls : list Layer) (l : Layer) :
  find (idIs (Some i)) ls = Some l -> In i (map id ls).
Proof.
  intros Hf. apply find_some in Hf as [Hin Hp].
  simpl in Hp. apply String.eqb_eq in Hp. subst i. apply in_map, Hin.
Qed.

Lemma find_push_new (i : string) (ls : list Layer) (l : Layer) :
  ~ In i (map id ls) -> id l = i ->
  find (idIs (Some i)) (ls ++ [l]) = Some l.
Proof.
  intros Hfresh Hl. rewrite find_push, (find_id_none _ _ Hfresh).
  unfold idIs, sameId. rewrite Hl, String.eqb_refl. reflexivity.
Qed.

Lemma setActiveLayerId_cursor (a : option string) (t : State) :
  historyIndex (setActiveLayerId a t) = historyIndex t.
Proof. reflexivity. Qed.

Lemma handleAddLayer_commits (f : File) (now : Z) (s : State) :
  layers s <> [] ->
  handleAddLayer f now s
  = (s |> commitChanges
            (layers s
             ++ [mkLayer (layerId now) f (createObjectURL f)
                   ("Layer " +++ showZ (Z.of_nat (List.length (layers s))))
                   100 true]) true
       |> setActiveLayerId (Some (layerId now))).
Proof.
  intros Hne. unfold handleAddLayer.
  destruct (Z.of_nat (List.length (layers s)) =? 0) eqn:E; [|reflexivity].
  apply Z.eqb_eq in E. destruct (layers s); [contradiction | discriminate].
Qed.

(** X10. Adding a layer to a non-empty layer set commits the old layers
    followed by the new one, named [Layer n] for the [n] layers there
    were, fully opaque and visible, and makes its id the active one.
    If no layer had that id the new layer is the active layer; if one
    had (two layers made in the same millisecond), the older layer is
    the active one and the ids are no longer distinct. *)
Theorem add_layer_appends (f : File) (now : Z) (s : State) :
  layers s <> [] ->
  let new :=
    mkLayer (layerId now) f (createObjectURL f)
      ("Layer " +++ showZ (Z.of_nat (List.length (layers s)))) 100 true in
  let s' := handleAddLayer f now s in
  layers s' = layers s ++ [new]
  /\ isCommit s s'
  /\ activeLayerId s' = Some (layerId now)
  /\ (~ In (layerId now) (map id (layers s)) -> activeLayer s' = Some new)
  /\ (forall old,
        find (idIs (Some (layerId now))) (layers s) = Some old ->
        activeLayer s' = Some old /\ ~ NoDup (map id (layers s'))).
Proof.
  intros Hne new s'.
  assert (Hl : layers s' = layers s ++ [new]).
  { unfold s'. rewrite (handleAddLayer_commits f now s Hne). reflexivity. }
  assert (Ha : activeLayerId s' = Some (layerId now)).
  { unfold s'. rewrite (handleAddLayer_commits f now s Hne). reflexivity. }
  assert (Hc : isCommit s s').
  { unfold s'. rewrite (handleAddLayer_commits f now s Hne). split; reflexivity. }
  assert (Hid : id new = layerId now) by reflexivity.
  clearbody s' new.
  split; [exact Hl|]. split; [exact Hc|]. split; [exact Ha|].
  unfold activeLayer. rewrite Hl, Ha. split.
  - intros Hfresh. apply find_push_new; assumption.
  - intros old Hold. rewrite find_push, Hold. split; [reflexivity|].
    rewrite map_app. intros Hn.
    apply (NoDup_app_disjoint _ _ (layerId now) Hn).
    + eapply find_id_in, Hold.
    + left. exact Hid.
Qed.

(** X11. Undoing the addition of a layer brings the old layer set back
    but leaves the id of the removed layer in [activeLayerId]: no layer
    is active, so none of the five service operations gets past its
    validation.  A redo makes the added layer the active one again. *)
Theorem undo_of_add_layer_selects_nothing (f : File) (now : Z) (s : State) :
  layers s <> [] ->
  index (history s) (historyIndex s) = Some (layers s) ->
  ~ In (layerId now) (map id (layers s)) ->
  let s1 := handleAddLayer f now s in
  let s2 := handleUndo s1 in
  layers s2 = layers s
  /\ historyIndex s2 = historyIndex s
  /\ activeLayerId s2 = Some (layerId now)
  /\ activeLayer s2 = None
  /\ (forall op, passesValidation op s2 = false)
  /\ activeLayer (handleRedo s2) = activeLayer s1
  /\ activeLayer s1 <> None.
Proof.
  intros Hne Hcur Hfresh s1 s2.
  pose proof (index_Some_range _ _ _ Hcur) as Hr.
  set (new := mkLayer (layerId now) f (createObjectURL f)
                ("Layer " +++ showZ (Z.of_nat (List.length (layers s)))) 100 true).
  assert (Hid : id new = layerId now) by reflexivity.
  assert (E1 : s1 = (s |> commitChanges (layers s ++ [new]) true
                       |> setActiveLayerId (Some (layerId now))))
    by apply (handleAddLayer_commits f now s Hne).
  clearbody new.
  assert (Hh1 : history s1
                = firstn (Z.to_nat (historyIndex s + 1)) (history s)
                  ++ [layers s ++ [new]]).
  { rewrite E1. rewrite <- slice0_firstn by lia. reflexivity. }
  assert (Hi1 : historyIndex s1 = historyIndex s + 1).
  { rewrite E1, setActiveLayerId_cursor.
    apply commitChanges_cursor_next. lia. }
  assert (Hl1 : layers s1 = layers s ++ [new]) by (rewrite E1; reflexivity).
  assert (Ha1 : activeLayerId s1 = Some (layerId now)) by (rewrite E1; reflexivity).
  clearbody s1. clear E1.
  assert (Hlen : Z.of_nat (List.length (history s1)) = historyIndex s + 2).
  { rewrite Hh1, length_app, length_firstn. simpl. lia. }
  assert (Hback : index (history s1) (historyIndex s) = Some (layers s)).
  { rewrite Hh1, index_push_old by (rewrite length_firstn; lia).
    rewrite index_firstn by lia. exact Hcur. }
  assert (Hnext : index (history s1) (historyIndex s + 1) = Some (layers s ++ [new])).
  { rewrite Hh1. apply index_push_at. rewrite length_firstn. lia. }
  assert (E2 : s2 = (s1 |> setHistoryIndex (historyIndex s) |> setLayers (layers s))).
  { unfold s2, handleUndo, canUndo. rewrite Hi1.
    destruct (Z.gtb_spec (historyIndex s + 1) 0) as [_|Hle]; [|lia].
    replace (historyIndex s + 1 - 1) with (historyIndex s) by lia.
    rewrite Hback. reflexivity. }
  assert (Hl2 : layers s2 = layers s) by (rewrite E2; reflexivity).
  assert (Hh2 : history s2 = history s1) by (rewrite E2; reflexivity).
  assert (Hi2 : historyIndex s2 = historyIndex s) by (rewrite E2; reflexivity).
  assert (Ha2 : activeLayerId s2 = Some (layerId now)) by (rewrite E2; exact Ha1).
  clearbody s2. clear E2.
  assert (Hnone : activeLayer s2 = None).
  { unfold activeLayer. rewrite Hl2, Ha2. apply find_id_none, Hfresh. }
  assert (Hsome : activeLayer s1 = Some new).
  { unfold activeLayer. rewrite Hl1, Ha1. apply find_push_new; assumption. }
  split; [exact Hl2|]. split; [exact Hi2|]. split; [exact Ha2|].
  split; [exact Hnone|].
  split; [intros op; destruct op; simpl; rewrite Hnone; reflexivity|].
  split; [|rewrite Hsome; discriminate].
  rewrite Hsome. unfold handleRedo, canRedo. rewrite Hh2, Hi2.
  destruct (Z.ltb_spec (historyIndex s) (Z.of_nat (List.length (history s1)) - 1))
    as [_|Hge]; [|lia].
  rewrite Hnext. unfold activeLayer.
  change (find (idIs (activeLayerId s2)) (layers s ++ [new]) = Some new).
  rewrite Ha2. apply find_push_new; assumption.
Qed.

End AddLayer.

(** ** Reordering by drag and drop *)

Section Drag.

Context `{Browser}.

Lemma spliceOut_in_range {A : Type} (i : nat) (l : list A) :
  (i < List.length l)%nat ->
  exists x, LayerPanel.spliceOut i l = (Some x, firstn i l ++ skipn (S i) l).
Proof.
  intros Hi. unfold LayerPanel.spliceOut.
  destruct (nth_error l i) as [x|] eqn:E; [eauto|].
  apply nth_error_None in E. lia.
Qed.

Lemma spliceIn_at {A : Type} (j : nat) (x : A) (l : list A) :
  nth_error (LayerPanel.spliceIn j x l) (Nat.min j (List.length l)) = Some x.
Proof.
  unfold LayerPanel.spliceIn.
  rewrite nth_error_app2 by (rewrite length_firstn; lia).
  rewrite length_firstn, Nat.sub_diag. reflexivity.
Qed.

Lemma spliceOut_middle {A : Type} (l1 l2 : list A) (x : A) :
  snd (LayerPanel.spliceOut (List.length l1) (l1 ++ x :: l2)) = l1 ++ l2.
Proof.
  unfold LayerPanel.spliceOut. simpl snd.
  induction l1 as [|a l1 IH]; simpl; [reflexivity|].
  f_equal. exact IH.
Qed.

Lemma spliceIn_out {A : Type} (j : nat) (x : A) (l : list A) :
  snd (LayerPanel.spliceOut (Nat.min j (List.length l)) (LayerPanel.spliceIn j x l))
  = l.
Proof.
  unfold LayerPanel.spliceIn.
  rewrite <- (length_firstn j l), spliceOut_middle. apply firstn_skipn.
Qed.

(** X12. Dropping row [i] of the layer panel on a different row [j]
    commits a reordering of the same layers: read in panel order (top
    layer first), the dragged row sits at position [j], or last when
    [j] is past the end, and the other rows keep their order.
    Dropping a row on itself, or a drag without source or target,
    changes nothing. *)
Theorem drag_moves_one_row (i j : nat) (s : State) :
  (i < List.length (layers s))%nat -> i <> j ->
  exists (x : Layer) (reordered : list Layer),
    nth_error (rev (layers s)) i = Some x
    /\ handle (LayerDragEnd (Some i) (Some j)) s
       = handleReorderLayers reordered s
    /\ isCommit s (handle (LayerDragEnd (Some i) (Some j)) s)
    /\ layers (handle (LayerDragEnd (Some i) (Some j)) s) = reordered
    /\ Permutation (layers s) reordered
    /\ nth_error (rev reordered) (Nat.min j (List.length (layers s) - 1))
       = Some x
    /\ snd (LayerPanel.spliceOut (Nat.min j (List.length (layers s) - 1))
              (rev reordered))
       = snd (LayerPanel.spliceOut i (rev (layers s)))
    /\ handle (LayerDragEnd (Some i) (Some i)) s = s
    /\ handle (LayerDragEnd None (Some j)) s = s
    /\ handle (LayerDragEnd (Some i) None) s = s.
Proof.
  intros Hi Hij.
  destruct (spliceOut_in_range i (rev (layers s))) as [x Hx];
    [rewrite length_rev; exact Hi|].
  set (rest := firstn i (rev (layers s)) ++ skipn (S i) (rev (layers s))) in *.
  assert (Hrest : List.length rest = (List.length (layers s) - 1)%nat).
  { unfold rest. rewrite length_app, length_firstn, length_skipn, length_rev. lia. }
  assert (Hd : LayerPanel.handleDragEnd (Some i) (Some j) (layers s)
               = Some (rev (LayerPanel.spliceIn j x rest))).
  { unfold LayerPanel.handleDragEnd. rewrite Hx.
    destruct (Nat.eqb_spec i j); [contradiction | reflexivity]. }
  exists x, (rev (LayerPanel.spliceIn j x rest)).
  split; [unfold LayerPanel.spliceOut in Hx; injection Hx as Hx; exact Hx|].
  cbn [handle]. rewrite Hd.
  split; [reflexivity|]. split; [split; reflexivity|]. split; [reflexivity|].
  split; [eapply dragEnd_perm, Hd|].
  rewrite rev_involutive, <- Hrest.
  split; [apply spliceIn_at|]. split; [rewrite spliceIn_out, Hx; reflexivity|].
  split; [|split; reflexivity].
  unfold LayerPanel.handleDragEnd. rewrite Nat.eqb_refl. reflexivity.
Qed.

End Drag.

(** ** Visibility and opacity of a layer *)

Section Flags.

Context `{Browser}.

(** X13. Toggling the visibility of a layer twice shows the layer set
    as it was, yet the history has two more snapshots: the toggled set
    and the old one again, the cursor on the latter.  Two undos are
    needed to return to the snapshot the cursor was on. *)
Theorem visibility_toggled_twice (i : string) (s : State) :
  -1 <= historyIndex s < Z.of_nat (List.length (history s)) ->
  let s1 := handleLayerVisibilityChange i s in
  let s2 := handleLayerVisibilityChange i s1 in
  layers s2 = layers s
  /\ history s2
     = firstn (Z.to_nat (historyIndex s + 1)) (history s)
       ++ [layers s1; layers s]
  /\ historyIndex s2 = historyIndex s + 2
  /\ historyIndex (handleUndo (handleUndo s2)) = Z.max 0 (historyIndex s).
Proof.
  intros Hr s1 s2.
  assert (Hl : layers s2 = layers s).
  { unfold s2, s1, handleLayerVisibilityChange.
    rewrite !commitChanges_layers, map_map. rewrite <- (map_id (layers s)) at 2.
    apply map_ext. intros [a b c d e v]. simpl.
    destruct (String.eqb a i) eqn:E; simpl; rewrite E; [|reflexivity].
    destruct v; reflexivity. }
  assert (Hh1 : history s1
                = firstn (Z.to_nat (historyIndex s + 1)) (history s) ++ [layers s1]).
  { unfold s1, handleLayerVisibilityChange.
    rewrite commitChanges_history, commitChanges_layers, slice0_firstn by lia.
    reflexivity. }
  assert (Hi1 : historyIndex s1 = historyIndex s + 1).
  { unfold s1, handleLayerVisibilityChange.
    apply commitChanges_cursor_next. lia. }
  assert (Hlen1 : Z.of_nat (List.length (history s1)) = historyIndex s + 2).
  { rewrite Hh1, length_app, length_firstn. simpl. lia. }
  assert (Hh2 : history s2 = history s1 ++ [layers s]).
  { rewrite <- Hl. unfold s2, handleLayerVisibilityChange.
    rewrite commitChanges_history, commitChanges_layers, slice0_firstn by lia.
    rewrite firstn_all2 by lia. reflexivity. }
  assert (Hi2 : historyIndex s2 = historyIndex s + 2).
  { unfold s2, handleLayerVisibilityChange.
    rewrite commitChanges_cursor_next by lia. lia. }
  split; [exact Hl|]. split.
  { rewrite Hh2, Hh1, <- app_assoc. reflexivity. }
  split; [exact Hi2|].
  assert (Hu : forall t, historyIndex (handleUndo t)
                         = if historyIndex t >? 0 then historyIndex t - 1
                           else historyIndex t).
  { intros t. unfold handleUndo, canUndo.
    destruct (historyIndex t >? 0); [|reflexivity].
    destruct (index (history t) (historyIndex t - 1)); reflexivity. }
  rewrite !Hu, Hi2.
  destruct (Z.gtb_spec (historyIndex s + 2) 0) as [_|]; [|lia].
  destruct (Z.gtb_spec (historyIndex s + 2 - 1) 0); lia.
Qed.

(** X14. Moving the opacity slider of a layer gives every layer with
    that id the new opacity and leaves all else in the layer set as it
    is; history and cursor are untouched, but the crop selection, the
    secondary image, the additional prompt and the scale are reset as
    by any commit.  Of two moves in a row only the last one shows. *)
Theorem opacity_slider_effect (i : string) (v w : Z) (s : State) :
  let s' := handleLayerOpacityChange i v s in
  (forall (n : nat) (l : Layer),
     nth_error (layers s) n = Some l ->
     nth_error (layers s') n
     = Some (if String.eqb (id l) i
             then mkLayer (id l) (file l) (objectUrl l) (name l) v (isVisible l)
             else l))
  /\ history s' = history s
  /\ historyIndex s' = historyIndex s
  /\ activeLayerId s' = activeLayerId s
  /\ (crop s' = None /\ completedCrop s' = None /\ secondaryImage s' = None
      /\ additionalPrompt s' = "" /\ retouchScale s' = 100)
  /\ handleLayerOpacityChange i w s' = handleLayerOpacityChange i w s.
Proof.
  intros s'. split.
  { intros n l Hn. unfold s', handleLayerOpacityChange.
    rewrite commitChanges_layers, nth_error_map, Hn. reflexivity. }
  split; [reflexivity|]. split; [reflexivity|]. split; [reflexivity|].
  split; [repeat split; reflexivity|].
  unfold s', handleLayerOpacityChange.
  rewrite commitChanges_layers, map_map.
  rewrite (map_ext
             (fun l => if String.eqb
                            (id (if String.eqb (id l) i then withOpacity v l else l)) i
                       then withOpacity w
                              (if String.eqb (id l) i then withOpacity v l else l)
                       else if String.eqb (id l) i then withOpacity v l else l)
             (fun l => if String.eqb (id l) i then withOpacity w l else l)).
  - destruct s. reflexivity.
  - intros [a b c d e u]. simpl.
    destruct (String.eqb a i) eqn:E; simpl; rewrite E; reflexivity.
Qed.

End Flags.

Section LayersOnSample.

#[local] Existing Instance Sample.browser.

(** A filter on a freshly uploaded image, the service answering with a
    small PNG. *)
Lemma successful_operation_replaces_active_file_witness :
  let s := step (FileSelect (Some Sample.imageA) 1) (initialState false) in
  let f := mkFile "filtered-2.png" "image/png" "hi" in
  let s' := runOperation OpFilter 2 (Ok Sample.served) s in
  passesValidation OpFilter s = true
  /\ dataURLtoFile Sample.served (operationFileName OpFilter 2) = Ok f
  /\ isCommit s s'
  /\ List.length (layers s') = List.length (layers s)
  /\ error s' = None.
Proof.
  intros s f s'.
  assert (Hv : passesValidation OpFilter s = true) by (vm_compute; reflexivity).
  assert (Hf : dataURLtoFile Sample.served (operationFileName OpFilter 2) = Ok f)
    by (vm_compute; reflexivity).
  destruct (successful_operation_replaces_active_file OpFilter 2 Sample.served f s
              Hv Hf) as (Hc & _ & Hl & _ & _ & He & _).
  split; [exact Hv|]. split; [exact Hf|]. split; [exact Hc|].
  split; [exact Hl | exact He].
Defined.

(** An adjustment answered with text that is no data URL. *)
Lemma undecodable_response_is_reported_witness :
  let s := step (FileSelect (Some Sample.imageA) 1) (initialState false) in
  passesValidation OpAdjust s = true
  /\ avoids [44%N] "oops" = true
  /\ runOperation OpAdjust 2 (Ok "oops") s
     = (s |> setError (Some (failureLabel OpAdjust +++ "Invalid data URL"))
          |> setIsLoading false).
Proof.
  intros s.
  assert (Hv : passesValidation OpAdjust s = true) by (vm_compute; reflexivity).
  assert (Ha : avoids [44%N] "oops" = true) by (vm_compute; reflexivity).
  destruct (undecodable_response_is_reported OpAdjust 2 "oops" s Hv) as [_ Hr].
  split; [exact Hv|]. split; [exact Ha | exact (Hr Ha)].
Defined.

(** Three layers made at three different times, one deleted and the
    deletion undone. *)
Lemma layer_ids_are_distinct_witness :
  let es :=
    [FileSelect (Some Sample.imageA) 1; LayerAdd Sample.imageA 2;
     LayerAdd Sample.imageA 3; LayerDelete "layer-2"; Undo] in
  NoDup (flat_map stamp es)
  /\ NoDup (map id (layers (run es (initialState false))))
  /\ map id (layers (run es (initialState false)))
     = ["layer-1"; "layer-2"; "layer-3"].
Proof.
  intros es.
  assert (Hn : NoDup (flat_map stamp es)).
  { vm_compute.
    repeat (constructor; [simpl; intuition discriminate|]). constructor. }
  destruct (layer_ids_are_distinct es false Hn) as (Hd & _).
  split; [exact Hn|]. split; [exact Hd | vm_compute; reflexivity].
Defined.

Lemma add_layer_appends_witness :
  let s := step (FileSelect (Some Sample.imageA) 1) (initialState false) in
  layers s <> []
  /\ activeLayerId (handleAddLayer Sample.imageA 2 s) = Some (layerId 2)
  /\ isCommit s (handleAddLayer Sample.imageA 2 s).
Proof.
  intros s.
  assert (Hne : layers s <> []) by (vm_compute; discriminate).
  destruct (add_layer_appends Sample.imageA 2 s Hne) as (_ & Hc & Ha & _).
  split; [exact Hne|]. split; [exact Ha | exact Hc].
Defined.

Lemma undo_of_add_layer_selects_nothing_witness :
  let s := step (FileSelect (Some Sample.imageA) 1) (initialState false) in
  layers s <> []
  /\ index (history s) (historyIndex s) = Some (layers s)
  /\ ~ In (layerId 2) (map id (layers s))
  /\ activeLayer (handleUndo (handleAddLayer Sample.imageA 2 s)) = None.
Proof.
  intros s.
  assert (Hne : layers s <> []) by (vm_compute; discriminate).
  assert (Hc : index (history s) (historyIndex s) = Some (layers s))
    by (vm_compute; reflexivity).
  assert (Hf : ~ In (layerId 2) (map id (layers s)))
    by (vm_compute; intros [E|[]]; discriminate E).
  destruct (undo_of_add_layer_selects_nothing Sample.imageA 2 s Hne Hc Hf)
    as (_ & _ & _ & Hnone & _).
  split; [exact Hne|]. split; [exact Hc|]. split; [exact Hf | exact Hnone].
Defined.

(** The top row of three dragged onto the bottom row. *)
Lemma drag_moves_one_row_witness :
  let s :=
    run [FileSelect (Some Sample.imageA) 1; LayerAdd Sample.imageA 2;
         LayerAdd Sample.imageA 3] (initialState false) in
  (0 < List.length (layers s))%nat
  /\ 0%nat <> 2%nat
  /\ Permutation (layers s) (layers (handle (LayerDragEnd (Some 0%nat) (Some 2%nat)) s))
  /\ map id (layers (handle (LayerDragEnd (Some 0%nat) (Some 2%nat)) s))
     = ["layer-3"; "layer-1"; "layer-2"].
Proof.
  intros s.
  assert (Hi : (0 < List.length (layers s))%nat) by (vm_compute; repeat constructor).
  assert (Hij : 0%nat <> 2%nat) by discriminate.
  destruct (drag_moves_one_row 0 2 s Hi Hij)
    as (x & reordered & _ & _ & _ & Hl & Hp & _).
  split; [exact Hi|]. split; [exact Hij|].
  split; [rewrite Hl; exact Hp | vm_compute; reflexivity].
Defined.

Lemma visibility_toggled_twice_witness :
  let s := step (FileSelect (Some Sample.imageA) 1) (initialState false) in
  -1 <= historyIndex s < Z.of_nat (List.length (history s))
  /\ layers (handleLayerVisibilityChange "layer-1"
               (handleLayerVisibilityChange "layer-1" s))
     = layers s
  /\ historyIndex (handleLayerVisibilityChange "layer-1"
                     (handleLayerVisibilityChange "layer-1" s))
     = historyIndex s + 2.
Proof.
  intros s.
  assert (Hr : -1 <= historyIndex s < Z.of_nat (List.length (history s)))
    by (vm_compute; split; [discriminate | reflexivity]).
  destruct (visibility_toggled_twice "layer-1" s Hr) as (Hl & _ & Hi & _).
  split; [exact Hr|]. split; [exact Hl | exact Hi].
Defined.

End LayersOnSample.

(** ** Integers as doubles *)

Lemma digits2_iter (k p : positive) :
  digits2_pos (Pos.iter xO p k) = (digits2_pos p + k)%positive.
Proof.
  induction k as [|k IH] using Pos.peano_ind.
  - simpl. lia.
  - rewrite Pos.iter_succ. simpl. rewrite IH. lia.
Qed.

Lemma iter_xO_value (k p : positive) :
  Z.pos (Pos.iter xO p k) = Z.pos p * 2 ^ Z.pos k.
Proof.
  induction k as [|k IH] using Pos.peano_ind.
  - simpl. lia.
  - rewrite Pos.iter_succ, Pos2Z.inj_xO, IH, Pos2Z.inj_succ, Z.pow_succ_r by lia.
    lia.
Qed.

Lemma round_aligned (s : bool) (m : positive) (e : Z) :
  Z.pos (digits2_pos m) = 53 -> -1074 <= e <= 971 ->
  binary_round_aux 53 1024 s (Z.pos m) e loc_Exact = S754_finite s m e.
Proof.
  intros Hd He. unfold binary_round_aux.
  assert (Hs : shr_fexp 53 1024 (Z.pos m) e loc_Exact
               = ({| shr_m := Z.pos m; shr_r := false; shr_s := false |}, e)).
  { unfold shr_fexp. cbn [Zdigits2 shr_record_of_loc]. rewrite Hd.
    unfold fexp, emin.
    replace (Z.max (53 + e - 53) (3 - 1024 - 53) - e) with 0 by lia.
    reflexivity. }
  rewrite Hs. cbn [shr_m loc_of_shr_record round_nearest_even]. rewrite Hs.
  cbn [shr_m].
  destruct (Z.leb_spec e (1024 - 53)); [reflexivity | lia].
Qed.

(** An integer below 2^53 is a double. *)
Lemma numOfZ_exact (s : bool) (p : positive) :
  Z.pos (digits2_pos p) <= 53 ->
  exists m e,
    binary_round 53 1024 s p 0 = S754_finite s m e
    /\ -52 <= e <= 0 /\ Z.pos m = Z.pos p * 2 ^ (- e).
Proof.
  intros Hd. unfold binary_round.
  assert (Hf : fexp 53 1024 (Z.pos (digits2_pos p) + 0)
               = Z.pos (digits2_pos p) - 53)
    by (unfold fexp, emin; lia).
  rewrite Hf. unfold shl_align.
  destruct (Z.pos (digits2_pos p) - 53 - 0) as [|k|k] eqn:Ek; [|lia|].
  - exists p, 0. split; [apply round_aligned; lia|]. split; [lia|].
    simpl. lia.
  - exists (Pos.iter xO p k), (Z.pos (digits2_pos p) - 53).
    split; [apply round_aligned; [rewrite digits2_iter|]; lia|].
    split; [lia|]. rewrite iter_xO_value. f_equal. f_equal. lia.
Qed.

Lemma digits2_bound (p : positive) : 2 ^ (Z.pos (digits2_pos p) - 1) <= Z.pos p.
Proof.
  induction p as [p IH|p IH|]; simpl digits2_pos;
    try (rewrite Pos2Z.inj_succ;
         replace (Z.succ (Z.pos (digits2_pos p)) - 1)
           with (Z.succ (Z.pos (digits2_pos p) - 1)) by lia;
         rewrite Z.pow_succ_r by lia; lia).
  simpl. lia.
Qed.

Lemma numTrunc_numOfZ (n : Z) :
  Z.abs n < 2 ^ 53 -> numTrunc (numOfZ n) = Some n.
Proof.
  intros Hn.
  assert (Hdig : forall p, Z.pos p < 2 ^ 53 -> Z.pos (digits2_pos p) <= 53).
  { intros p Hp. pose proof (digits2_bound p) as Hb.
    destruct (Z.le_gt_cases (Z.pos (digits2_pos p)) 53) as [H|H]; [exact H|].
    exfalso.
    assert (2 ^ 53 <= 2 ^ (Z.pos (digits2_pos p) - 1))
      by (apply Z.pow_le_mono_r; lia).
    lia. }
  assert (Hpos : forall s p, Z.pos p < 2 ^ 53 ->
                   numTrunc (binary_round 53 1024 s p 0)
                   = Some (cond_Zopp s (Z.pos p))).
  { intros s p Hp.
    destruct (numOfZ_exact s p (Hdig p Hp)) as (m & e & -> & He & Hm).
    unfold numTrunc. f_equal. f_equal. rewrite Hm.
    destruct (Z.ltb_spec e 0).
    - apply Z.div_mul. apply Z.pow_nonzero; lia.
    - replace e with 0 by lia. simpl. lia. }
  unfold numOfZ, binary_normalize. destruct n as [|p|p].
  - reflexivity.
  - apply (Hpos false p). lia.
  - apply (Hpos true p). lia.
Qed.

Lemma canvasDim_size (default n : Z) :
  0 <= n <= 2147483647 -> canvasDim default (numOfZ n) = n.
Proof.
  intros Hn. unfold canvasDim.
  rewrite numTrunc_numOfZ by (change (2 ^ 53) with 9007199254740992; lia).
  cbv zeta. rewrite Z.mod_small by lia.
  destruct (Z.gtb_spec n 2147483647); [lia | reflexivity].
Qed.

(** ** The composite of the layers *)

Section Composite.

Context `{Browser}.

Lemma drawLayers_all (ls : list Layer) :
  forall c : Canvas,
    Forall (fun l => isVisible l = true) ls ->
    Forall (fun l => loadImage (objectUrl l) <> None) ls ->
    drawLayers ls c
    = Ok (mkCanvas (canvasWidth c) (canvasHeight c)
            (ops c ++ flat_map (layerCalls (canvasWidth c) (canvasHeight c)) ls)).
Proof.
  induction ls as [|l ls IH]; intros c Hv Hl.
  - simpl. rewrite app_nil_r. destruct c; reflexivity.
  - inversion Hv as [|? ? Hv1 Hv2]; inversion Hl as [|? ? Hl1 Hl2]; subst.
    simpl. unfold drawLayer, layerCalls at 1. rewrite Hv1.
    destruct (loadImage (objectUrl l)) as [img|]; [|contradiction].
    simpl. rewrite (IH _ Hv2 Hl2). simpl.
    rewrite <- !app_assoc. reflexivity.
Qed.

Lemma drawLayers_one_fails (ls : list Layer) :
  forall c : Canvas,
    Forall (fun l => isVisible l = true) ls ->
    Exists (fun l => loadImage (objectUrl l) = None) ls ->
    drawLayers ls c = Throw JsOther.
Proof.
  induction ls as [|l ls IH]; intros c Hv He; [inversion He|].
  inversion Hv as [|? ? Hv1 Hv2]; subst.
  simpl. unfold drawLayer. rewrite Hv1.
  destruct (loadImage (objectUrl l)) as [img|] eqn:E; [|reflexivity].
  simpl. apply IH; [exact Hv2|].
  inversion He as [? ? Hn|? ? Hn]; subst; [congruence | exact Hn].
Qed.

Lemma visible_filter (ls : list Layer) :
  Forall (fun l => isVisible l = true) (filter isVisible ls).
Proof. apply Forall_forall. intros l Hl. apply filter_In in Hl. apply Hl. Qed.

(** X15. With a 2D context and a first visible layer whose image
    decodes, [flattenLayersForCrop] sizes the canvas after that image
    (its natural size, when that is below 2^31) and then, for every
    visible layer from bottom to top, sets the alpha to the layer's
    opacity over 100 and draws the layer's image stretched over the
    whole canvas, whatever the image's own size; the answer is the data
    URL of that canvas.  If the image of any visible layer fails to
    decode the promise rejects, and without a 2D context the answer is
    [null]. *)
Theorem flatten_draws_visible_layers (ls : list Layer) (v : Layer)
    (baseImg : HTMLImage) :
  find isVisible ls = Some v ->
  loadImage (objectUrl v) = Some baseImg ->
  let w := canvasDim 300 (numOfZ (naturalWidth baseImg)) in
  let h := canvasDim 150 (numOfZ (naturalHeight baseImg)) in
  (hasContext2d = true ->
   Forall (fun l => loadImage (objectUrl l) <> None) (filter isVisible ls) ->
   flattenLayersForCrop ls
   = Ok (Some (toDataURL
                 (mkCanvas w h (flat_map (layerCalls w h) (filter isVisible ls)))
                 "image/png")))
  /\ (hasContext2d = true ->
      Exists (fun l => loadImage (objectUrl l) = None) (filter isVisible ls) ->
      flattenLayersForCrop ls = Throw JsOther)
  /\ (hasContext2d = false -> flattenLayersForCrop ls = Ok None)
  /\ (0 <= naturalWidth baseImg <= 2147483647 -> w = naturalWidth baseImg)
  /\ (0 <= naturalHeight baseImg <= 2147483647 -> h = naturalHeight baseImg).
Proof.
  intros Hf Hb w h.
  assert (Hlen : (Z.of_nat (List.length ls) =? 0) = false).
  { destruct ls; [discriminate | reflexivity]. }
  assert (Hshape : hasContext2d = true ->
            flattenLayersForCrop ls
            = (canvas' <- drawLayers (filter isVisible ls) (mkCanvas w h []) ;;
               Ok (Some (toDataURL canvas' "image/png")))).
  { intros Hx. unfold flattenLayersForCrop.
    rewrite Hlen, Hx, Hf, Hb, drawLayers_visible. reflexivity. }
  split; [|split; [|split; [|split]]].
  - intros Hx Hall. rewrite (Hshape Hx).
    rewrite (drawLayers_all _ _ (visible_filter ls) Hall). reflexivity.
  - intros Hx Hone. rewrite (Hshape Hx).
    rewrite (drawLayers_one_fails _ _ (visible_filter ls) Hone). reflexivity.
  - intros Hx. unfold flattenLayersForCrop. rewrite Hlen, Hx. reflexivity.
  - apply canvasDim_size.
  - apply canvasDim_size.
Qed.

(** X16. [handleExport] writes neither layers nor history, cursor or
    active layer, and ends with [isLoading] false.  Either the
    composite was rendered and converted to a file named
    [export-<now>.png], which is put in [fileToExport] with the dialog
    opened and [error] left as it was, or [error] holds "Could not
    prepare image for export." and the dialog cells are untouched.
    Without a visible layer it is always the latter. *)
Theorem export_opens_dialog_or_reports (now : Z) (s : State) :
  let s' := handleExport now s in
  (layers s' = layers s /\ history s' = history s
   /\ historyIndex s' = historyIndex s /\ activeLayerId s' = activeLayerId s
   /\ isLoading s' = false)
  /\ ((exists url f,
         flattenLayersForCrop (layers s) = Ok (Some url)
         /\ dataURLtoFile url ("export-" +++ showZ now +++ ".png") = Ok f
         /\ fileName f = "export-" +++ showZ now +++ ".png"
         /\ fileToExport s' = Some f /\ showExportModal s' = true
         /\ error s' = error s)
      \/ (error s' = Some "Could not prepare image for export."
          /\ fileToExport s' = fileToExport s
          /\ showExportModal s' = showExportModal s))
  /\ (existsb isVisible (layers s) = false ->
      error s' = Some "Could not prepare image for export.").
Proof.
  intros s'. unfold s', handleExport.
  split; [|split].
  - handler_cases; repeat split; reflexivity.
  - destruct (flattenLayersForCrop (layers s)) as [[[|c url]|]|e] eqn:Efl;
      simpl truthy; cbv iota; try (right; repeat split; reflexivity).
    destruct (dataURLtoFile (String c url) ("export-" +++ showZ now +++ ".png"))
      as [f|e] eqn:Ef; [|right; repeat split; reflexivity].
    left. exists (String c url), f.
    split; [reflexivity|]. split; [exact Ef|]. split.
    + unfold dataURLtoFile, bind in Ef. handler_cases. reflexivity.
    + repeat split; reflexivity.
  - intros Hnone.
    assert (Hfl : flattenLayersForCrop (layers s) = Ok None).
    { unfold flattenLayersForCrop. rewrite (find_visible_none _ Hnone).
      destruct (Z.of_nat (List.length (layers s)) =? 0), (negb hasContext2d);
        reflexivity. }
    rewrite Hfl. reflexivity.
Qed.

End Composite.

(** ** Cropping *)

Section Cropping.

Context `{Browser}.

Lemma handleApplyCrop_validated (c : Crop) (now : Z) (s : State)
    (url : string) (image : HTMLImage) (l : Layer) :
  completedCrop s = Some c ->
  truthy (flattenedImageForCropUrl s) = Some url ->
  activeLayer s = Some l ->
  loadImage url = Some image ->
  hasContext2d = true ->
  handleApplyCrop now s
  = tryCatchFinally "ตัดภาพไม่สำเร็จ: "
      (fun s1 =>
         newImageFile <-
           dataURLtoFile (toDataURL (croppedCanvas c image) "image/png")
             ("cropped-" +++ showZ now +++ ".png") ;;
         Ok (s1 |> commitChanges [croppedLayer l newImageFile] true
                |> setActiveTab Retouch))
      s.
Proof.
  intros Hc Hu Ha Hi Hx. unfold handleApplyCrop. rewrite Hc, Hu, Ha, Hi.
  unfold tryCatchFinally. rewrite Hx. reflexivity.
Qed.

Lemma find_single (a : option string) (l l' : Layer) (ls : list Layer) :
  find (idIs a) ls = Some l -> id l' = id l -> find (idIs a) [l'] = Some l'.
Proof.
  intros Hf Hid. apply find_some in Hf as [_ Hp]. simpl.
  unfold idIs in *. rewrite Hid, Hp. reflexivity.
Qed.

(** X17. A crop that gets past validation with a decoded composite, a
    2D context and a bitmap that converts to the file [f] commits a
    layer set of exactly one layer: [f] under the id, opacity and
    visibility flag of the layer that was active and the name "Cropped
    Image".  All other layers are gone, the cropped layer is the active
    one, the tab is back on retouch and the crop selection is cleared.
    The canvas has the scaled size of the selection and is drawn on
    once, from the composite. *)
Theorem crop_leaves_one_layer (c : Crop) (now : Z) (s : State)
    (url : string) (image : HTMLImage) (l : Layer) (f : File) :
  completedCrop s = Some c ->
  truthy (flattenedImageForCropUrl s) = Some url ->
  activeLayer s = Some l ->
  loadImage url = Some image ->
  hasContext2d = true ->
  dataURLtoFile (toDataURL (croppedCanvas c image) "image/png")
    ("cropped-" +++ showZ now +++ ".png") = Ok f ->
  let s' := handleApplyCrop now s in
  layers s' = [croppedLayer l f]
  /\ isCommit s s'
  /\ activeLayerId s' = activeLayerId s
  /\ activeLayer s' = Some (croppedLayer l f)
  /\ activeTab s' = Retouch
  /\ (crop s' = None /\ completedCrop s' = None)
  /\ error s' = None
  /\ isLoading s' = false.
Proof.
  intros Hc Hu Ha Hi Hx Hf s'.
  assert (Hs : layers s' = [croppedLayer l f] /\ isCommit s s'
               /\ activeLayerId s' = activeLayerId s /\ activeTab s' = Retouch
               /\ (crop s' = None /\ completedCrop s' = None)
               /\ error s' = None /\ isLoading s' = false).
  { unfold s'. rewrite (handleApplyCrop_validated c now s url image l) by assumption.
    unfold tryCatchFinally. rewrite Hf. simpl bind. cbv iota.
    split; [reflexivity|]. split; [split; reflexivity|].
    repeat split; reflexivity. }
  destruct Hs as (Hl & Hcm & Hid & Ht & Hcr & He & Hld).
  clearbody s'.
  split; [exact Hl|]. split; [exact Hcm|]. split; [exact Hid|].
  split; [|tauto].
  unfold activeLayer. rewrite Hl, Hid.
  eapply find_single; [exact Ha | reflexivity].
Qed.

Lemma composite_cell_kept (e : Event) (s : State) :
  isCompositeEvent e = false ->
  flattenedImageForCropUrl (step e s) = flattenedImageForCropUrl s.
Proof.
  intros He. unfold step.
  destruct e; try discriminate He; try reflexivity;
    unfold handle, handleFileSelect, handleImageUpload, handleAddLayer,
      handleDeleteLayer, handleReorderLayers, LayerPanel.onSlider,
      handleLayerOpacityChange, handleLayerVisibilityChange, handleGenerate,
      handleApplyFilter, handleApplyAdjustment, handleApplyFaceSwap,
      handleRemoveBackground, handleApplyCrop, handleExport, handleImageClick,
      handleUndo, handleRedo, tryCatchFinally, bind;
    handler_cases; reflexivity.
Qed.

Lemma composite_cell_stays_empty (e : Event) (s : State) :
  isSettlement e = false ->
  flattenedImageForCropUrl s = None ->
  flattenedImageForCropUrl (step e s) = None.
Proof.
  intros He Hn. destruct (isCompositeEvent e) eqn:Ec.
  - destruct e; try discriminate. unfold step, handle, prepareCropEffect.
    destruct (activeTab s); try reflexivity. exact Hn.
  - rewrite composite_cell_kept; assumption.
Qed.

(** X18. The composite cell is written by the crop effect and by the
    settlement of the promise that effect starts, and by nothing else.
    Run on the crop tab the effect writes no cell; run on another tab
    it empties the composite cell, which then stays empty until a
    composite settles.  A settlement stores its value whatever the tab
    is, since nothing cancels the promise when the tab is left.  With
    the cell empty [handleApplyCrop] only asks for a selection,
    whatever crop was completed before. *)
Theorem composite_cell_writers (s : State) (now : Z) :
  (forall e : Event,
     isCompositeEvent e = false ->
     flattenedImageForCropUrl (step e s) = flattenedImageForCropUrl s)
  /\ (activeTab s = CropTab -> step CropEffect s = s)
  /\ (activeTab s <> CropTab ->
      step CropEffect s = (s |> setFlattenedImageForCropUrl None)
      /\ forall es : list Event,
           forallb (fun e => negb (isSettlement e)) es = true ->
           flattenedImageForCropUrl (run es (step CropEffect s)) = None)
  /\ (forall url : option string,
        flattenedImageForCropUrl (step (CompositeSettled url) s) = url
        /\ activeTab (step (CompositeSettled url) s) = activeTab s)
  /\ (flattenedImageForCropUrl s = None ->
      handleApplyCrop now s
      = (s |> setError (Some "กรุณาเลือกพื้นที่ก่อนทำการตัดภาพ"))).
Proof.
  split; [intros e He; apply composite_cell_kept; exact He|].
  split; [intros Ht; unfold step, handle, prepareCropEffect; rewrite Ht;
          reflexivity|].
  split; [|split; [intros url; split; reflexivity|]].
  - intros Ht.
    assert (He : step CropEffect s = (s |> setFlattenedImageForCropUrl None)).
    { unfold step, handle, prepareCropEffect.
      destruct (activeTab s); try reflexivity. contradiction. }
    split; [exact He|].
    assert (Hn : flattenedImageForCropUrl (step CropEffect s) = None)
      by (rewrite He; reflexivity).
    clear He. revert Hn. generalize (step CropEffect s). intros t Hn es.
    revert t Hn.
    induction es as [|e es IH]; intros t Hn Hes; [exact Hn|].
    simpl in Hes. apply andb_true_iff in Hes as [He Hes].
    apply negb_true_iff in He.
    change (run (e :: es) t) with (run es (step e t)).
    apply IH; [|exact Hes]. apply composite_cell_stays_empty; assumption.
  - intros Hn. unfold handleApplyCrop. rewrite Hn. simpl truthy.
    destruct (completedCrop s); reflexivity.
Qed.

End Cropping.

Section CompositeOnSample.

#[local] Existing Instance Sample.browser.

(** Two layers, the upper one at 40 percent. *)
Lemma flatten_draws_visible_layers_witness :
  let ls :=
    layers
      (run [FileSelect (Some Sample.imageA) 1; LayerAdd Sample.imageA 2;
            LayerSlider "layer-2" (LayerPanel.SliderChange 40)]
         (initialState false)) in
  let v := uploadedLayer Sample.imageA 1 in
  let baseImg := mkImage "blob:a.png" 640 480 320 240 in
  find isVisible ls = Some v
  /\ loadImage (objectUrl v) = Some baseImg
  /\ canvasDim 300 (numOfZ (naturalWidth baseImg)) = naturalWidth baseImg
  /\ flattenLayersForCrop ls
     = Ok (Some (toDataURL
                   (mkCanvas (canvasDim 300 (numOfZ (naturalWidth baseImg)))
                      (canvasDim 150 (numOfZ (naturalHeight baseImg)))
                      (flat_map
                         (layerCalls (canvasDim 300 (numOfZ (naturalWidth baseImg)))
                            (canvasDim 150 (numOfZ (naturalHeight baseImg))))
                         (filter isVisible ls)))
                   "image/png")).
Proof.
  intros ls v baseImg.
  assert (Hf : find isVisible ls = Some v) by (vm_compute; reflexivity).
  assert (Hb : loadImage (objectUrl v) = Some baseImg) by (vm_compute; reflexivity).
  assert (Hx : hasContext2d = true) by reflexivity.
  assert (Hall : Forall (fun l => loadImage (objectUrl l) <> None)
                   (filter isVisible ls))
    by (vm_compute; repeat constructor; discriminate).
  assert (Hw : 0 <= naturalWidth baseImg <= 2147483647)
    by (vm_compute; split; discriminate).
  destruct (flatten_draws_visible_layers ls v baseImg Hf Hb)
    as (Hdraw & _ & _ & Hwidth & _).
  split; [exact Hf|]. split; [exact Hb|].
  split; [exact (Hwidth Hw) | exact (Hdraw Hx Hall)].
Defined.

(** Nothing visible to export. *)
Lemma export_opens_dialog_or_reports_witness :
  let s :=
    step (LayerVisibility "layer-1")
      (step (FileSelect (Some Sample.imageA) 1) (initialState false)) in
  existsb isVisible (layers s) = false
  /\ error (handleExport 7 s) = Some "Could not prepare image for export."
  /\ layers (handleExport 7 s) = layers s.
Proof.
  intros s.
  assert (Hn : existsb isVisible (layers s) = false) by (vm_compute; reflexivity).
  destruct (export_opens_dialog_or_reports 7 s) as ((Hl & _) & _ & He).
  split; [exact Hn|]. split; [exact (He Hn) | exact Hl].
Defined.

(** A selection of 100 by 50 on the composite shown at half size. *)
Lemma crop_leaves_one_layer_witness :
  let c := mkCrop Px (numOfZ 0) (numOfZ 0) (numOfZ 100) (numOfZ 50) in
  let s :=
    run [FileSelect (Some Sample.imageA) 1; LayerAdd Sample.imageA 2;
         LayerSelect "layer-1"; TabClick CropTab; CropEffect;
         CompositeSettled (Some Sample.served); CropComplete c]
      (initialState false) in
  let image := mkImage Sample.served 640 480 320 240 in
  let l := uploadedLayer Sample.imageA 1 in
  let f := mkFile "cropped-5.png" "image/png" "hi" in
  completedCrop s = Some c
  /\ truthy (flattenedImageForCropUrl s) = Some Sample.served
  /\ activeLayer s = Some l
  /\ loadImage Sample.served = Some image
  /\ hasContext2d = true
  /\ dataURLtoFile (toDataURL (croppedCanvas c image) "image/png")
       ("cropped-" +++ showZ 5 +++ ".png") = Ok f
  /\ List.length (layers s) = 2%nat
  /\ layers (handleApplyCrop 5 s) = [croppedLayer l f].
Proof.
  intros c s image l f.
  assert (Hc : completedCrop s = Some c) by (vm_compute; reflexivity).
  assert (Hu : truthy (flattenedImageForCropUrl s) = Some Sample.served)
    by (vm_compute; reflexivity).
  assert (Ha : activeLayer s = Some l) by (vm_compute; reflexivity).
  assert (Hi : loadImage Sample.served = Some image) by (vm_compute; reflexivity).
  assert (Hx : hasContext2d = true) by reflexivity.
  assert (Hf : dataURLtoFile (toDataURL (croppedCanvas c image) "image/png")
                 ("cropped-" +++ showZ 5 +++ ".png") = Ok f)
    by (vm_compute; reflexivity).
  destruct (crop_leaves_one_layer c 5 s Sample.served image l f Hc Hu Ha Hi Hx Hf)
    as (Hl & _).
  split; [exact Hc|]. split; [exact Hu|]. split; [exact Ha|]. split; [exact Hi|].
  split; [exact Hx|]. split; [exact Hf|].
  split; [vm_compute; reflexivity | exact Hl].
Defined.

(** The crop tab is left for the retouch tab with a crop selected:
    once the effect has run the cell is empty and stays so while the
    selection is changed.  If the composite asked for on the crop tab
    settles only then, it is in the cell on the retouch tab, and
    [handleApplyCrop] does not stop at its validation there. *)
Lemma composite_cell_writers_witness :
  let c := mkCrop Px (numOfZ 0) (numOfZ 0) (numOfZ 100) (numOfZ 50) in
  let s :=
    run [FileSelect (Some Sample.imageA) 1; TabClick CropTab; CropEffect;
         CropComplete c; TabClick Retouch]
      (initialState false) in
  let late := run [CropEffect; CompositeSettled (Some Sample.served)] s in
  activeTab s <> CropTab
  /\ flattenedImageForCropUrl (run [CropChange c; ImageClick 3 4]
                                 (step CropEffect s)) = None
  /\ handleApplyCrop 4 (step CropEffect s)
     = (step CropEffect s |> setError (Some "กรุณาเลือกพื้นที่ก่อนทำการตัดภาพ"))
  /\ reachable late
  /\ flattenLayersForCrop (layers s) = Ok (Some Sample.served)
  /\ activeTab late = Retouch
  /\ flattenedImageForCropUrl late = Some Sample.served
  /\ layers (handleApplyCrop 4 late)
     = [croppedLayer (uploadedLayer Sample.imageA 1)
          (mkFile "cropped-4.png" "image/png" "hi")].
Proof.
  intros c s late.
  assert (Ht : activeTab s <> CropTab) by (vm_compute; discriminate).
  destruct (composite_cell_writers s 4) as (_ & _ & Hoff & _).
  destruct (Hoff Ht) as [He Hrun].
  destruct (composite_cell_writers (step CropEffect s) 4) as (_ & _ & _ & _ & Hv).
  destruct (composite_cell_writers (step CropEffect s) 4)
    as (_ & _ & _ & Hset & _).
  destruct (Hset (Some Sample.served)) as [Hcell Htab].
  split; [exact Ht|].
  split; [exact (Hrun [CropChange c; ImageClick 3 4] eq_refl)|].
  split; [apply Hv; rewrite He; reflexivity|].
  split.
  { unfold late, s, run. simpl fold_left. do 7 apply reachable_step.
    apply reachable_init. }
  split; [vm_compute; reflexivity|].
  split; [vm_compute; reflexivity|].
  split; [exact Hcell|]. vm_compute. reflexivity.
Defined.

End CompositeOnSample.

(** ** The single-image editor *)

Section SingleImage.

Context `{Browser}.

Lemma flatInv_push (o : option File) (t t' : Flat.State) (x f : File) :
  flatInv o t ->
  Flat.currentImage t = Some x ->
  Flat.history t' = slice0 (Flat.history t) (Flat.historyIndex t + 1) ++ [f] ->
  Flat.historyIndex t' = Z.of_nat (List.length (Flat.history t')) - 1 ->
  flatInv o t'.
Proof.
  intros (Hc & Ho & Hn) Hx Hh Hi.
  pose proof (index_Some_range _ _ _ Hx) as Hr.
  assert (Hlen : Z.of_nat (List.length (Flat.history t')) = Flat.historyIndex t + 2).
  { rewrite Hh, length_app, Nat2Z.inj_add, slice0_length by lia. simpl. lia. }
  split; [left; lia|]. split.
  - unfold Flat.originalImage in *. rewrite Hh, slice0_firstn by lia.
    rewrite index_push_old by (rewrite length_firstn; lia).
    rewrite index_firstn by lia. exact Ho.
  - intros ->. unfold Flat.originalImage in Ho.
    destruct (index_in_range (Flat.history t) 0) as [a Ha]; [lia|]. congruence.
Qed.

Lemma flatInv_move (o : option File) (t t' : Flat.State) :
  flatInv o t ->
  Flat.history t' = Flat.history t ->
  0 <= Flat.historyIndex t' < Z.of_nat (List.length (Flat.history t))
  \/ Flat.historyIndex t' = Flat.historyIndex t ->
  flatInv o t'.
Proof.
  intros (Hc & Ho & Hn) Hh Hi. unfold flatInv, flatCursorOk, Flat.originalImage in *.
  rewrite Hh. split; [|split; assumption].
  destruct Hi as [Hi | Hi]; [left; exact Hi | rewrite Hi; exact Hc].
Qed.

Lemma flatInv_handle (e : Flat.Event) (o : option File) (t : Flat.State) :
  flatInv o t ->
  flatInv (match e with Flat.Upload f => Some f | _ => o end) (Flat.handle e t).
Proof.
  intros IH.
  destruct e;
    try (eapply flatInv_move; [exact IH | reflexivity | right; reflexivity]).
  - (* Upload *)
    split; [left; simpl; lia|]. split; [reflexivity | discriminate].
  - simpl. unfold Flat.handleGenerate, Flat.tryCatchFinally, bind. handler_cases;
      first
        [ eapply flatInv_move; [exact IH | reflexivity | right; reflexivity]
        | eapply (flatInv_push o t);
          [exact IH | eassumption | reflexivity | reflexivity] ].
  - simpl. unfold Flat.handleApplyFilter, Flat.tryCatchFinally, bind. handler_cases;
      first
        [ eapply flatInv_move; [exact IH | reflexivity | right; reflexivity]
        | eapply (flatInv_push o t);
          [exact IH | eassumption | reflexivity | reflexivity] ].
  - simpl. unfold Flat.handleApplyAdjustment, Flat.tryCatchFinally, bind.
    handler_cases;
      first
        [ eapply flatInv_move; [exact IH | reflexivity | right; reflexivity]
        | eapply (flatInv_push o t);
          [exact IH | eassumption | reflexivity | reflexivity] ].
  - simpl. unfold Flat.handleApplyFaceSwap, Flat.tryCatchFinally, bind.
    handler_cases;
      first
        [ eapply flatInv_move; [exact IH | reflexivity | right; reflexivity]
        | eapply (flatInv_push o t);
          [exact IH | eassumption | reflexivity | reflexivity] ].
  - simpl. unfold Flat.handleApplyRemoveBackground, Flat.tryCatchFinally, bind.
    handler_cases;
      first
        [ eapply flatInv_move; [exact IH | reflexivity | right; reflexivity]
        | eapply (flatInv_push o t);
          [exact IH | eassumption | reflexivity | reflexivity] ].
  - (* ApplyCrop *)
    simpl. unfold Flat.handleApplyCrop. handler_cases;
      first
        [ eapply flatInv_move; [exact IH | reflexivity | right; reflexivity]
        | eapply (flatInv_push o t);
          [exact IH | eassumption | reflexivity | reflexivity] ].
  - (* ImageClick *)
    simpl. unfold Flat.handleImageClick. handler_cases;
      eapply flatInv_move; try exact IH; try reflexivity; right; reflexivity.
  - (* TabChange *)
    simpl. unfold Flat.handleTabChange. handler_cases;
      eapply flatInv_move; try exact IH; try reflexivity; right; reflexivity.
  - (* Undo *)
    simpl. unfold Flat.handleUndo, Flat.canUndo. handler_cases; [|exact IH].
    tests. eapply flatInv_move; [exact IH | reflexivity |].
    left. simpl. destruct IH as ([Hc | [_ Hc]] & _); lia.
  - (* Redo *)
    simpl. unfold Flat.handleRedo, Flat.canRedo. handler_cases; [|exact IH].
    tests. eapply flatInv_move; [exact IH | reflexivity |].
    left. simpl. destruct IH as ([Hc | [Hh Hc]] & _); [lia|].
    rewrite Hh, Hc in *. simpl in *. lia.
Qed.

Lemma flatInv_run (es : list Flat.Event) :
  forall (o : option File) (t : Flat.State),
    flatInv o t -> flatInv (lastUpload o es) (Flat.run es t).
Proof.
  induction es as [|e es IH]; intros o t Ht; [exact Ht|].
  apply (IH _ _ (flatInv_handle e o t Ht)).
Qed.

(** X19. In the single-image editor, whatever the events, the cursor is
    on an image of the history, or the history is empty with the cursor
    at -1; the first image of the history (the "original" shown while
    comparing) is the file of the last upload, and once a file has been
    uploaded there always is a current image. *)
Theorem flat_original_is_last_upload (es : list Flat.Event) :
  let t := Flat.run es Flat.initialState in
  flatCursorOk t
  /\ Flat.originalImage t = lastUpload None es
  /\ (lastUpload None es = None ->
      Flat.history t = [] /\ Flat.currentImage t = None)
  /\ (lastUpload None es <> None -> Flat.currentImage t <> None).
Proof.
  intros t.
  assert (H0 : flatInv None Flat.initialState).
  { split; [right; split; reflexivity|]. split; reflexivity. }
  destruct (flatInv_run es None Flat.initialState H0) as (Hc & Ho & Hn).
  fold t in Hc, Ho, Hn.
  split; [exact Hc|]. split; [exact Ho|]. split.
  - intros Hl. pose proof (Hn Hl) as Hh. split; [exact Hh|].
    unfold Flat.currentImage. rewrite Hh. unfold index.
    destruct (Flat.historyIndex t <? 0); [reflexivity|].
    destruct (Z.to_nat (Flat.historyIndex t)); reflexivity.
  - intros Hl Hcur. destruct Hc as [Hc | [Hh _]].
    + destruct (index_in_range _ _ Hc) as [a Ha].
      unfold Flat.currentImage in Hcur. congruence.
    + apply Hl. rewrite <- Ho. unfold Flat.originalImage. rewrite Hh. reflexivity.
Qed.

Lemma flat_validated_has_image (op : Operation) (t : Flat.State) :
  flatPassesValidation op t = true -> exists x, Flat.currentImage t = Some x.
Proof.
  destruct op; simpl; destruct (Flat.currentImage t); try discriminate; eauto.
Qed.

(** X20. The five operations of the single-image editor, once past
    validation.  A failing call, or an answer [dataURLtoFile] throws
    on, leaves the state as it was but for the failure label and
    message in [error] and [isLoading] false.  An answer that converts
    to the file [f] cuts the history after the cursor and appends [f],
    which becomes the current image; nothing can be redone, the
    original image stays, the crop selection, secondary image,
    additional prompt and scale are reset. *)
Theorem flat_operation_outcome (op : Operation) (now : Z) (t : Flat.State) :
  flatPassesValidation op t = true ->
  0 <= Flat.historyIndex t < Z.of_nat (List.length (Flat.history t)) ->
  (forall e,
     flatRunOperation op now (Throw e) t
     = (t |> Flat.setError (Some (flatFailureLabel op +++ errorMessageOf e))
          |> Flat.setIsLoading false))
  /\ (forall url e,
        dataURLtoFile url (operationFileName op now) = Throw e ->
        flatRunOperation op now (Ok url) t
        = (t |> Flat.setError (Some (flatFailureLabel op +++ errorMessageOf e))
             |> Flat.setIsLoading false))
  /\ (forall url f,
        dataURLtoFile url (operationFileName op now) = Ok f ->
        let t' := flatRunOperation op now (Ok url) t in
        Flat.history t'
        = firstn (Z.to_nat (Flat.historyIndex t + 1)) (Flat.history t) ++ [f]
        /\ Flat.historyIndex t' = Flat.historyIndex t + 1
        /\ Flat.currentImage t' = Some f
        /\ Flat.canRedo t' = false
        /\ Flat.originalImage t' = Flat.originalImage t
        /\ Flat.error t' = None /\ Flat.isLoading t' = false
        /\ (Flat.crop t' = None /\ Flat.completedCrop t' = None
            /\ Flat.secondaryImage t' = None /\ Flat.additionalPrompt t' = ""
            /\ Flat.retouchScale t' = 100)).
Proof.
  intros Hv Hr.
  split; [|split].
  - intros e.
    destruct op; simpl in Hv |- *;
      unfold Flat.handleGenerate, Flat.handleApplyFilter,
        Flat.handleApplyAdjustment, Flat.handleApplyFaceSwap,
        Flat.handleApplyRemoveBackground;
      destruct (Flat.currentImage t); try discriminate;
      try (destruct (Flat.editHotspot t); try discriminate);
      try (destruct (Flat.secondaryImage t); try discriminate);
      try (destruct (trimIsEmpty (Flat.prompt t)); try discriminate);
      reflexivity.
  - intros url e He.
    destruct op; simpl in Hv, He |- *;
      unfold Flat.handleGenerate, Flat.handleApplyFilter,
        Flat.handleApplyAdjustment, Flat.handleApplyFaceSwap,
        Flat.handleApplyRemoveBackground, Flat.tryCatchFinally;
      destruct (Flat.currentImage t); try discriminate;
      try (destruct (Flat.editHotspot t); try discriminate);
      try (destruct (Flat.secondaryImage t); try discriminate);
      try (destruct (trimIsEmpty (Flat.prompt t)); try discriminate);
      simpl; rewrite He; reflexivity.
  - intros url f Hf t'.
    assert (Hs : Flat.history t'
                 = slice0 (Flat.history t) (Flat.historyIndex t + 1) ++ [f]
                 /\ Flat.historyIndex t'
                    = Z.of_nat (List.length (Flat.history t')) - 1
                 /\ Flat.error t' = None /\ Flat.isLoading t' = false
                 /\ (Flat.crop t' = None /\ Flat.completedCrop t' = None
                     /\ Flat.secondaryImage t' = None
                     /\ Flat.additionalPrompt t' = ""
                     /\ Flat.retouchScale t' = 100)).
    { unfold t'. destruct op; simpl in Hv, Hf |- *;
        unfold Flat.handleGenerate, Flat.handleApplyFilter,
          Flat.handleApplyAdjustment, Flat.handleApplyFaceSwap,
          Flat.handleApplyRemoveBackground, Flat.tryCatchFinally;
        destruct (Flat.currentImage t); try discriminate;
        try (destruct (Flat.editHotspot t); try discriminate);
        try (destruct (Flat.secondaryImage t); try discriminate);
        try (destruct (trimIsEmpty (Flat.prompt t)); try discriminate);
        simpl; rewrite Hf; simpl;
        (split; [reflexivity|]); (split; [reflexivity|]);
        repeat split; reflexivity. }
    destruct Hs as (Hh & Hi & He & Hl & Hreset). clearbody t'.
    rewrite slice0_firstn in Hh by lia.
    assert (Hlen : Z.of_nat (List.length (Flat.history t')) = Flat.historyIndex t + 2).
    { rewrite Hh, length_app, length_firstn. simpl. lia. }
    split; [exact Hh|]. split; [lia|]. split.
    { unfold Flat.currentImage. rewrite Hh. apply index_push_at.
      rewrite length_firstn. lia. }
    split; [unfold Flat.canRedo; apply Z.ltb_ge; lia|].
    split; [|tauto].
    unfold Flat.originalImage. rewrite Hh.
    rewrite index_push_old by (rewrite length_firstn; lia).
    apply index_firstn. lia.
Qed.

Lemma flatHotspotsOk_handle (e : Flat.Event) (t : Flat.State) :
  flatHotspotsOk t -> flatHotspotsOk (Flat.handle e t).
Proof.
  intros IH.
  destruct e; try exact IH;
    unfold Flat.handle, Flat.handleImageUpload, Flat.handleGenerate,
      Flat.handleApplyFilter, Flat.handleApplyAdjustment,
      Flat.handleApplyFaceSwap, Flat.handleApplyRemoveBackground,
      Flat.handleApplyCrop, Flat.handleImageClick, Flat.handleTabChange,
      Flat.handleUndo, Flat.handleRedo, Flat.tryCatchFinally, bind;
    handler_cases;
    try exact IH;
    unfold flatHotspotsOk in *; simpl in *;
    try (split; [split; intros; (reflexivity || discriminate || tauto)
                | intros; (reflexivity || congruence || tauto) ]);
    (split; [apply IH | intros _; apply IH; congruence]).
Qed.

(** X21. The two hotspots are set and cleared together.  In the
    multi-layer editor [editHotspot] and [displayHotspot] hold the same
    point in every reachable state.  In the single-image editor, after
    any events, one is empty exactly when the other is, and both are
    empty whenever another tab than retouch is shown. *)
Theorem hotspots_go_together (s : State) (es : list Flat.Event) :
  (reachable s -> editHotspot s = displayHotspot s)
  /\ flatHotspotsOk (Flat.run es Flat.initialState).
Proof.
  split.
  - induction 1 as [transparent | e s Hr IH]; [reflexivity|].
    destruct (step_inputs e s) as (_ & He & Hd & _). rewrite He, Hd.
    destruct e; try exact IH;
      unfold handle, prepareCropEffect, compositeSettled, handleFileSelect,
      handleImageUpload, handleAddLayer,
        handleDeleteLayer, handleReorderLayers, LayerPanel.onSlider,
        handleLayerOpacityChange, handleLayerVisibilityChange, handleGenerate,
        handleApplyFilter, handleApplyAdjustment, handleApplyFaceSwap,
        handleRemoveBackground, handleApplyCrop, handleExport, handleImageClick,
        handleUndo, handleRedo, tryCatchFinally, bind;
      handler_cases; simpl; congruence.
  - assert (H0 : flatHotspotsOk Flat.initialState).
    { split; [split; reflexivity | reflexivity]. }
    revert H0. generalize Flat.initialState.
    induction es as [|e es IH]; intros t Ht; [exact Ht|].
    apply IH, flatHotspotsOk_handle, Ht.
Qed.

(** X22. In the single-image editor undo and redo only move the cursor
    and cancel each other: with the cursor on an image, a redo after an
    undo and an undo after a redo give back the very same state, and
    the image shown after an undo is the one before the cursor. *)
Theorem flat_undo_and_redo_cancel (t : Flat.State) :
  0 <= Flat.historyIndex t < Z.of_nat (List.length (Flat.history t)) ->
  (Flat.canUndo t = true ->
   Flat.handleRedo (Flat.handleUndo t) = t
   /\ Flat.currentImage (Flat.handleUndo t)
      = index (Flat.history t) (Flat.historyIndex t - 1)
   /\ Flat.currentImage (Flat.handleUndo t) <> None)
  /\ (Flat.canRedo t = true ->
      Flat.handleUndo (Flat.handleRedo t) = t
      /\ Flat.currentImage (Flat.handleRedo t)
         = index (Flat.history t) (Flat.historyIndex t + 1)
      /\ Flat.currentImage (Flat.handleRedo t) <> None)
  /\ (Flat.canUndo t = false -> Flat.handleUndo t = t)
  /\ (Flat.canRedo t = false -> Flat.handleRedo t = t).
Proof.
  intros Hr. destruct t as [h i p ap ld er sm eh dh tab si rs cr cc].
  unfold Flat.handleUndo, Flat.handleRedo, Flat.canUndo, Flat.canRedo,
    Flat.currentImage. simpl in *.
  split; [|split; [|split]].
  - intros Hu. rewrite Hu. simpl. tests.
    destruct (Z.ltb_spec (i - 1) (Z.of_nat (List.length h) - 1)); [|lia].
    simpl. replace (i - 1 + 1) with i by lia.
    split; [reflexivity|]. split; [reflexivity|].
    destruct (index_in_range h (i - 1)) as [a ->]; [lia | discriminate].
  - intros Hu. rewrite Hu. simpl. tests.
    destruct (Z.gtb_spec (i + 1) 0); [|lia].
    simpl. replace (i + 1 - 1) with i by lia.
    split; [reflexivity|]. split; [reflexivity|].
    destruct (index_in_range h (i + 1)) as [a ->]; [lia | discriminate].
  - intros ->. reflexivity.
  - intros ->. reflexivity.
Qed.

End SingleImage.

Section SingleImageOnSample.

#[local] Existing Instance Sample.browser.

(** An upload, a filter and an undo. *)
Lemma flat_original_is_last_upload_witness :
  let es :=
    [Flat.Upload Sample.imageA; Flat.ApplyFilter 2 (Ok Sample.served);
     Flat.Undo] in
  lastUpload None es <> None
  /\ Flat.originalImage (Flat.run es Flat.initialState) = lastUpload None es
  /\ Flat.currentImage (Flat.run es Flat.initialState) <> None.
Proof.
  intros es.
  assert (Hl : lastUpload None es <> None) by (vm_compute; discriminate).
  destruct (flat_original_is_last_upload es) as (_ & Ho & _ & Hc).
  split; [exact Hl|]. split; [exact Ho | exact (Hc Hl)].
Defined.

Lemma flat_operation_outcome_witness :
  let t := Flat.run [Flat.Upload Sample.imageA] Flat.initialState in
  let f := mkFile "filtered-2.png" "image/png" "hi" in
  flatPassesValidation OpFilter t = true
  /\ 0 <= Flat.historyIndex t < Z.of_nat (List.length (Flat.history t))
  /\ dataURLtoFile Sample.served (operationFileName OpFilter 2) = Ok f
  /\ Flat.currentImage (flatRunOperation OpFilter 2 (Ok Sample.served) t) = Some f
  /\ Flat.originalImage (flatRunOperation OpFilter 2 (Ok Sample.served) t)
     = Flat.originalImage t.
Proof.
  intros t f.
  assert (Hv : flatPassesValidation OpFilter t = true) by (vm_compute; reflexivity).
  assert (Hr : 0 <= Flat.historyIndex t < Z.of_nat (List.length (Flat.history t)))
    by (vm_compute; split; [discriminate | reflexivity]).
  assert (Hf : dataURLtoFile Sample.served (operationFileName OpFilter 2) = Ok f)
    by (vm_compute; reflexivity).
  destruct (flat_operation_outcome OpFilter 2 t Hv Hr) as (_ & _ & Hok).
  destruct (Hok Sample.served f Hf) as (_ & _ & Hc & _ & Ho & _).
  split; [exact Hv|]. split; [exact Hr|]. split; [exact Hf|].
  split; [exact Hc | exact Ho].
Defined.

Lemma hotspots_go_together_witness :
  let s :=
    step (ImageClick 3 4)
      (step (FileSelect (Some Sample.imageA) 1) (initialState false)) in
  let es :=
    [Flat.Upload Sample.imageA;
     Flat.ImageClick true false 1 1 (mkHotspot 2 2); Flat.TabChange Filters] in
  reachable s
  /\ editHotspot s = displayHotspot s
  /\ editHotspot s <> None
  /\ flatHotspotsOk (Flat.run es Flat.initialState).
Proof.
  intros s es.
  assert (Hr : reachable s) by (repeat apply reachable_step; apply reachable_init).
  destruct (hotspots_go_together s es) as [Hs Hf].
  split; [exact Hr|]. split; [exact (Hs Hr)|].
  split; [vm_compute; discriminate | exact Hf].
Defined.

Lemma flat_undo_and_redo_cancel_witness :
  let t :=
    Flat.run [Flat.Upload Sample.imageA; Flat.ApplyFilter 2 (Ok Sample.served)]
      Flat.initialState in
  0 <= Flat.historyIndex t < Z.of_nat (List.length (Flat.history t))
  /\ Flat.canUndo t = true
  /\ Flat.handleRedo (Flat.handleUndo t) = t.
Proof.
  intros t.
  assert (Hr : 0 <= Flat.historyIndex t < Z.of_nat (List.length (Flat.history t)))
    by (vm_compute; split; [discriminate | reflexivity]).
  assert (Hu : Flat.canUndo t = true) by (vm_compute; reflexivity).
  destruct (flat_undo_and_redo_cancel t Hr) as (Hundo & _).
  destruct (Hundo Hu) as (Hb & _).
  split; [exact Hr|]. split; [exact Hu | exact Hb].
Defined.

End SingleImageOnSample.

(** ** The export dialog *)

Section ExportDialog.

Context `{Browser}.

Lemma splitOn_cons (sep : ascii) (s : string) :
  exists w ws, splitOn sep s = w :: ws.
Proof.
  induction s as [|c s (w & ws & IH)]; simpl; [eauto|].
  destruct (Ascii.eqb c sep); [eauto|]. rewrite IH. eauto.
Qed.

(** [s.split(sep).join(sep)] is [s]. *)
Lemma joinWith_splitOn (sep : ascii) (s : string) :
  joinWith (String sep EmptyString) (splitOn sep s) = s.
Proof.
  induction s as [|c s IH]; [reflexivity|].
  simpl. destruct (splitOn_cons sep s) as (w & ws & E). rewrite E in *.
  destruct (Ascii.eqb_spec c sep) as [->|_].
  - simpl. f_equal. exact IH.
  - destruct ws as [|w2 ws]; simpl in *; f_equal; exact IH.
Qed.

Lemma dot_code (c : ascii) : Ascii.eqb c "."%char = (byte c =? 46)%N.
Proof. destruct c as [[] [] [] [] [] [] [] []]; reflexivity. Qed.

Lemma splitOn_plain (s : string) :
  avoids [46%N] s = true -> splitOn "."%char s = [s].
Proof.
  induction s as [|c s IH]; intros Ha; [reflexivity|].
  apply avoids_cons in Ha as [Hc Hs]. simpl in Hc |- *.
  apply orb_false_iff in Hc as [Hc _].
  rewrite dot_code, Hc, (IH Hs). reflexivity.
Qed.

Lemma splitOn_last (base ext : string) :
  avoids [46%N] ext = true ->
  splitOn "."%char (base +++ "." +++ ext) = splitOn "."%char base ++ [ext].
Proof.
  intros He. induction base as [|c base IH]; simpl.
  - rewrite (splitOn_plain ext He). reflexivity.
  - simpl in IH. rewrite IH.
    destruct (Ascii.eqb c "."); [reflexivity|].
    destruct (splitOn_cons "."%char base) as (w & ws & ->). reflexivity.
Qed.

Lemma firstn_push {A : Type} (l : list A) (x : A) :
  firstn (List.length l) (l ++ [x]) = l.
Proof. induction l as [|a l IH]; simpl; [reflexivity | f_equal; exact IH]. Qed.

Lemma dropLast_push {A : Type} (l : list A) (x : A) : dropLast (l ++ [x]) = l.
Proof.
  unfold dropLast, slice0.
  change (-1 <? 0) with true. cbv iota.
  assert (Hk : Z.to_nat (Z.max (Z.of_nat (List.length (l ++ [x])) + -1) 0)
               = List.length l).
  { rewrite length_app. simpl List.length. lia. }
  rewrite Hk. apply firstn_push.
Qed.

Lemma defaultFileName_base (base ext : string) (f : File) :
  avoids [46%N] ext = true ->
  fileName f = base +++ "." +++ ext ->
  ExportModal.defaultFileName (Some f)
  = "edited-" +++ match base with EmptyString => "image" | _ => base end.
Proof.
  intros He Hf. unfold ExportModal.defaultFileName.
  rewrite Hf, (splitOn_last base ext He), dropLast_push.
  rewrite (joinWith_splitOn "."%char base). destruct base; reflexivity.
Qed.

(** X23. The name the export dialog proposes is [edited-] followed by
    the name of the file without its last extension; it is
    [edited-image] when there is no file, when the name has no dot, or
    when nothing stands before its only dot.  For the file made by
    [handleExport] at time [now] it is [edited-export-<now>]. *)
Theorem default_name_drops_extension (base ext : string) (f : File) (now : Z) :
  avoids [46%N] ext = true ->
  (fileName f = base +++ "." +++ ext -> base <> EmptyString ->
   ExportModal.defaultFileName (Some f) = "edited-" +++ base)
  /\ (fileName f = "." +++ ext ->
      ExportModal.defaultFileName (Some f) = "edited-image")
  /\ (fileName f = ext ->
      ExportModal.defaultFileName (Some f) = "edited-image")
  /\ ExportModal.defaultFileName None = "edited-image"
  /\ (fileName f = "export-" +++ showZ now +++ ".png" ->
      ExportModal.defaultFileName (Some f) = "edited-export-" +++ showZ now).
Proof.
  intros He. split; [|split; [|split; [|split]]].
  - intros Hf Hb. rewrite (defaultFileName_base base ext f He Hf).
    destruct base; [contradiction | reflexivity].
  - intros Hf. apply (defaultFileName_base EmptyString ext f He Hf).
  - intros Hf. unfold ExportModal.defaultFileName.
    rewrite Hf, (splitOn_plain ext He). reflexivity.
  - reflexivity.
  - intros Hf.
    assert (Hp : avoids [46%N] "png" = true) by reflexivity.
    assert (Hn : fileName f = ("export-" +++ showZ now) +++ "." +++ "png").
    { rewrite Hf, append_assoc. reflexivity. }
    rewrite (defaultFileName_base _ _ f Hp Hn). reflexivity.
Qed.

Lemma trimIsEmpty_step (s : string) :
  trimIsEmpty s
  = match s with
    | EmptyString => true
    | _ =>
        match dropSpace s with
        | Some r => trimIsEmpty r
        | None => false
        end
    end.
Proof.
  destruct s as [|c r]; [reflexivity|].
  unfold dropSpace.
  change (trimIsEmpty (String c r))
    with (if isAsciiSpace c then trimIsEmpty r
          else
            match r with
            | String c2 r2 =>
                if ((byte c =? 194) && (byte c2 =? 160))%N then trimIsEmpty r2
                else
                  match r2 with
                  | String c3 r3 =>
                      let b1 := byte c in
                      let b2 := byte c2 in
                      let b3 := byte c3 in
                      if ((b1 =? 225) && (b2 =? 154) && (b3 =? 128)
                          || (b1 =? 226) && (b2 =? 128)
                             && ((128 <=? b3) && (b3 <=? 138) || (b3 =? 168)
                                 || (b3 =? 169) || (b3 =? 175))
                          || (b1 =? 226) && (b2 =? 129) && (b3 =? 159)
                          || (b1 =? 227) && (b2 =? 128) && (b3 =? 128)
                          || (b1 =? 239) && (b2 =? 187) && (b3 =? 191))%N
                      then trimIsEmpty r3
                      else false
                  | EmptyString => false
                  end
            | EmptyString => false
            end).
  destruct (isAsciiSpace c); [reflexivity|].
  destruct r as [|c2 r2]; [reflexivity|].
  destruct ((byte c =? 194) && (byte c2 =? 160))%N; [reflexivity|].
  destruct r2 as [|c3 r3]; [reflexivity|].
  cbv zeta.
  match goal with |- context [if ?b then _ else _] => destruct b end;
    reflexivity.
Qed.

Lemma dropSpace_shorter (s r : string) :
  dropSpace s = Some r -> (String.length r < String.length s)%nat.
Proof.
  unfold dropSpace. destruct s as [|c s]; [discriminate|].
  destruct (isAsciiSpace c); [intros E; injection E as <-; simpl; lia|].
  destruct s as [|c2 r2]; [discriminate|].
  destruct ((byte c =? 194) && (byte c2 =? 160))%N;
    [intros E; injection E as <-; simpl; lia|].
  destruct r2 as [|c3 r3]; [discriminate|].
  cbv zeta.
  match goal with |- context [if ?b then _ else _] => destruct b end;
    intros E; [injection E as <-; simpl; lia | discriminate E].
Qed.

Lemma trimStart_blank (n : nat) :
  forall s, (String.length s <= n)%nat -> trimIsEmpty s = true ->
            trimStartFuel n s = EmptyString.
Proof.
  induction n as [|n IH]; intros s Hl Hb.
  - destruct s; [reflexivity | simpl in Hl; lia].
  - rewrite trimIsEmpty_step in Hb. destruct s as [|c s]; [reflexivity|].
    cbn [trimStartFuel]. destruct (dropSpace (String c s)) as [r|] eqn:E;
      [|discriminate].
    apply IH; [|exact Hb]. apply dropSpace_shorter in E. simpl in *. lia.
Qed.

Lemma trim_blank (s : string) : trimIsEmpty s = true -> trim s = EmptyString.
Proof.
  intros Hb. unfold trim, trimStart.
  rewrite (trimStart_blank _ s (le_n _) Hb). reflexivity.
Qed.

(** X24. [handleDownload] clicks a download link exactly when it also
    closes the dialog, and only with a file, a name that is not blank,
    an image that decodes and a 2D context: the link then carries the
    image drawn at its natural size in the chosen format and the
    trimmed name with the format as extension.  Without a file, or
    with a name of white space only, nothing happens at all; in every
    case name and format are kept. *)
Theorem download_needs_name_and_image (imageFile : option File)
    (s : ExportModal.State) :
  let o := ExportModal.handleDownload imageFile s in
  (ExportModal.closed o = true <-> ExportModal.clicked o <> None)
  /\ (forall d,
        ExportModal.clicked o = Some d ->
        exists f img,
          imageFile = Some f
          /\ loadImage (createObjectURL f) = Some img
          /\ hasContext2d = true
          /\ trim (ExportModal.fileName s) <> EmptyString
          /\ ExportModal.download d
             = trim (ExportModal.fileName s) +++ "."
               +++ ExportModal.formatName (ExportModal.format s)
          /\ ExportModal.href d
             = toDataURL
                 (mkCanvas (canvasDim 300 (numOfZ (naturalWidth img)))
                    (canvasDim 150 (numOfZ (naturalHeight img)))
                    [DrawImage5 img (numOfZ 0) (numOfZ 0)
                       (numOfZ (naturalWidth img)) (numOfZ (naturalHeight img))])
                 ("image/" +++ ExportModal.formatName (ExportModal.format s))
          /\ ExportModal.isProcessing (ExportModal.after o) = false)
  /\ (ExportModal.fileName (ExportModal.after o) = ExportModal.fileName s
      /\ ExportModal.format (ExportModal.after o) = ExportModal.format s)
  /\ (imageFile = None -> o = ExportModal.mkOutcome s None false)
  /\ (trimIsEmpty (ExportModal.fileName s) = true ->
      o = ExportModal.mkOutcome s None false).
Proof.
  intros o. unfold o, ExportModal.handleDownload.
  split; [|split; [|split; [|split]]].
  - handler_cases; simpl; split; intros E;
      first [ discriminate E | reflexivity | discriminate
            | exfalso; apply E; reflexivity ].
  - intros d. destruct imageFile as [f|]; [|simpl; intros E; discriminate E].
    destruct (trim (ExportModal.fileName s)) as [|c t] eqn:Et;
      [simpl; intros E; discriminate E|].
    destruct (loadImage (createObjectURL f)) as [img|] eqn:Ei;
      [|simpl; intros E; discriminate E].
    destruct hasContext2d eqn:Ex; [|simpl; intros E; discriminate E].
    simpl. intros E. injection E as <-.
    exists f, img. split; [reflexivity|]. split; [exact Ei|].
    split; [reflexivity|]. split; [discriminate|]. repeat split; reflexivity.
  - handler_cases; split; reflexivity.
  - intros ->. reflexivity.
  - intros Hb. rewrite (trim_blank _ Hb).
    destruct imageFile; reflexivity.
Qed.

End ExportDialog.

Section ExportDialogOnSample.

#[local] Existing Instance Sample.browser.

Lemma default_name_drops_extension_witness :
  let f := mkFile "holiday.photo.jpg" "image/jpeg" "x" in
  avoids [46%N] "jpg" = true
  /\ fileName f = "holiday.photo" +++ "." +++ "jpg"
  /\ ExportModal.defaultFileName (Some f) = "edited-" +++ "holiday.photo".
Proof.
  intros f.
  assert (He : avoids [46%N] "jpg" = true) by reflexivity.
  assert (Hf : fileName f = "holiday.photo" +++ "." +++ "jpg") by reflexivity.
  assert (Hb : "holiday.photo" <> EmptyString) by discriminate.
  destruct (default_name_drops_extension "holiday.photo" "jpg" f 0 He) as (Hd & _).
  split; [exact He|]. split; [exact Hf | exact (Hd Hf Hb)].
Defined.

(** A name of three spaces. *)
Lemma download_needs_name_and_image_witness :
  let s := ExportModal.mkState "   " ExportModal.Jpeg false in
  trimIsEmpty (ExportModal.fileName s) = true
  /\ ExportModal.handleDownload (Some Sample.imageA) s
     = ExportModal.mkOutcome s None false.
Proof.
  intros s.
  assert (Hb : trimIsEmpty (ExportModal.fileName s) = true) by reflexivity.
  destruct (download_needs_name_and_image (Some Sample.imageA) s)
    as (_ & _ & _ & _ & Hblank).
  split; [exact Hb | exact (Hblank Hb)].
Defined.

End ExportDialogOnSample.

(** ** Cropping in the single-image editor *)

Section FlatCrop.

Context `{Browser}.

(** X25. In the single-image editor a crop of a rendered image with a
    selection whose scaled width and height are not zero, and with a
    2D context, depends on [toBlob] alone.  Given a blob, the file
    [cropped-<now>.png] of type image/png holding it is appended to the
    history cut after the cursor and becomes the current image, the
    tab is back on retouch and the selection is cleared; [error] is
    not written and the original image stays.  Given no blob (as for a
    bitmap without pixels) the state is left exactly as it was: no
    message is shown. *)
Theorem flat_crop_outcome (c : Crop) (image : HTMLImage) (x : File) (now : Z)
    (t : Flat.State) :
  Flat.completedCrop t = Some c ->
  Flat.currentImage t = Some x ->
  numIsZero (numMul (cropWidth c) (numDiv (naturalWidth image) (width image)))
  = false ->
  numIsZero (numMul (cropHeight c) (numDiv (naturalHeight image) (height image)))
  = false ->
  hasContext2d = true ->
  let t' := Flat.handleApplyCrop (Some image) now t in
  (forall blob,
     toBlob (flatCroppedCanvas c image) "image/png" = Some blob ->
     let f := mkFile ("cropped-" +++ showZ now +++ ".png") "image/png" blob in
     Flat.history t'
     = firstn (Z.to_nat (Flat.historyIndex t + 1)) (Flat.history t) ++ [f]
     /\ Flat.historyIndex t' = Flat.historyIndex t + 1
     /\ Flat.currentImage t' = Some f
     /\ Flat.originalImage t' = Flat.originalImage t
     /\ Flat.activeTab t' = Retouch
     /\ (Flat.crop t' = None /\ Flat.completedCrop t' = None)
     /\ Flat.error t' = Flat.error t)
  /\ (toBlob (flatCroppedCanvas c image) "image/png" = None -> t' = t).
Proof.
  intros Hc Hx Hw Hh Hctx t'.
  pose proof (index_Some_range _ _ _ Hx) as Hr.
  assert (Hshape :
            t' = match toBlob (flatCroppedCanvas c image) "image/png" with
                 | Some blob =>
                     t |> Flat.addImageToHistory
                            (mkFile ("cropped-" +++ showZ now +++ ".png")
                               "image/png" blob)
                       |> Flat.setActiveTab Retouch
                 | None => t
                 end).
  { unfold t', Flat.handleApplyCrop. rewrite Hc, Hx. cbv zeta.
    rewrite Hw, Hh, Hctx. reflexivity. }
  clearbody t'. split.
  - intros blob Hb f. rewrite Hb in Hshape.
    assert (Hs : Flat.history t'
                 = slice0 (Flat.history t) (Flat.historyIndex t + 1) ++ [f]
                 /\ Flat.historyIndex t'
                    = Z.of_nat (List.length (Flat.history t')) - 1
                 /\ Flat.activeTab t' = Retouch
                 /\ (Flat.crop t' = None /\ Flat.completedCrop t' = None)
                 /\ Flat.error t' = Flat.error t).
    { rewrite Hshape. repeat split; reflexivity. }
    destruct Hs as (Hhist & Hi & Htab & Hsel & He). clear Hshape.
    rewrite slice0_firstn in Hhist by lia.
    assert (Hlen : Z.of_nat (List.length (Flat.history t')) = Flat.historyIndex t + 2).
    { rewrite Hhist, length_app, length_firstn. simpl. lia. }
    split; [exact Hhist|]. split; [lia|]. split.
    { unfold Flat.currentImage. rewrite Hhist. apply index_push_at.
      rewrite length_firstn. lia. }
    split; [|tauto].
    unfold Flat.originalImage. rewrite Hhist.
    rewrite index_push_old by (rewrite length_firstn; lia).
    apply index_firstn. lia.
  - intros Hb. rewrite Hb in Hshape. exact Hshape.
Qed.

End FlatCrop.

(** ** Object URLs of the layers *)

Section UrlEffect.

Context `{Browser}.

(** X26. If [URL.createObjectURL] never returns the empty string, every
    layer on display or in a snapshot of a reachable state has an
    object URL, so that the effect that assigns one to layers without
    never writes to a layer object. *)
Theorem object_url_effect_is_idle (s : State) :
  (forall f : File, createObjectURL f <> EmptyString) ->
  reachable s ->
  Forall (fun l => objectUrl l <> EmptyString /\ manageObjectUrl l = l)
    (layers s)
  /\ Forall
       (Forall (fun l => objectUrl l <> EmptyString /\ manageObjectUrl l = l))
       (history s).
Proof.
  intros Hurl Hr. destruct (object_urls_present Hurl s Hr) as [[Hl Hh] _].
  assert (Hone : forall l, hasUrl l ->
                   objectUrl l <> EmptyString /\ manageObjectUrl l = l).
  { intros l Hu. split; [exact Hu|]. unfold hasUrl in Hu. unfold manageObjectUrl.
    destruct (objectUrl l); [exfalso; apply Hu; reflexivity | reflexivity]. }
  split.
  - eapply Forall_impl; [exact Hone | exact Hl].
  - eapply Forall_impl; [|exact Hh]. intros ls Hls.
    eapply Forall_impl; [exact Hone | exact Hls].
Qed.

End UrlEffect.

Section CropAndUrlsOnSample.

#[local] Existing Instance Sample.browser.

(** A selection of 100 by 50 on an image rendered at half size, and
    a selection 49 wide on an image one pixel wide rendered 49 wide:
    49 times 1/49 is the double below 1, not zero, the canvas gets
    width 0 and [toBlob] hands over no blob. *)
Lemma flat_crop_outcome_witness :
  let c := mkCrop Px (numOfZ 0) (numOfZ 0) (numOfZ 100) (numOfZ 50) in
  let image := mkImage "blob:a.png" 640 480 320 240 in
  let t :=
    Flat.run [Flat.Upload Sample.imageA; Flat.CropComplete c] Flat.initialState in
  let thin := mkCrop Px (numOfZ 0) (numOfZ 0) (numOfZ 49) (numOfZ 50) in
  let sliver := mkImage "blob:a.png" 1 480 49 480 in
  let u :=
    Flat.run [Flat.Upload Sample.imageA; Flat.CropComplete thin]
      Flat.initialState in
  Flat.completedCrop t = Some c
  /\ Flat.currentImage t = Some Sample.imageA
  /\ hasContext2d = true
  /\ toBlob (flatCroppedCanvas c image) "image/png" = Some "hi"
  /\ Flat.currentImage (Flat.handleApplyCrop (Some image) 3 t)
     = Some (mkFile ("cropped-" +++ showZ 3 +++ ".png") "image/png" "hi")
  /\ numIsZero (numMul (cropWidth thin)
                  (numDiv (naturalWidth sliver) (width sliver))) = false
  /\ canvasWidth (flatCroppedCanvas thin sliver) = 0
  /\ Flat.handleApplyCrop (Some sliver) 3 u = u.
Proof.
  intros c image t thin sliver u.
  assert (Hc : Flat.completedCrop t = Some c) by (vm_compute; reflexivity).
  assert (Hx : Flat.currentImage t = Some Sample.imageA) by (vm_compute; reflexivity).
  assert (Hw : numIsZero (numMul (cropWidth c)
                            (numDiv (naturalWidth image) (width image))) = false)
    by (vm_compute; reflexivity).
  assert (Hh : numIsZero (numMul (cropHeight c)
                            (numDiv (naturalHeight image) (height image))) = false)
    by (vm_compute; reflexivity).
  assert (Hctx : hasContext2d = true) by reflexivity.
  assert (Hb : toBlob (flatCroppedCanvas c image) "image/png" = Some "hi")
    by (vm_compute; reflexivity).
  destruct (flat_crop_outcome c image Sample.imageA 3 t Hc Hx Hw Hh Hctx)
    as [Hok _].
  destruct (Hok "hi" Hb) as (_ & _ & Hcur & _).
  assert (Hc' : Flat.completedCrop u = Some thin) by (vm_compute; reflexivity).
  assert (Hx' : Flat.currentImage u = Some Sample.imageA)
    by (vm_compute; reflexivity).
  assert (Hw' : numIsZero (numMul (cropWidth thin)
                             (numDiv (naturalWidth sliver) (width sliver)))
                = false)
    by (vm_compute; reflexivity).
  assert (Hh' : numIsZero (numMul (cropHeight thin)
                             (numDiv (naturalHeight sliver) (height sliver)))
                = false)
    by (vm_compute; reflexivity).
  assert (Hb' : toBlob (flatCroppedCanvas thin sliver) "image/png" = None)
    by (vm_compute; reflexivity).
  destruct (flat_crop_outcome thin sliver Sample.imageA 3 u Hc' Hx' Hw' Hh' Hctx)
    as [_ Hnone].
  split; [exact Hc|]. split; [exact Hx|]. split; [exact Hctx|].
  split; [exact Hb|]. split; [exact Hcur|]. split; [exact Hw'|].
  split; [vm_compute; reflexivity | exact (Hnone Hb')].
Defined.

Lemma object_url_effect_is_idle_witness :
  let s :=
    step (LayerAdd Sample.imageA 2)
      (step (FileSelect (Some Sample.imageA) 1) (initialState false)) in
  (forall f : File, createObjectURL f <> EmptyString)
  /\ reachable s
  /\ Forall (fun l => objectUrl l <> EmptyString /\ manageObjectUrl l = l)
       (layers s).
Proof.
  intros s.
  assert (Hurl : forall f : File, createObjectURL f <> EmptyString)
    by (intros f; discriminate).
  assert (Hr : reachable s) by (repeat apply reachable_step; apply reachable_init).
  destruct (object_url_effect_is_idle s Hurl Hr) as [Hl _].
  split; [exact Hurl|]. split; [exact Hr | exact Hl].
Defined.

End CropAndUrlsOnSample.

(** ** The prompt of the filter and adjustment panels *)

Section PanelPrompt.

(** X27. In the filter and adjustment panels a preset and a typed
    prompt exclude each other: after any clicks and inputs at most one
    of the two cells is set, and the active prompt is the preset
    clicked last or the text typed last.  The apply button of the
    filter panel can be pressed only while nothing is loading and the
    active prompt is not blank, and [onApplyFilter] then gets that
    prompt; the one of the adjustment panel also with a blank prompt,
    provided there is a secondary image. *)
Theorem panel_prompt_is_last_choice (es : list Panels.Event)
    (isLoading_ : bool) (secondaryImage_ : option File) :
  let s := Panels.run es Panels.initialState in
  (Panels.selectedPresetPrompt s = None \/ Panels.customPrompt s = EmptyString)
  /\ (forall p, p <> EmptyString ->
        Panels.activePrompt (Panels.handle (Panels.PresetClick p) s) = p)
  /\ (forall v,
        Panels.activePrompt (Panels.handle (Panels.CustomChange v) s) = v)
  /\ (Panels.filterButtonEnabled isLoading_ s = true ->
      isLoading_ = false
      /\ trimIsEmpty (Panels.activePrompt s) = false
      /\ Panels.filterApply s = Some (Panels.activePrompt s))
  /\ (Panels.adjustButtonEnabled isLoading_ secondaryImage_ s = true ->
      isLoading_ = false
      /\ (trimIsEmpty (Panels.activePrompt s) = false \/ secondaryImage_ <> None)
      /\ Panels.adjustApply secondaryImage_ s = Some (Panels.activePrompt s))
  /\ (Panels.activePrompt s = EmptyString ->
      Panels.filterApply s = None
      /\ Panels.adjustApply None s = None).
Proof.
  intros s.
  assert (Hstep : forall e s0,
            Panels.selectedPresetPrompt (Panels.handle e s0) = None
            \/ Panels.customPrompt (Panels.handle e s0) = EmptyString).
  { intros [p|v] s0; [right | left]; reflexivity. }
  assert (Hrun : forall l s0,
            Panels.selectedPresetPrompt s0 = None
            \/ Panels.customPrompt s0 = EmptyString ->
            Panels.selectedPresetPrompt (Panels.run l s0) = None
            \/ Panels.customPrompt (Panels.run l s0) = EmptyString).
  { induction l as [|e l IH]; intros s0 H0; [exact H0|].
    apply IH, Hstep. }
  split; [apply Hrun; left; reflexivity|]. clearbody s.
  split; [intros [|c p] Hp; [contradiction | reflexivity]|].
  split; [reflexivity|].
  unfold Panels.filterButtonEnabled, Panels.filterApply,
    Panels.adjustButtonEnabled, Panels.adjustApply.
  destruct (Panels.activePrompt s) as [|c p].
  - split; [discriminate|]. split; [|split; reflexivity].
    destruct secondaryImage_ as [f|]; [|discriminate].
    destruct isLoading_; [discriminate|]. intros _.
    split; [reflexivity|]. split; [right; discriminate | reflexivity].
  - split; [|split; [|discriminate]].
    + destruct isLoading_; [discriminate|].
      destruct (trimIsEmpty (String c p)); [discriminate|].
      intros _. repeat split; reflexivity.
    + destruct isLoading_; [destruct secondaryImage_; discriminate|].
      destruct secondaryImage_ as [f|].
      * intros _. split; [reflexivity|]. split; [right; discriminate | reflexivity].
      * destruct (trimIsEmpty (String c p)); [discriminate|].
        intros _. split; [reflexivity|]. split; [left; reflexivity | reflexivity].
Qed.

End PanelPrompt.

Section PanelOnSample.

(** A preset clicked after some text was typed. *)
Lemma panel_prompt_is_last_choice_witness :
  let s :=
    Panels.run [Panels.CustomChange "warmer light"; Panels.PresetClick "anime"]
      Panels.initialState in
  Panels.filterButtonEnabled false s = true
  /\ Panels.filterApply s = Some "anime"
  /\ Panels.customPrompt s = EmptyString.
Proof.
  intros s.
  assert (He : Panels.filterButtonEnabled false s = true) by reflexivity.
  destruct (panel_prompt_is_last_choice
              [Panels.CustomChange "warmer light"; Panels.PresetClick "anime"]
              false None) as (_ & _ & _ & Hf & _).
  destruct (Hf He) as (_ & _ & Ha).
  split; [exact He|]. split; [exact Ha | reflexivity].
Defined.

End PanelOnSample.
